(** * sacamantecas: the metadata extraction pipeline

    A shallow embedding of [sacamantecas.py]: the catalogue page parser
    ([LibraryCatalogueHTMLParser]), the content fetcher
    ([retrieve_uri_contents]), the Manteca sources and Skimmed sinks, and
    the per-URI loop of [main].

    Conventions.
    - A Python [str] is a list of Unicode code points ([pystr]); a Python
      [bytes] object is a list of [byte].
    - A raised exception is the left summand of [Exc]; [let*] sequences
      fallible steps.
    - A [dict] is an association list in insertion order, as Python
      dictionaries iterate.
    - What lives outside the program (the network behind [urlopen], the
      codec registry behind [bytes.decode], the tokenizer of
      [html.parser.HTMLParser], the address parser and the Unicode tables
      [urlparse] consults) is the [Runtime] interface.
    - A call that can both change an object and raise gives the object as
      the call leaves it, together with the exception raised, if any. *)

From Stdlib Require Import NArith PArith ZArith List Bool Lia ZifyBool.
From Stdlib Require Import Strings.String Strings.Ascii Strings.Byte.
From Stdlib Require Import DecimalString.
From stdpp Require Import base list sorting.
Import ListNotations.

(** ** Python values *)

Definition pystr := list N.
Definition bytes := list byte.

(** An ASCII literal as a [str] and as a [bytes] object. *)
Definition py (s : string) : pystr := map Byte.to_N (list_byte_of_string s).
Definition pyb (s : string) : bytes := list_byte_of_string s.
Arguments py s%_string.
Arguments pyb s%_string.

(** The double quote, which the literals below splice in. *)
Definition dquote : string := String (ascii_of_nat 34) EmptyString.

Definition str_eqb (a b : pystr) : bool := bool_decide (a = b).

(** [str.isspace] on one code point (the Unicode white space table). *)
Definition py_isspace (c : N) : bool :=
  ((9 <=? c) && (c <=? 13) || (28 <=? c) && (c <=? 32) || (c =? 133)
   || (c =? 160) || (c =? 5760) || (8192 <=? c) && (c <=? 8202)
   || (c =? 8232) || (c =? 8233) || (c =? 8239) || (c =? 8287)
   || (c =? 12288))%N.

(** [s.startswith(prefix)]. *)
Fixpoint startswith (prefix s : pystr) : bool :=
  match prefix, s with
  | [], _ => true
  | _ :: _, [] => false
  | a :: prefix', c :: s' => (a =? c)%N && startswith prefix' s'
  end.

(** [sub in s]: substring test. *)
Fixpoint contains (sub s : pystr) : bool :=
  startswith sub s ||
  match s with
  | [] => false
  | _ :: s' => contains sub s'
  end.

(** [s.split()]: the maximal runs of non-space characters. [cur] holds the
    current run, reversed. *)
Fixpoint split_from (cur : pystr) (s : pystr) : list pystr :=
  match s with
  | [] => match cur with [] => [] | _ => [rev cur] end
  | c :: s' =>
      if py_isspace c
      then match cur with
           | [] => split_from [] s'
           | _ => rev cur :: split_from [] s'
           end
      else split_from (c :: cur) s'
  end.

Definition split (s : pystr) : list pystr := split_from [] s.

(** [sep.join(parts)]. *)
Fixpoint join (sep : pystr) (parts : list pystr) : pystr :=
  match parts with
  | [] => []
  | [p] => p
  | p :: rest => p ++ sep ++ join sep rest
  end.

(** [s.lstrip(chars)], [s.rstrip(chars)] with the set of characters given
    as a predicate; [s.strip()] removes white space at both ends. *)
Fixpoint lstrip_by (f : N -> bool) (s : pystr) : pystr :=
  match s with
  | [] => []
  | c :: s' => if f c then lstrip_by f s' else s
  end.

Definition rstrip_by (f : N -> bool) (s : pystr) : pystr :=
  rev (lstrip_by f (rev s)).

Definition rstrip (chars s : pystr) : pystr :=
  rstrip_by (fun c => existsb (N.eqb c) chars) s.

Definition strip (s : pystr) : pystr :=
  rstrip_by py_isspace (lstrip_by py_isspace s).

(** ** Exceptions *)

(** The exception classes the program can meet. [UnicodeDecodeError] is a
    subclass of [ValueError]; its message never starts with
    ['unknown url type:']. [URLError] and [ConnectionError] are unrelated
    subclasses of [OSError]. *)
Inductive exn : Type :=
| ConnectionError
| URLError (reason : pystr)
| ValueError (msg : pystr)
| UnicodeDecodeError
| LookupError
| TypeError
| OtherError (name : pystr).

(** Three more classes, of [openpyxl], of the text encoder and of
    indexing; none is a [ConnectionError] or a [URLError]. *)
Definition IllegalCharacterError : exn :=
  OtherError (py "IllegalCharacterError").
Definition UnicodeEncodeError : exn := OtherError (py "UnicodeEncodeError").
Definition IndexError : exn := OtherError (py "IndexError").

Definition Exc (A : Type) : Type := (exn + A)%type.
Definition ok {A} (a : A) : Exc A := inr a.
Definition raise {A} (e : exn) : Exc A := inl e.

Definition bind {A B} (m : Exc A) (k : A -> Exc B) : Exc B :=
  match m with
  | inl e => inl e
  | inr a => k a
  end.

Notation "'let*' x ':=' m 'in' k" := (bind m (fun x => k))
  (at level 10, x pattern, m at level 200, k at level 200).

(** [bytes.decode('ascii')]. *)
Definition decode_ascii (bs : bytes) : Exc pystr :=
  if forallb (fun c => (Byte.to_N c <? 128)%N) bs
  then ok (map Byte.to_N bs)
  else raise UnicodeDecodeError.

(** ** Dictionaries *)

Section Dict.
Context {V : Type}.

Definition dict := list (pystr * V).

Fixpoint dict_get (k : pystr) (d : dict) : option V :=
  match d with
  | [] => None
  | (k', v) :: d' => if str_eqb k k' then Some v else dict_get k d'
  end.

Definition dict_mem (k : pystr) (d : dict) : bool :=
  match dict_get k d with Some _ => true | None => false end.

(** [d[k] = v]: a key already present keeps its place and takes the new
    value; a new key goes last. *)
Fixpoint dict_set (k : pystr) (v : V) (d : dict) : dict :=
  match d with
  | [] => [(k, v)]
  | (k', v') :: d' =>
      if str_eqb k k' then (k', v) :: d' else (k', v') :: dict_set k v d'
  end.

Definition dict_keys (d : dict) : list pystr := map fst d.
Definition dict_values (d : dict) : list V := map snd d.
End Dict.
Arguments dict V : clear implicits.

(** ** The catalogue page parser: [LibraryCatalogueHTMLParser] *)

(** The handler calls [HTMLParser] dispatches while it scans a page. The
    value of an attribute written without one ([<div class>]) is [None].
    [handle_startendtag] is inherited: it calls [handle_starttag] and then
    [handle_endtag]. Comments, declarations and processing instructions
    reach handlers the class does not override. *)
Inductive Event : Type :=
| Starttag (tag : pystr) (attrs : list (pystr * option pystr))
| Endtag (tag : pystr)
| Startendtag (tag : pystr) (attrs : list (pystr * option pystr))
| Data (data : pystr)
| Comment (data : pystr)
| Decl (data : pystr)
| Pi (data : pystr).

(** The attributes [__init__] gives the parser object. *)
Record Parser : Type := mkParser {
  within_k_tag : bool;
  within_v_tag : bool;
  k_class : pystr;
  v_class : pystr;
  current_key : pystr;
  current_value : pystr;
  retrieved_metadata : dict pystr
}.

Definition Parser_init (k_class v_class : pystr) : Parser :=
  {| within_k_tag := false;
     within_v_tag := false;
     k_class := k_class;
     v_class := v_class;
     current_key := [];
     current_value := [];
     retrieved_metadata := [] |}.

Definition set_within_k (b : bool) (p : Parser) : Parser :=
  mkParser b (within_v_tag p) (k_class p) (v_class p)
           (current_key p) (current_value p) (retrieved_metadata p).
Definition set_within_v (b : bool) (p : Parser) : Parser :=
  mkParser (within_k_tag p) b (k_class p) (v_class p)
           (current_key p) (current_value p) (retrieved_metadata p).
Definition set_current_key (s : pystr) (p : Parser) : Parser :=
  mkParser (within_k_tag p) (within_v_tag p) (k_class p) (v_class p)
           s (current_value p) (retrieved_metadata p).
Definition set_current_value (s : pystr) (p : Parser) : Parser :=
  mkParser (within_k_tag p) (within_v_tag p) (k_class p) (v_class p)
           (current_key p) s (retrieved_metadata p).
Definition set_retrieved_metadata (d : dict pystr) (p : Parser) : Parser :=
  mkParser (within_k_tag p) (within_v_tag p) (k_class p) (v_class p)
           (current_key p) (current_value p) d.

(** The key stored when the key text is empty: ['[vac\u00EDo]']. *)
Definition EMPTY_KEY : pystr := py "[vac" ++ [237%N] ++ py "o]".

(** [marker in attr[1]]: a [TypeError] when the attribute has no value. *)
Definition marker_in (marker : pystr) (value : option pystr) : Exc bool :=
  match value with
  | Some v => ok (contains marker v)
  | None => raise TypeError
  end.

(** One turn of the loop of [handle_starttag]. *)
Definition starttag_attr (p : Parser) (attr : pystr * option pystr)
  : Exc Parser :=
  let* p1 :=
    (if str_eqb (fst attr) (py "class")
     then let* hit := marker_in (k_class p) (snd attr) in
          ok (if hit then set_current_key [] (set_within_k true p) else p)
     else ok p) in
  if str_eqb (fst attr) (py "class")
  then let* hit := marker_in (v_class p1) (snd attr) in
       ok (if hit then set_current_value [] (set_within_v true p1) else p1)
  else ok p1.

Fixpoint handle_starttag_attrs (p : Parser)
    (attrs : list (pystr * option pystr)) : Exc Parser :=
  match attrs with
  | [] => ok p
  | attr :: attrs' =>
      let* p' := starttag_attr p attr in handle_starttag_attrs p' attrs'
  end.

Definition handle_starttag (p : Parser) (tag : pystr)
    (attrs : list (pystr * option pystr)) : Exc Parser :=
  handle_starttag_attrs p attrs.

Definition handle_endtag (p : Parser) (tag : pystr) : Parser :=
  let p1 := if within_k_tag p then set_within_k false p else p in
  if within_v_tag p1
  then
    let p2 := set_within_v false p1 in
    let p3 := match current_key p2 with
              | [] => set_current_key EMPTY_KEY p2
              | _ :: _ => p2
              end in
    let p4 := set_retrieved_metadata
                (dict_set (current_key p3) (current_value p3)
                          (retrieved_metadata p3)) p3 in
    set_current_value [] (set_current_key [] p4)
  else p1.

Definition handle_data (p : Parser) (data : pystr) : Parser :=
  let within := within_k_tag p || within_v_tag p in
  let data' := if within then join (py " ") (split data) else data in
  match within, data' with
  | true, [] => p
  | _, _ =>
      let p1 := if within_k_tag p
                then set_current_key
                       (current_key p ++ rstrip (py ":") data') p
                else p in
      if within_v_tag p1
      then
        let p2 := match current_value p1 with
                  | [] => p1
                  | _ :: _ =>
                      set_current_value (current_value p1 ++ py " / ") p1
                  end in
        set_current_value (current_value p2 ++ data') p2
      else p1
  end.

(** What each dispatched call does to the parser. *)
Definition handle_event (p : Parser) (ev : Event) : Exc Parser :=
  match ev with
  | Starttag tag attrs => handle_starttag p tag attrs
  | Endtag tag => ok (handle_endtag p tag)
  | Startendtag tag attrs =>
      let* p' := handle_starttag p tag attrs in ok (handle_endtag p' tag)
  | Data data => ok (handle_data p data)
  | Comment _ | Decl _ | Pi _ => ok p
  end.

Fixpoint feed_events (p : Parser) (evs : list Event) : Exc Parser :=
  match evs with
  | [] => ok p
  | ev :: evs' => let* p' := handle_event p ev in feed_events p' evs'
  end.

(** [parse], given the calls that [feed] and [close] dispatch for the page:
    the result dictionary is emptied, nothing else is reset, and the
    object returned is the parser's own [retrieved_metadata]. *)
Definition parse_events (p : Parser) (evs : list Event) : Exc Parser :=
  feed_events (set_retrieved_metadata [] p) evs.

(** The contents of the dictionary [parse] returns, as it returns. *)
Definition parse_result (p : Parser) (evs : list Event)
  : Exc (dict pystr) :=
  let* p' := parse_events p evs in ok (retrieved_metadata p').

(** ** Regular expressions over bytes *)

(** The three patterns of [retrieve_uri_contents] are sequences of
    literals and of greedy repetitions of one character class, with one
    capturing group around a repetition. [re.search] with [re.I] is
    modelled for that fragment: the leftmost start wins, each repetition
    first takes the longest run and gives characters back one at a time,
    and literals compare without regard to ASCII case. *)
Inductive item : Type :=
| Lit (s : bytes)
| Rep (cls : byte -> bool) (min : nat) (capture : bool).

Definition lower_byte (c : byte) : N :=
  let n := Byte.to_N c in
  if ((65 <=? n) && (n <=? 90))%N then (n + 32)%N else n.

Fixpoint match_lit (lit s : bytes) : option bytes :=
  match lit, s with
  | [], _ => Some s
  | _ :: _, [] => None
  | a :: lit', c :: s' =>
      if (lower_byte a =? lower_byte c)%N then match_lit lit' s' else None
  end.

Fixpoint run_length (cls : byte -> bool) (s : bytes) : nat :=
  match s with
  | [] => 0
  | c :: s' => if cls c then S (run_length cls s') else 0
  end.

(** A greedy repetition that may use up to [k] characters: the longest
    use [attempt] accepts, of at least [min] characters. *)
Fixpoint give_back (attempt : nat -> option (option bytes)) (min k : nat)
  : option (option bytes) :=
  if (k <? min)%nat then None
  else
    match attempt k with
    | Some r => Some r
    | None => match k with
              | O => None
              | Datatypes.S k' => give_back attempt min k'
              end
    end.

(** A match of [pat] that starts at the head of [s]; the result is the
    text of the group. *)
Fixpoint match_here (pat : list item) (s : bytes) (group : option bytes)
  : option (option bytes) :=
  match pat with
  | [] => Some group
  | Lit l :: pat' =>
      match match_lit l s with
      | Some s' => match_here pat' s' group
      | None => None
      end
  | Rep cls min capture :: pat' =>
      give_back
        (fun k => match_here pat' (drop k s)
                    (if capture then Some (take k s) else group))
        min (run_length cls s)
  end.

Fixpoint search (pat : list item) (s : bytes) : option (option bytes) :=
  match match_here pat s None with
  | Some r => Some r
  | None => match s with
            | [] => None
            | _ :: s' => search pat s'
            end
  end.

(** [re.search(pat, s, re.I)] followed by [match.group(1)]; [None] when
    there is no match. *)
Definition re_search (pat : list item) (s : bytes) : option bytes :=
  match search pat s with
  | Some (Some g) => Some g
  | _ => None
  end.

Definition is_byte (n : N) (c : byte) : bool := (Byte.to_N c =? n)%N.
Definition not_byte (n : N) (c : byte) : bool := negb (is_byte n c).

(** The class [\s] of a bytes pattern: space, tab, newline, return, form
    feed and vertical tab. *)
Definition re_space (c : byte) : bool :=
  let n := Byte.to_N c in ((n =? 32) || (9 <=? n) && (n <=? 13))%N.

(** [<meta http-equiv=\x22refresh\x22 content=\x22[^;]+;\s*url=([^\x22]+)\x22],
    writing [\x22] for the double quote. *)
Definition RE_REFRESH : list item :=
  [ Lit (pyb ("<meta http-equiv=" ++ dquote ++ "refresh" ++ dquote
              ++ " content=" ++ dquote));
    Rep (not_byte 59) 1 false;
    Lit (pyb ";");
    Rep re_space 0 false;
    Lit (pyb "url=");
    Rep (not_byte 34) 1 true;
    Lit (pyb dquote) ].

(** [<meta http-equiv=\x22content-type\x22.*charset=([^\x22]+)\x22] *)
Definition RE_CONTENT_TYPE : list item :=
  [ Lit (pyb ("<meta http-equiv=" ++ dquote ++ "content-type" ++ dquote));
    Rep (not_byte 10) 0 false;
    Lit (pyb "charset=");
    Rep (not_byte 34) 1 true;
    Lit (pyb dquote) ].

(** [<meta charset=\x22([^\x22]+)\x22] *)
Definition RE_META_CHARSET : list item :=
  [ Lit (pyb ("<meta charset=" ++ dquote));
    Rep (not_byte 34) 1 true;
    Lit (pyb dquote) ].

(** ** The runtime the program runs on *)

(** What [urlopen(uri)] hands back once the body has been read: the body
    and [headers.get_content_charset()]. *)
Record Response : Type := mkResponse {
  contents : bytes;
  content_charset : option pystr
}.

(** The two classes of address [ipaddress.ip_address] returns. *)
Inductive IPAddress : Type := IPv4Address | IPv6Address.

(** The parts of the world the program talks to.
    - [urlopen w uri] performs one GET in the network state [w]: it gives
      the next network state and either the response or the exception
      raised while opening or reading it.
    - [decode charset body] is [body.decode(charset)], with Python's codec
      registry behind it.
    - [goahead t page] is [feed(page)] followed by [close()] on the
      [HTMLParser] base object in state [t]: the handler calls it
      dispatches, in order, and its next state.
    - [ip_address text] is [ipaddress.ip_address(text)]: the class of the
      address, or the exception raised for a text that is no address.
    - [nfkc text] is [unicodedata.normalize('NFKC', text)]. *)
Class Runtime : Type := {
  World : Type;
  urlopen : World -> pystr -> World * Exc Response;
  decode : pystr -> bytes -> Exc pystr;
  Tokenizer : Type;
  goahead : Tokenizer -> pystr -> Tokenizer * list Event;
  ip_address : pystr -> Exc IPAddress;
  nfkc : pystr -> pystr
}.

(** ** [urllib.parse] *)

(** What the program reads of [urlparse(uri)]: the scheme and the network
    location. The text after them (path, parameters, query, fragment) is
    kept whole in [rest]. This is [urlsplit] of CPython 3.12 (as of
    3.12.9): the split, and the two checks of the network location that
    make it raise [ValueError]. *)
Record ParseResult : Type := mkParseResult {
  scheme : pystr;
  netloc : pystr;
  rest : pystr
}.

Definition is_alpha (c : N) : bool :=
  ((65 <=? c) && (c <=? 90) || (97 <=? c) && (c <=? 122))%N.
Definition is_digit (c : N) : bool := ((48 <=? c) && (c <=? 57))%N.
Definition scheme_char (c : N) : bool :=
  (is_alpha c || is_digit c || (c =? 43) || (c =? 45) || (c =? 46))%N.
Definition lower_char (c : N) : N :=
  if ((65 <=? c) && (c <=? 90))%N then (c + 32)%N else c.
Definition is_hex (c : N) : bool :=
  (is_digit c || (65 <=? c) && (c <=? 70) || (97 <=? c) && (c <=? 102))%N.

Definition nonempty (s : pystr) : bool :=
  match s with [] => false | _ :: _ => true end.

(** The text before and after the first character that satisfies [f]. *)
Fixpoint split_first (f : N -> bool) (s : pystr) : option (pystr * pystr) :=
  match s with
  | [] => None
  | c :: s' =>
      if f c then Some ([], s')
      else match split_first f s' with
           | Some (a, b) => Some (c :: a, b)
           | None => None
           end
  end.

(** The text up to the first character that satisfies [f], and the text
    from that character on. *)
Fixpoint span_until (f : N -> bool) (s : pystr) : pystr * pystr :=
  match s with
  | [] => ([], [])
  | c :: s' =>
      if f c then ([], s)
      else let '(a, b) := span_until f s' in (c :: a, b)
  end.

(** [s.partition(c)[0]], [s.partition(c)[2]] and [s.rpartition(c)[2]]
    for a one-character [c]. *)
Definition partition_before (c : N) (s : pystr) : pystr :=
  match split_first (N.eqb c) s with
  | Some (before, _) => before
  | None => s
  end.

Definition partition_after (c : N) (s : pystr) : pystr :=
  match split_first (N.eqb c) s with
  | Some (_, after) => after
  | None => []
  end.

Definition rpartition_after (c : N) (s : pystr) : pystr :=
  rev (partition_before c (rev s)).

(** [re.match(r'\Av[a-fA-F0-9]+\..+\Z', hostname)]: the letter v, one or
    more hexadecimal digits, a dot, and one or more characters other than
    a newline up to the end. *)
Definition ipvfuture (hostname : pystr) : bool :=
  match hostname with
  | 118%N :: more =>
      let '(digits, after) := span_until (fun c => negb (is_hex c)) more in
      nonempty digits
      && match after with
         | 46%N :: tail =>
             nonempty tail && forallb (fun c => negb (c =? 10)%N) tail
         | _ => false
         end
  | _ => false
  end.

Section Urllib.
Context {R : Runtime}.

(** [_check_bracketed_host]. *)
Definition check_bracketed_host (hostname : pystr) : Exc unit :=
  if startswith (py "v") hostname
  then
    if ipvfuture hostname then ok tt
    else raise (ValueError (py "IPvFuture address is invalid"))
  else
    let* ip := ip_address hostname in
    match ip with
    | IPv4Address =>
        raise (ValueError (py "An IPv4 address cannot be in brackets"))
    | IPv6Address => ok tt
    end.

(** [_check_bracketed_netloc]: in the part of the network location
    after the user information, nothing may stand before the opening
    bracket, and after the closing bracket only a colon and a port. *)
Definition check_bracketed_netloc (netloc : pystr) : Exc unit :=
  let hostname_and_port := rpartition_after 64 netloc in
  match split_first (N.eqb 91) hostname_and_port with
  | Some (before_bracket, bracketed) =>
      if nonempty before_bracket
      then raise (ValueError (py "Invalid IPv6 URL"))
      else
        let hostname := partition_before 93 bracketed in
        let port := partition_after 93 bracketed in
        if nonempty port && negb (startswith (py ":") port)
        then raise (ValueError (py "Invalid IPv6 URL"))
        else check_bracketed_host hostname
  | None => check_bracketed_host (partition_before 58 hostname_and_port)
  end.

(** The brackets of the network location: one kind without the other is
    an error, and with both the bracketed host is checked. *)
Definition check_brackets (netloc : pystr) : Exc unit :=
  let opening := existsb (N.eqb 91) netloc in
  let closing := existsb (N.eqb 93) netloc in
  if (opening && negb closing) || (closing && negb opening)
  then raise (ValueError (py "Invalid IPv6 URL"))
  else if opening && closing then check_bracketed_netloc netloc
  else ok tt.

(** [_checknetloc]: a network location that is not ASCII must not gain
    one of the characters [/?#@:] under NFKC normalization. *)
Definition checknetloc (netloc : pystr) : Exc unit :=
  if negb (nonempty netloc) || forallb (fun c => (c <? 128)%N) netloc
  then ok tt
  else
    let n :=
      filter (fun c => negb ((c =? 64) || (c =? 58) || (c =? 35)
                             || (c =? 63))%N) netloc in
    let netloc2 := nfkc n in
    if str_eqb n netloc2 then ok tt
    else if existsb (fun c => existsb (N.eqb c) netloc2) (py "/?#@:")
    then raise (ValueError
                  (py "netloc '" ++ netloc
                   ++ py "' contains invalid characters under NFKC normalization"))
    else ok tt.

Definition urlparse (url : pystr) : Exc ParseResult :=
  let url := lstrip_by (fun c => (c <=? 32)%N) url in
  let url := filter (fun c => negb ((c =? 9) || (c =? 10) || (c =? 13))%N)
                    url in
  let '(scheme, url) :=
    match split_first (N.eqb 58) url with
    | Some (c :: before, after) =>
        if is_alpha c && forallb scheme_char (c :: before)
        then (map lower_char (c :: before), after)
        else ([], url)
    | _ => ([], url)
    end in
  match url with
  | 47%N :: 47%N :: url' =>
      let '(netloc, rest) :=
        span_until (fun c => (c =? 47) || (c =? 63) || (c =? 35))%N url' in
      let* _ := check_brackets netloc in
      let* _ := checknetloc netloc in
      ok (mkParseResult scheme netloc rest)
  | _ => ok (mkParseResult scheme [] url)
  end.
End Urllib.

Definition uses_netloc : list pystr :=
  [ []; py "ftp"; py "http"; py "gopher"; py "nntp"; py "telnet";
    py "imap"; py "wais"; py "file"; py "mms"; py "https"; py "shttp";
    py "snews"; py "prospero"; py "rtsp"; py "rtspu"; py "rsync";
    py "svn"; py "svn+ssh"; py "sftp"; py "nfs"; py "git"; py "git+ssh";
    py "ws"; py "wss" ].

(** [urlunparse((scheme, netloc, url, params, query, fragment))], as in
    CPython up to 3.12. *)
Definition urlunparse (scheme netloc url params query fragment : pystr)
  : pystr :=
  let url := if nonempty params then url ++ py ";" ++ params else url in
  let url :=
    if nonempty netloc
       || (nonempty scheme && existsb (str_eqb scheme) uses_netloc
           && negb (startswith (py "//") url))
    then
      let url := if nonempty url && negb (startswith (py "/") url)
                 then py "/" ++ url else url in
      py "//" ++ netloc ++ url
    else url in
  let url := if nonempty scheme then scheme ++ py ":" ++ url else url in
  let url := if nonempty query then url ++ py "?" ++ query else url in
  if nonempty fragment then url ++ py "#" ++ fragment else url.

(** ** The content fetcher: [retrieve_uri_contents] *)

(** The handler of the [try] block: only a [ValueError] whose message
    starts with ['unknown url type:'] is turned into a [URLError]; [uri] is
    the value the variable holds when the exception is raised. *)
Definition unknown_url_type (uri : pystr) (e : exn) : exn :=
  match e with
  | ValueError msg =>
      if startswith (py "unknown url type:") msg
      then URLError (py "El URI '" ++ uri ++ py "' es de tipo desconocido.")
      else e
  | _ => e
  end.

(** The URI a meta refresh towards [target] leads to, [parsed] being
    [urlparse(uri)] for the URI of the page. *)
Definition redirected_uri (parsed : ParseResult) (target : pystr) : pystr :=
  urlunparse (scheme parsed) (netloc parsed) target [] [] [].

(** The charset the body is decoded with, given the one of the headers. *)
Definition detect_charset (charset : option pystr) (body : bytes)
  : Exc pystr :=
  match charset with
  | Some c => ok c
  | None =>
      match re_search RE_CONTENT_TYPE body with
      | Some g => decode_ascii g
      | None =>
          match re_search RE_META_CHARSET body with
          | Some g => decode_ascii g
          | None => ok (py "latin_1")
          end
      end
  end.

Section Fetch.
Context {R : Runtime}.

(** The [try] block: the body and the header charset of the page, or of
    the page it redirects to. On a match the URI is parsed first, then the
    target is decoded; an exception of either is a [ValueError], which the
    handler raises again. *)
Definition retrieve_body (w : World) (uri : pystr) : World * Exc Response :=
  let '(w1, r1) := urlopen w uri in
  match r1 with
  | inl e => (w1, raise (unknown_url_type uri e))
  | inr first =>
      match re_search RE_REFRESH (contents first) with
      | Some g =>
          match urlparse uri with
          | inl e => (w1, raise (unknown_url_type uri e))
          | inr parsed =>
              match decode_ascii g with
              | inl e => (w1, raise e)
              | inr target =>
                  let uri' := redirected_uri parsed target in
                  let '(w2, r2) := urlopen w1 uri' in
                  match r2 with
                  | inl e => (w2, raise (unknown_url_type uri' e))
                  | inr second => (w2, ok second)
                  end
              end
          end
      | None => (w1, ok first)
      end
  end.

Definition decode_body (resp : Response) : Exc pystr :=
  let* charset := detect_charset (content_charset resp) (contents resp) in
  decode charset (contents resp).

Definition retrieve_uri_contents (w : World) (uri : pystr)
  : World * Exc pystr :=
  let '(w', r) := retrieve_body w uri in
  (w', let* resp := r in decode_body resp).

(** [parse(contents)] on the parser object, whose base part is the
    tokenizer. *)
Definition parse (t : Tokenizer) (p : Parser) (page : pystr)
  : Tokenizer * Exc Parser :=
  let '(t', evs) := goahead t page in (t', parse_events p evs).
End Fetch.

(** ** Worksheets *)

(** A cell of an [openpyxl] worksheet: its coordinates, its [data_type]
    and its value, which is a string or something else (a number, a date,
    [None]). A workbook read from a file has the data type ['s'] on the
    cells that hold a string, and on cells declared as strings that hold
    no value. *)
Inductive CellValue : Type :=
| StrValue (value : pystr)
| OtherValue.

Record Cell : Type := mkCell {
  cell_row : positive;
  cell_column : positive;
  data_type : pystr;
  cell_value : CellValue
}.

(** [str(n)] for a positive integer. *)
Definition str_of_pos (n : positive) : pystr :=
  py (NilEmpty.string_of_uint (Pos.to_uint n)).

(** The letters of a column, the last one first in [letters]. *)
Fixpoint column_letters (fuel : nat) (col_idx : N) : pystr :=
  match fuel with
  | O => []
  | Datatypes.S fuel' =>
      if (col_idx =? 0)%N then []
      else
        let '(quotient, remainder) :=
          if (col_idx mod 26 =? 0)%N then (col_idx / 26 - 1, 26)%N
          else (col_idx / 26, col_idx mod 26)%N in
        column_letters fuel' quotient ++ [(remainder + 64)%N]
  end.

(** [get_column_letter]: columns run from A (1) to ZZZ (18278). *)
Definition get_column_letter (col_idx : positive) : Exc pystr :=
  if (col_idx <=? 18278)%positive
  then ok (column_letters 3 (Npos col_idx))
  else raise (ValueError (py "Invalid column index " ++ str_of_pos col_idx)).

(** [cell.coordinate]: the letters of the column and the row. *)
Definition coordinate (c : Cell) : Exc pystr :=
  let* col := get_column_letter (cell_column c) in
  ok (col ++ str_of_pos (cell_row c)).

(** ** Manteca sources *)

(** A generator is the records it yields and the exception that ends it,
    if one does: a [for] loop over it runs its body on each record and
    then raises that exception. *)
Class MantecaFile (M : Type) : Type := {
  get_mantecas : M -> list (positive * pystr) * option exn
}.

Record MantecaExcel : Type := mkMantecaExcel { rows : list (list Cell) }.
Record MantecaText : Type := mkMantecaText { lines : list pystr }.

Section Sources.
Context {R : Runtime}.

(** The inner loop of [MantecaExcel.get_mantecas]: the first cell of data
    type ['s'] whose scheme starts with ['http']. The log messages for a
    cell that is passed over for its type and for a cell that is yielded
    need [cell.coordinate]. [urlparse] raises [ValueError] on some
    strings, and its result for a value that is not a string has a scheme
    that is not a string, on which [startswith] raises [TypeError]. *)
Fixpoint first_manteca (row : list Cell) : Exc (list (positive * pystr)) :=
  match row with
  | [] => ok []
  | cell :: row' =>
      if negb (str_eqb (data_type cell) (py "s"))
      then let* _ := coordinate cell in first_manteca row'
      else
        match cell_value cell with
        | OtherValue => raise TypeError
        | StrValue value =>
            let* parsed := urlparse value in
            if startswith (py "http") (scheme parsed)
            then let* _ := coordinate cell in ok [(cell_row cell, value)]
            else first_manteca row'
        end
  end.

(** One turn of the outer loop: the log message needs [row[0]]. *)
Definition scan_row (row : list Cell) : Exc (list (positive * pystr)) :=
  match row with
  | [] => raise IndexError
  | _ :: _ => first_manteca row
  end.

(** [MantecaExcel.get_mantecas], over [self.sheet.rows]. *)
Fixpoint MantecaExcel_get_mantecas (rows : list (list Cell))
  : list (positive * pystr) * option exn :=
  match rows with
  | [] => ([], None)
  | row :: rows' =>
      match scan_row row with
      | inl e => ([], Some e)
      | inr found =>
          let '(more, failure) := MantecaExcel_get_mantecas rows' in
          (found ++ more, failure)
      end
  end.

#[export] Instance MantecaExcel_file : MantecaFile MantecaExcel :=
  {| get_mantecas m := MantecaExcel_get_mantecas (rows m) |}.
End Sources.

(** [enumerate(lines, start)] filtered as [MantecaText.get_mantecas]
    does. *)
Fixpoint MantecaText_from (row : positive) (lines : list pystr)
  : list (positive * pystr) :=
  match lines with
  | [] => []
  | line :: lines' =>
      let uri := strip line in
      (if nonempty uri then [(row, uri)] else [])
        ++ MantecaText_from (Pos.succ row) lines'
  end.

(** [MantecaText.get_mantecas], over [self.file.readlines()]. *)
Definition MantecaText_get_mantecas (lines : list pystr)
  : list (positive * pystr) :=
  MantecaText_from 1 lines.

#[export] Instance MantecaText_file : MantecaFile MantecaText :=
  {| get_mantecas m := (MantecaText_get_mantecas (lines m), None) |}.

(** ** Skimmed sinks *)

Definition CONFIG_K_DIV_CLASS : pystr := py "auth".
Definition CONFIG_V_DIV_CLASS : pystr := py "titn".
Definition CONFIG_PREFIX : pystr := py "[sm] ".

(** [add_metadata] gives the sink as the call leaves it and the exception
    it raises, if any. *)
Class SkimmedFile (Sink : Type) : Type := {
  add_metadata : Sink -> positive -> pystr -> dict pystr
                 -> Sink * option exn
}.

(** *** Writing to a worksheet

    The worksheet of the output workbook is the collection of its cells,
    one per coordinate, as [openpyxl] 3.1 keeps it. Fonts, fills and
    column widths are not represented. *)

(** [sheet.max_column]: the largest column that holds a cell, 1 on an
    empty sheet. *)
Definition max_column (ws : list Cell) : positive :=
  fold_right Pos.max 1%positive (map cell_column ws).

(** The characters [ILLEGAL_CHARACTERS_RE] finds: the control characters
    other than tab, newline and return. *)
Definition ILLEGAL_CHARACTERS (c : N) : bool :=
  ((c <=? 8) || (11 <=? c) && (c <=? 12) || (14 <=? c) && (c <=? 31))%N.

Definition ERROR_CODES : list pystr :=
  [ py "#NULL!"; py "#DIV/0!"; py "#VALUE!"; py "#REF!"; py "#NAME?";
    py "#NUM!"; py "#N/A" ].

(** [Cell.check_string]: the string is cut at 32767 characters, then
    refused when it holds an illegal character. *)
Definition check_string (value : pystr) : Exc pystr :=
  let value := take (N.to_nat 32767) value in
  if existsb ILLEGAL_CHARACTERS value then raise IllegalCharacterError
  else ok value.

(** The data type a checked string is stored with. *)
Definition string_data_type (value : pystr) : pystr :=
  if (1 <? length value)%nat && startswith (py "=") value then py "f"
  else if existsb (str_eqb value) ERROR_CODES then py "e"
  else py "s".

(** [cell.value = value] for a string: the data type is set to ['s']
    before the string is checked, the value after. *)
Definition bind_value (c : Cell) (value : pystr) : Cell * option exn :=
  match check_string value with
  | inl e => (mkCell (cell_row c) (cell_column c) (py "s") (cell_value c),
              Some e)
  | inr checked =>
      (mkCell (cell_row c) (cell_column c) (string_data_type checked)
              (StrValue checked), None)
  end.

(** The cell at a coordinate, created empty when it is missing, bound
    to [value]. *)
Fixpoint ws_bind (ws : list Cell) (row column : positive) (value : pystr)
  : list Cell * option exn :=
  match ws with
  | [] =>
      let '(c, raised) :=
        bind_value (mkCell row column (py "n") OtherValue) value in
      ([c], raised)
  | c :: ws' =>
      if ((cell_row c =? row) && (cell_column c =? column))%positive
      then let '(c', raised) := bind_value c value in (c' :: ws', raised)
      else
        let '(ws'', raised) := ws_bind ws' row column value in
        (c :: ws'', raised)
  end.

(** [sheet.cell(row, column, value=value)] for a string: rows run from 1
    to 1048576. *)
Definition ws_cell (ws : list Cell) (row column : positive) (value : pystr)
  : list Cell * option exn :=
  if (1048576 <? row)%positive
  then (ws, Some (ValueError
                    (py "Row numbers must be between 1 and 1048576. "
                     ++ py "Row number supplied was " ++ str_of_pos row)))
  else ws_bind ws row column value.

(** The cell at a coordinate, if the sheet has that cell. *)
Fixpoint ws_get (ws : list Cell) (row column : positive) : option Cell :=
  match ws with
  | [] => None
  | c :: ws' =>
      if ((cell_row c =? row) && (cell_column c =? column))%positive
      then Some c
      else ws_get ws' row column
  end.

(** *** The spreadsheet sink *)

Record SkimmedExcel : Type := mkSkimmedExcel {
  metadata_columns : dict positive;
  sheet : list Cell
}.

Definition SkimmedExcel_init (ws : list Cell) : SkimmedExcel :=
  {| metadata_columns := []; sheet := ws |}.

(** The last statement of the loop body: the value goes to the column of
    the key. The lookup cannot miss: the key was found or has just been
    stored. *)
Definition SkimmedExcel_add_value (row : positive) (s : SkimmedExcel)
    (key value : pystr) : SkimmedExcel * option exn :=
  match dict_get key (metadata_columns s) with
  | Some column =>
      let '(ws, raised) := ws_cell (sheet s) row column value in
      ({| metadata_columns := metadata_columns s; sheet := ws |}, raised)
  | None => (s, None)
  end.

(** One turn of the loop of [SkimmedExcel.add_metadata]. A new key is
    stored with its column before [get_column_letter] is called for the
    log message and before the header cell is created. *)
Definition SkimmedExcel_add_item (row : positive) (s : SkimmedExcel)
    (item : pystr * pystr) : SkimmedExcel * option exn :=
  let key := CONFIG_PREFIX ++ fst item in
  if dict_mem key (metadata_columns s)
  then SkimmedExcel_add_value row s key (snd item)
  else
    let column := (max_column (sheet s) + 1)%positive in
    let s1 := {| metadata_columns := dict_set key column (metadata_columns s);
                 sheet := sheet s |} in
    match get_column_letter column with
    | inl e => (s1, Some e)
    | inr _ =>
        let '(ws, raised) := ws_cell (sheet s1) 1 column key in
        let s2 := {| metadata_columns := metadata_columns s1;
                     sheet := ws |} in
        match raised with
        | Some e => (s2, Some e)
        | None => SkimmedExcel_add_value row s2 key (snd item)
        end
    end.

(** The loop of [add_metadata], left at the first exception. *)
Fixpoint SkimmedExcel_add_items (row : positive) (s : SkimmedExcel)
    (items : dict pystr) : SkimmedExcel * option exn :=
  match items with
  | [] => (s, None)
  | item :: items' =>
      match SkimmedExcel_add_item row s item with
      | (s', None) => SkimmedExcel_add_items row s' items'
      | (s', Some e) => (s', Some e)
      end
  end.

Definition SkimmedExcel_add_metadata (s : SkimmedExcel) (row : positive)
    (uri : pystr) (metadata : dict pystr) : SkimmedExcel * option exn :=
  SkimmedExcel_add_items row s metadata.

#[export] Instance SkimmedExcel_file : SkimmedFile SkimmedExcel :=
  {| add_metadata := SkimmedExcel_add_metadata |}.

(** A sequence of [add_metadata] calls on one sink, each made on the sink
    as the call before left it, whether that call returned or raised. *)
Definition SkimmedExcel_calls (s : SkimmedExcel)
    (calls : list (positive * pystr * dict pystr)) : SkimmedExcel :=
  fold_left (fun s call => (add_metadata s call.1.1 call.1.2 call.2).1)
            calls s.

(** The last column a worksheet can have. *)
Definition LAST_COLUMN : positive := 18278.

(** The column assignment of a sink opened on a sheet whose last column
    was [base]: one entry per key, columns growing in order of assignment,
    all of them beyond [base] and within the sheet. *)
Definition columns_ok (base : positive) (s : SkimmedExcel) : Prop :=
  NoDup (dict_keys (metadata_columns s))
  /\ StronglySorted Pos.lt (dict_values (metadata_columns s))
  /\ Forall (fun c => (base < c <= max_column (sheet s))%positive)
            (dict_values (metadata_columns s))
  /\ (base <= max_column (sheet s))%positive.

(** What is left of [columns_ok] when a call has been left by an
    exception: one entry per key, columns growing in order of assignment,
    all of them beyond [base]. *)
Definition columns_sorted (base : positive) (s : SkimmedExcel) : Prop :=
  NoDup (dict_keys (metadata_columns s))
  /\ StronglySorted Pos.lt (dict_values (metadata_columns s))
  /\ Forall (fun c => (base < c)%positive)
            (dict_values (metadata_columns s)).

(** *** The text sink *)

(** The text sink is what has been written to the file, in order. *)
Record SkimmedText : Type := mkSkimmedText { written : list pystr }.

(** A string the UTF-8 encoder of the file accepts: one without
    surrogates. *)
Definition encodable (text : pystr) : bool :=
  forallb (fun c => negb ((55296 <=? c) && (c <=? 57343))%N) text.

(** [self.file.write(text)]. *)
Definition file_write (s : SkimmedText) (text : pystr)
  : SkimmedText * option exn :=
  if encodable text then ({| written := written s ++ [text] |}, None)
  else (s, Some UnicodeEncodeError).

Fixpoint SkimmedText_add_items (s : SkimmedText) (items : dict pystr)
  : SkimmedText * option exn :=
  match items with
  | [] => (s, None)
  | item :: items' =>
      match file_write s (py "    " ++ fst item ++ py ": " ++ snd item
                          ++ [10%N]) with
      | (s', None) => SkimmedText_add_items s' items'
      | (s', Some e) => (s', Some e)
      end
  end.

Definition SkimmedText_add_metadata (s : SkimmedText) (row : positive)
    (uri : pystr) (metadata : dict pystr) : SkimmedText * option exn :=
  match file_write s (py "[" ++ str_of_pos row ++ py "] " ++ uri
                      ++ [10%N]) with
  | (s', None) => SkimmedText_add_items s' metadata
  | (s', Some e) => (s', Some e)
  end.

#[export] Instance SkimmedText_file : SkimmedFile SkimmedText :=
  {| add_metadata := SkimmedText_add_metadata |}.

(** ** The loop of [main] *)

Definition NO_METADATA : pystr := py "No se obtuvieron metadatos".
Definition NO_CONNECT : pystr := py "No se pudo conectar".
Definition NO_ACCESS : pystr := py "No se pudo acceder".

(** The two [except] clauses of the loop body: the reason recorded for an
    exception they catch, [None] for one they let through. *)
Definition except_reason (e : exn) : option pystr :=
  match e with
  | ConnectionError => Some NO_CONNECT
  | URLError _ => Some NO_ACCESS
  | _ => None
  end.

Section Main.
Context {R : Runtime} {Sink : Type} {SF : SkimmedFile Sink}.

(** The objects the loop works on. *)
Record MainState : Type := mkMainState {
  world : World;
  tokenizer : Tokenizer;
  parser : Parser;
  skimmedfile : Sink;
  bad_uris : list (pystr * pystr)
}.

(** The outcome of the [try] statement for an exception raised in its
    body, the network being left in state [w]. *)
Definition main_except (st : MainState) (w : World) (uri : pystr)
    (e : exn) : MainState * option exn :=
  match except_reason e with
  | Some reason =>
      (mkMainState w (tokenizer st) (parser st) (skimmedfile st)
                   (bad_uris st ++ [(uri, reason)]), None)
  | None =>
      (mkMainState w (tokenizer st) (parser st) (skimmedfile st)
                   (bad_uris st), Some e)
  end.

(** One turn of the loop: the next state, and the exception that leaves
    the loop, if any. The entry for a page without metadata is added
    before the sink is called. *)
Definition main_iteration (st : MainState) (row : positive) (uri : pystr)
  : MainState * option exn :=
  let '(w, fetched) := retrieve_uri_contents (world st) uri in
  match fetched with
  | inl e => main_except st w uri e
  | inr page =>
      let '(t, parsed) := parse (tokenizer st) (parser st) page in
      match parsed with
      | inl e => main_except st w uri e
      | inr p =>
          let metadata := retrieved_metadata p in
          let bad :=
            match metadata with
            | [] => bad_uris st ++ [(uri, NO_METADATA)]
            | _ :: _ => bad_uris st
            end in
          let '(sink, raised) :=
            add_metadata (skimmedfile st) row uri metadata in
          match raised with
          | None => (mkMainState w t p sink bad, None)
          | Some e => main_except (mkMainState w t p sink bad) w uri e
          end
      end
  end.

Fixpoint main_loop (st : MainState) (mantecas : list (positive * pystr))
  : MainState * option exn :=
  match mantecas with
  | [] => (st, None)
  | (row, uri) :: mantecas' =>
      match main_iteration st row uri with
      | (st', None) => main_loop st' mantecas'
      | (st', Some e) => (st', Some e)
      end
  end.

(** [main] from the creation of the parser to the end of the loop, the
    source and the sink being open: the loop runs on the records the
    source yields, and the exception that ends the source, if any, leaves
    the loop after the last of them. *)
Definition main {M : Type} {MF : MantecaFile M} (w : World)
    (t : Tokenizer) (mantecafile : M) (sink : Sink)
  : MainState * option exn :=
  let '(mantecas, failure) := get_mantecas mantecafile in
  match main_loop
          (mkMainState w t (Parser_init CONFIG_K_DIV_CLASS CONFIG_V_DIV_CLASS)
                       sink [])
          mantecas with
  | (st, None) => (st, failure)
  | (st, Some e) => (st, Some e)
  end.
End Main.
Arguments MainState {R} Sink.

(** ** Regions *)

(** The two regions the parser tracks, with the flag, the marker and the
    buffer of each. *)
Inductive Region : Type := KeyRegion | ValueRegion.

Definition within (r : Region) (p : Parser) : bool :=
  match r with
  | KeyRegion => within_k_tag p
  | ValueRegion => within_v_tag p
  end.

Definition marker (r : Region) (p : Parser) : pystr :=
  match r with
  | KeyRegion => k_class p
  | ValueRegion => v_class p
  end.

Definition buffer (r : Region) (p : Parser) : pystr :=
  match r with
  | KeyRegion => current_key p
  | ValueRegion => current_value p
  end.

(** The calls that close no tag. *)
Definition closes_no_tag (ev : Event) : bool :=
  match ev with
  | Endtag _ | Startendtag _ _ => false
  | _ => true
  end.

(** An open tag carries the marker of [r] when one of its [class]
    attributes has a value the marker occurs in. *)
Definition carries_marker (r : Region) (p : Parser)
    (attrs : list (pystr * option pystr)) : Prop :=
  exists value, In (py "class", Some value) attrs
                /\ contains (marker r p) value = true.

(** No [class] attribute of the tag is written without a value. *)
Definition classes_valued (attrs : list (pystr * option pystr)) : Prop :=
  forall name, In (name, None) attrs -> name <> py "class".

(** The text [handle_data] works with inside a region. *)
Definition normalize (data : pystr) : pystr := join (py " ") (split data).

(** The buffer of [r] once [data] has been added to [buf]. *)
Definition appended (r : Region) (buf data : pystr) : pystr :=
  match r with
  | KeyRegion => buf ++ rstrip (py ":") (normalize data)
  | ValueRegion =>
      match normalize data, buf with
      | [], _ => buf
      | text, [] => text
      | text, _ :: _ => buf ++ py " / " ++ text
      end
  end.

(** The key a commit stores: the key text, or the sentinel when there is
    none. *)
Definition key_or_sentinel (key : pystr) : pystr :=
  match key with
  | [] => EMPTY_KEY
  | _ :: _ => key
  end.

(** The keys of a dictionary are distinct and none is the empty string. *)
Definition keys_ok (d : dict pystr) : Prop :=
  NoDup (dict_keys d) /\ Forall (fun k => k <> []) (dict_keys d).

(** ** A scripted runtime *)

(** A runtime read off two tables, to run the program on given pages: the
    network answers each URI as [site] says and logs the requests, the
    tokenizer dispatches for each page text the calls [pages] lists, the
    codec registry knows Latin-1, ASCII and UTF-8, the address parser
    knows the two loopback addresses, and normalization leaves a text as
    it is, which is what NFKC does to ASCII text. *)

(** Strict UTF-8; [pending] is the number of continuation bytes still
    due, the bits read so far and the least code point the sequence may
    encode. *)
Fixpoint utf_8_from (pending : option (nat * N * N)) (bs : bytes)
  : option pystr :=
  match bs with
  | [] => match pending with None => Some [] | Some _ => None end
  | c :: bs' =>
      let n := Byte.to_N c in
      match pending with
      | None =>
          if (n <? 128)%N then cons n <$> utf_8_from None bs'
          else if ((194 <=? n) && (n <=? 223))%N
          then utf_8_from (Some (0%nat, n - 192, 128)%N) bs'
          else if ((224 <=? n) && (n <=? 239))%N
          then utf_8_from (Some (1%nat, n - 224, 2048)%N) bs'
          else if ((240 <=? n) && (n <=? 244))%N
          then utf_8_from (Some (2%nat, n - 240, 65536)%N) bs'
          else None
      | Some (more, acc, least) =>
          if ((128 <=? n) && (n <=? 191))%N
          then
            let acc := (acc * 64 + (n - 128))%N in
            match more with
            | O =>
                if ((least <=? acc) && (acc <=? 1114111)
                    && negb ((55296 <=? acc) && (acc <=? 57343)))%N
                then cons acc <$> utf_8_from None bs'
                else None
            | Datatypes.S more' => utf_8_from (Some (more', acc, least)) bs'
            end
          else None
      end
  end.

Definition codec_decode (charset : pystr) (bs : bytes) : Exc pystr :=
  if existsb (str_eqb charset)
       [py "latin_1"; py "latin-1"; py "latin1"; py "iso-8859-1"]
  then ok (map Byte.to_N bs)
  else if existsb (str_eqb charset) [py "ascii"; py "us-ascii"]
  then decode_ascii bs
  else if existsb (str_eqb charset) [py "utf-8"; py "utf8"; py "utf_8"]
  then match utf_8_from None bs with
       | Some text => ok text
       | None => raise UnicodeDecodeError
       end
  else raise LookupError.

Definition Scripted (site : dict (Exc Response)) (pages : dict (list Event))
  : Runtime :=
  {| World := list pystr;
     urlopen w uri :=
       (w ++ [uri],
        match dict_get uri site with
        | Some r => r
        | None => raise (URLError (py "not found"))
        end);
     decode := codec_decode;
     Tokenizer := unit;
     goahead t page :=
       (t, match dict_get page pages with
           | Some evs => evs
           | None => [Data page]
           end);
     ip_address text :=
       if str_eqb text (py "::1") then ok IPv6Address
       else if str_eqb text (py "127.0.0.1") then ok IPv4Address
       else raise (ValueError
                     (py "'" ++ text
                      ++ py "' does not appear to be an IPv4 or IPv6 address"));
     nfkc text := text |}.

(** A sink that only records the calls it receives. *)
Record Recorder : Type := mkRecorder {
  calls : list (positive * pystr * dict pystr)
}.

#[export] Instance Recorder_file : SkimmedFile Recorder :=
  {| add_metadata r row uri metadata :=
       ({| calls := calls r ++ [(row, uri, metadata)] |}, None) |}.

(** ** Sample pages *)

(** The parser [main] creates, and pages given as the handler calls the
    tokenizer dispatches for them. Attribute values are written here
    without their quotes. *)
Definition new_parser : Parser :=
  Parser_init CONFIG_K_DIV_CLASS CONFIG_V_DIV_CLASS.

Definition class_attr (value : string) : pystr * option pystr :=
  (py "class", Some (py value)).

(** [<div class=auth><b>Au</b>tor</div><div class=titn>x</div>] *)
Definition nested_page : list Event :=
  [ Starttag (py "div") [class_attr "auth"];
    Starttag (py "b") []; Data (py "Au"); Endtag (py "b");
    Data (py "tor"); Endtag (py "div");
    Starttag (py "div") [class_attr "titn"]; Data (py "x");
    Endtag (py "div") ].

(** A two-page site. Page A, served as UTF-8, is
    [<meta http-equiv=refresh content=0;url=/b.html>] with the quotes in
    place; page B is the bytes of [caf] followed by [0xE9], served without
    a charset. *)
Definition uri_a : pystr := py "http://host/a.html".
Definition uri_b : pystr := py "http://host/b.html".

Definition page_a : Response :=
  mkResponse
    (pyb ("<meta http-equiv=" ++ dquote ++ "refresh" ++ dquote
          ++ " content=" ++ dquote ++ "0;url=/b.html" ++ dquote ++ ">"))
    (Some (py "utf-8")).

Definition page_b : Response := mkResponse (pyb "caf" ++ [xe9]) None.

Definition site_ab : dict (Exc Response) :=
  [(uri_a, ok page_a); (uri_b, ok page_b)].

(** A site whose first page is the byte [0xFF] served as UTF-8, and a
    list of two Mantecas on it. *)
Definition uri_bad : pystr := py "http://host/bad.html".

Definition site_bad : dict (Exc Response) :=
  [(uri_bad, ok (mkResponse [xff] (Some (py "utf-8")))); (uri_b, ok page_b)].

Definition runtime_bad : Runtime := Scripted site_bad [].

Definition mantecas_bad : MantecaText :=
  mkMantecaText [uri_bad ++ [10%N]; uri_b ++ [10%N]].

(** A site with a host that resets the connection, a host that cannot be
    reached and a page without metadata. *)
Definition uri_reset : pystr := py "http://reset/".
Definition uri_down : pystr := py "http://down/".

Definition site_failures : dict (Exc Response) :=
  [(uri_reset, raise ConnectionError);
   (uri_down, raise (URLError (py "timed out")));
   (uri_b, ok page_b)].

Definition runtime_failures : Runtime := Scripted site_failures [].

Definition mantecas_failures : list (positive * pystr) :=
  [(1%positive, uri_reset); (2%positive, uri_down); (3%positive, uri_b)].

(** A sheet with a heading and one book, and a sink opened on it that
    receives the author of row 2 and then the author of row 3. *)
Definition sample_sheet : list Cell :=
  [ mkCell 1 1 (py "s") (StrValue (py "Titulo"));
    mkCell 2 1 (py "s") (StrValue (py "Quijote"));
    mkCell 3 1 (py "s") (StrValue (py "Fuenteovejuna")) ].

(** Three rows of a sheet: the first has two URIs after a title, the
    second a string with an unbalanced bracket in its network location,
    the third a URI. *)
Definition bracket_rows : list (list Cell) :=
  [ [ mkCell 2 1 (py "s") (StrValue (py "Quijote"));
      mkCell 2 2 (py "s") (StrValue uri_a);
      mkCell 2 3 (py "s") (StrValue uri_b) ];
    [ mkCell 3 1 (py "n") OtherValue;
      mkCell 3 2 (py "s") (StrValue (py "http://[x/b.html")) ];
    [ mkCell 4 1 (py "s") (StrValue uri_b) ] ].

(** A site that serves, for [uri_a], the text of [nested_page]. *)
Definition nested_text : string :=
  "<div class=auth><b>Au</b>tor</div><div class=titn>x</div>".

Definition runtime_nested : Runtime :=
  Scripted [(uri_a, ok (mkResponse (pyb nested_text) None))]
           [(py nested_text, nested_page)].

(** A runtime without any page. *)
Definition runtime_offline : Runtime := Scripted [] [].

(** A sheet with a cell in the last column a worksheet can have. *)
Definition wide_sheet : list Cell :=
  [mkCell 1 18278 (py "s") (StrValue (py "ZZZ"))].

Definition sink_after_first : SkimmedExcel :=
  SkimmedExcel_calls (SkimmedExcel_init sample_sheet)
    [(2%positive, uri_a, [(py "Autor", py "Cervantes")])].

Definition sink_after_second : SkimmedExcel :=
  (add_metadata sink_after_first 3%positive uri_b
                [(py "Autor", py "Lope")]).1.

(** [<meta charset=utf-8>], quoted, and a body without any charset
    declaration. *)
Definition body_meta_utf8 : bytes :=
  pyb ("<meta charset=" ++ dquote ++ "utf-8" ++ dquote ++ ">").
Definition body_plain : bytes := pyb "<p>hola</p>".

(** Every capturing repetition of the pattern takes at least one
    character. *)
Definition captures_nonempty (pat : list item) : bool :=
  forallb (fun it => match it with
                     | Rep _ min true => (1 <=? min)%nat
                     | _ => true
                     end) pat.

(** The parser after [<div class=auth>], and after [<b>Au] inside it. *)
Definition key_opened : Parser :=
  set_current_key [] (set_within_k true new_parser).
Definition key_opened_Au : Parser := set_current_key (py "Au") key_opened.

(** [<div class=auth>Au<span class=auth>tor</span></div>
     <div class=titn>x</div>] *)
Definition reopened_page : list Event :=
  [ Starttag (py "div") [class_attr "auth"]; Data (py "Au");
    Starttag (py "span") [class_attr "auth"]; Data (py "tor");
    Endtag (py "span"); Endtag (py "div");
    Starttag (py "div") [class_attr "titn"]; Data (py "x");
    Endtag (py "div") ].

(** The parser inside [<div class=auth>Autor:</div><div class=titn>x],
    before the last close tag. *)
Definition value_opened_x : Parser :=
  mkParser false true CONFIG_K_DIV_CLASS CONFIG_V_DIV_CLASS
           (py "Autor") (py "x") [].

(** [<b>T</b><div class=titn>x]: a page that ends inside a value
    region. *)
Definition unclosed_page : list Event :=
  [ Starttag (py "b") []; Data (py "T"); Endtag (py "b");
    Starttag (py "div") [class_attr "titn"]; Data (py "x") ].

(** The parser after a first [parse] of [unclosed_page]. *)
Definition after_unclosed_page : Parser :=
  mkParser false true CONFIG_K_DIV_CLASS CONFIG_V_DIV_CLASS [] (py "x") [].

(** Two URIs that serve the text of [unclosed_page], and the tokenizer
    table for that text. *)
Definition unclosed_text : string :=
  "<b>T</b><div class=" ++ dquote ++ "titn" ++ dquote ++ ">x".

Definition site_unclosed : dict (Exc Response) :=
  [(uri_a, ok (mkResponse (pyb unclosed_text) None));
   (uri_b, ok (mkResponse (pyb unclosed_text) None))].

Definition pages_unclosed : dict (list Event) :=
  [(py unclosed_text, unclosed_page)].

(** ** Further notions *)

(** No open tag of the call has a [class] attribute without a value. *)
Definition event_classes_valued (ev : Event) : Prop :=
  match ev with
  | Starttag _ attrs | Startendtag _ attrs => classes_valued attrs
  | _ => True
  end.

(** A word: not empty, and free of white space. *)
Definition is_word (w : pystr) : Prop :=
  w <> [] /\ Forall (fun c => py_isspace c = false) w.

(** The cleaned texts of a run of [handle_data] calls that are not
    empty. *)
Definition fragments (datas : list pystr) : list pystr :=
  List.filter nonempty (map normalize datas).

(** What [MantecaExcel.get_mantecas] does with one cell: it yields the
    cell, goes on to the next one, or is ended by an exception. *)
Inductive CellOutcome : Type :=
| Yielded (uri : pystr)
| Skipped
| Failed (e : exn).

Definition cell_outcome {R : Runtime} (c : Cell) : CellOutcome :=
  if negb (str_eqb (data_type c) (py "s"))
  then match coordinate c with
       | inl e => Failed e
       | inr _ => Skipped
       end
  else
    match cell_value c with
    | OtherValue => Failed TypeError
    | StrValue value =>
        match urlparse value with
        | inl e => Failed e
        | inr parsed =>
            if startswith (py "http") (scheme parsed)
            then match coordinate c with
                 | inl e => Failed e
                 | inr _ => Yielded value
                 end
            else Skipped
        end
    end.

(** A sequence of [add_metadata] calls on any sink, each made on the sink
    as the call before left it. *)
Definition sink_calls {Sink : Type} {SF : SkimmedFile Sink} (s : Sink)
    (calls : list (positive * pystr * dict pystr)) : Sink :=
  fold_left (fun s call => (add_metadata s call.1.1 call.1.2 call.2).1)
            calls s.

(** A site for the text line [foo], which has no scheme. *)
Definition site_schemeless : dict (Exc Response) :=
  [(py "foo", raise (ValueError (py "unknown url type: 'foo'")));
   (uri_b, ok page_b)].

Definition runtime_schemeless : Runtime := Scripted site_schemeless [].

(** A page whose meta refresh has a target that is not ASCII:
    [url=/caf] followed by the byte [0xE9]. *)
Definition page_latin_target : Response :=
  mkResponse
    (pyb ("<meta http-equiv=" ++ dquote ++ "refresh" ++ dquote
          ++ " content=" ++ dquote ++ "0;url=/caf")
     ++ [xe9] ++ pyb (dquote ++ ">"))
    None.

Definition runtime_latin_target : Runtime :=
  Scripted [(uri_a, ok page_latin_target)] [].

(** Another such page, with the target [/espa], the byte [0xF1], [a]. *)
Definition page_enye_target : Response :=
  mkResponse
    (pyb ("<meta http-equiv=" ++ dquote ++ "refresh" ++ dquote
          ++ " content=" ++ dquote ++ "0;url=/espa")
     ++ [xf1] ++ pyb ("a" ++ dquote ++ ">"))
    (Some (py "utf-8")).

Definition runtime_enye_target : Runtime :=
  Scripted [(uri_a, ok page_enye_target)] [].

(** A page with an open tag whose [class] attribute has no value, the
    calls dispatched for it, and a site that serves it. *)
Definition valueless_text : string := "<div class>x</div>".

Definition valueless_page : list Event :=
  [Starttag (py "div") [(py "class", None)]; Data (py "x");
   Endtag (py "div")].

Definition runtime_valueless : Runtime :=
  Scripted [(uri_a, ok (mkResponse (pyb valueless_text) None));
            (uri_b, ok page_b)]
           [(py valueless_text, valueless_page)].

(** Characters [urlparse] does not drop from a URL (tab, newline and
    return are dropped), and characters that can stand in a network
    location. *)
Definition url_char_ok (c : N) : bool :=
  negb ((c =? 9) || (c =? 10) || (c =? 13))%N.

Definition netloc_char_ok (c : N) : bool :=
  negb ((c =? 47) || (c =? 63) || (c =? 35))%N && url_char_ok c.

(** A scheme as [urlparse] gives it: a letter first, scheme characters
    only, in lower case. *)
Definition scheme_ok (s : pystr) : Prop :=
  match s with
  | [] => False
  | c :: _ => is_alpha c = true
  end /\ forallb scheme_char s = true /\ map lower_char s = s.

(** ** File names in [main] *)

(** [s.rfind(c)] for a one-character [c], counting from position [i]:
    the highest index where [c] stands, [-1] when it does not occur. *)
Fixpoint rfind_from (c : N) (s : pystr) (i : Z) : Z :=
  match s with
  | [] => (-1)%Z
  | x :: s' =>
      let later := rfind_from c s' (i + 1)%Z in
      if (0 <=? later)%Z then later
      else if (x =? c)%N then i else (-1)%Z
  end.

Definition rfind (c : N) (s : pystr) : Z := rfind_from c s 0.

(** [s.endswith(suffix)]. *)
Definition endswith (suffix s : pystr) : bool :=
  startswith (rev suffix) (rev s).

(** [ntpath.splitext]: the extension starts at the last dot, when that dot
    comes after the last separator and after a character of the file name
    that is not a dot. *)
Definition splitext (p : pystr) : pystr * pystr :=
  let sepIndex := Z.max (rfind 92 p) (rfind 47 p) in
  let dotIndex := rfind 46 p in
  if (sepIndex <? dotIndex)%Z
     && existsb (fun c => negb (c =? 46)%N)
          (take (Z.to_nat (dotIndex - (sepIndex + 1)))
                (drop (Z.to_nat (sepIndex + 1)) p))
  then (take (Z.to_nat dotIndex) p, drop (Z.to_nat dotIndex) p)
  else (p, []).

Definition output_filename (input_filename : pystr) : pystr :=
  let '(root, ext) := splitext input_filename in root ++ py "_out" ++ ext.

Definition is_excel (filename : pystr) : bool :=
  endswith (py ".xls") filename || endswith (py ".xlsx") filename.

(** * Properties *)

(** Case analysis on every [match] in sight. *)
Ltac parser_cases :=
  repeat match goal with
         | |- context [match ?x with _ => _ end] => destruct x eqn:?
         | H : context [match ?x with _ => _ end] |- _ => destruct x eqn:?
         end; simpl in *; try congruence.

(** ** Strings and dictionaries *)

Lemma str_eqb_true (a b : pystr) : str_eqb a b = true <-> a = b.
Proof. unfold str_eqb. apply bool_decide_eq_true. Qed.

Lemma str_eqb_false (a b : pystr) : str_eqb a b = false <-> a <> b.
Proof. unfold str_eqb. apply bool_decide_eq_false. Qed.

Lemma str_eqb_refl (a : pystr) : str_eqb a a = true.
Proof. by apply str_eqb_true. Qed.

Section DictFacts.
Context {V : Type}.
Implicit Types (d : dict V) (k : pystr) (v : V).

Lemma dict_get_set_same k v d : dict_get k (dict_set k v d) = Some v.
Proof.
  induction d as [|[k' v'] d IH]; simpl.
  - by rewrite str_eqb_refl.
  - destruct (str_eqb k k') eqn:E; simpl; rewrite E; auto.
Qed.

Lemma dict_get_set_other k k' v d :
  k <> k' -> dict_get k' (dict_set k v d) = dict_get k' d.
Proof.
  intros Hne. induction d as [|[k0 v0] d IH]; simpl.
  - apply not_eq_sym, str_eqb_false in Hne. by rewrite Hne.
  - destruct (str_eqb k k0) eqn:E; simpl.
    + apply str_eqb_true in E. subst k0.
      apply not_eq_sym, str_eqb_false in Hne. by rewrite Hne.
    + by rewrite IH.
Qed.

Lemma dict_mem_In k d : dict_mem k d = true <-> In k (dict_keys d).
Proof.
  unfold dict_mem.
  induction d as [|[k' v'] d IH]; simpl; [intuition discriminate|].
  destruct (str_eqb k k') eqn:E.
  - apply str_eqb_true in E. intuition.
  - apply str_eqb_false in E. rewrite IH. intuition congruence.
Qed.

Lemma dict_keys_set_old k v d :
  dict_mem k d = true -> dict_keys (dict_set k v d) = dict_keys d.
Proof.
  unfold dict_mem.
  induction d as [|[k' v'] d IH]; simpl; [discriminate|].
  destruct (str_eqb k k') eqn:E; simpl; [done|].
  intros H. by rewrite IH.
Qed.

Lemma dict_keys_set_new k v d :
  dict_mem k d = false -> dict_set k v d = d ++ [(k, v)].
Proof.
  unfold dict_mem.
  induction d as [|[k' v'] d IH]; simpl; [done|].
  destruct (str_eqb k k') eqn:E; simpl; [discriminate|].
  intros H. by rewrite IH.
Qed.

Lemma dict_keys_set k v d :
  dict_keys (dict_set k v d)
  = if dict_mem k d then dict_keys d else dict_keys d ++ [k].
Proof.
  destruct (dict_mem k d) eqn:E.
  - by apply dict_keys_set_old.
  - rewrite dict_keys_set_new by done. unfold dict_keys.
    by rewrite map_app.
Qed.

Lemma dict_set_NoDup k v d :
  NoDup (dict_keys d) -> NoDup (dict_keys (dict_set k v d)).
Proof.
  intros Hnd. rewrite dict_keys_set.
  destruct (dict_mem k d) eqn:E; [done|].
  apply NoDup_app. split; [done|]. split.
  - intros x Hx Hk. apply list_elem_of_singleton in Hk. subst x.
    apply list_elem_of_In, dict_mem_In in Hx. congruence.
  - apply NoDup_singleton.
Qed.
End DictFacts.

(** ** The parser *)

(** What one turn of [handle_starttag] can and cannot change. *)
Lemma starttag_attr_frame (p p' : Parser) (attr : pystr * option pystr) :
  starttag_attr p attr = ok p' ->
  k_class p' = k_class p /\ v_class p' = v_class p
  /\ retrieved_metadata p' = retrieved_metadata p
  /\ (forall r, within r p = true -> within r p' = true).
Proof.
  unfold starttag_attr, marker_in, bind, ok, raise.
  destruct attr as [name [value|]]; simpl;
    destruct (str_eqb name (py "class")); simpl; try discriminate;
    try (destruct (contains (k_class p) value); simpl;
         destruct (contains (v_class p) value); simpl);
    intros H; inversion H; subst; simpl;
    repeat split; auto; intros []; simpl; auto.
Qed.

Lemma handle_starttag_frame (p p' : Parser) (tag : pystr)
    (attrs : list (pystr * option pystr)) :
  handle_starttag p tag attrs = ok p' ->
  k_class p' = k_class p /\ v_class p' = v_class p
  /\ retrieved_metadata p' = retrieved_metadata p
  /\ (forall r, within r p = true -> within r p' = true).
Proof.
  unfold handle_starttag. revert p.
  induction attrs as [|attr attrs IH]; simpl; intros p H.
  - inversion H; subst. auto.
  - unfold bind in H. destruct (starttag_attr p attr) as [e|q] eqn:E;
      [discriminate|].
    apply starttag_attr_frame in E as (Hk & Hv & Hm & Hw).
    apply IH in H as (Hk' & Hv' & Hm' & Hw').
    repeat split; try congruence. intros r Hr. auto.
Qed.

(** A turn on a valued [class] attribute that holds the marker of [r]
    sets the flag of [r] and empties its buffer. *)
Lemma starttag_attr_marker (r : Region) (p : Parser) (value : pystr) :
  contains (marker r p) value = true ->
  exists p', starttag_attr p (py "class", Some value) = ok p'
             /\ within r p' = true /\ buffer r p' = [].
Proof.
  intros Hc. unfold starttag_attr, marker_in, bind, ok. simpl.
  destruct r; simpl in Hc.
  - rewrite Hc. simpl.
    destruct (contains (v_class p) value); eauto.
  - destruct (contains (k_class p) value); simpl; rewrite Hc; eauto.
Qed.

(** Turns on later attributes keep a set flag set and an emptied buffer
    empty. *)
Lemma starttag_attr_keeps (r : Region) (p p' : Parser)
    (attr : pystr * option pystr) :
  starttag_attr p attr = ok p' ->
  within r p = true -> buffer r p = [] ->
  within r p' = true /\ buffer r p' = [].
Proof.
  unfold starttag_attr, marker_in, bind, ok, raise.
  destruct attr as [name [value|]]; simpl;
    destruct (str_eqb name (py "class")); simpl; try discriminate;
    try (destruct (contains (k_class p) value); simpl;
         destruct (contains (v_class p) value); simpl);
    intros H Hw Hb; inversion H; subst; destruct r; simpl in *; auto.
Qed.

Lemma handle_starttag_keeps (r : Region) (p p' : Parser) (tag : pystr)
    (attrs : list (pystr * option pystr)) :
  handle_starttag p tag attrs = ok p' ->
  within r p = true -> buffer r p = [] ->
  within r p' = true /\ buffer r p' = [].
Proof.
  unfold handle_starttag. revert p.
  induction attrs as [|attr attrs IH]; simpl; intros p H Hw Hb.
  - inversion H; subst. auto.
  - unfold bind in H. destruct (starttag_attr p attr) as [e|q] eqn:E;
      [discriminate|].
    destruct (starttag_attr_keeps r p q attr E Hw Hb). eauto.
Qed.

(** A turn fails only on a [class] attribute without a value. *)
Lemma starttag_attr_total (p : Parser) (attr : pystr * option pystr) :
  (snd attr = None -> fst attr <> py "class") ->
  exists p', starttag_attr p attr = ok p'.
Proof.
  intros H. unfold starttag_attr, marker_in, bind, ok, raise.
  destruct attr as [name [value|]]; simpl in *.
  - destruct (str_eqb name (py "class")); simpl; eauto.
  - specialize (H eq_refl). apply str_eqb_false in H. rewrite H. eauto.
Qed.

Lemma handle_starttag_total (p : Parser) (tag : pystr)
    (attrs : list (pystr * option pystr)) :
  classes_valued attrs -> exists p', handle_starttag p tag attrs = ok p'.
Proof.
  unfold handle_starttag, classes_valued. revert p.
  induction attrs as [|attr attrs IH]; simpl; intros p H; [by eexists|].
  destruct (starttag_attr_total p attr) as [q Hq].
  { destruct attr as [name value]. simpl. intros ->. apply H. auto. }
  rewrite Hq. simpl. apply IH. intros name Hin. apply H. auto.
Qed.

(** An open tag that carries the marker of [r] leaves the flag of [r] set
    and its buffer empty. *)
Lemma handle_starttag_marker (r : Region) (p p' : Parser) (tag : pystr)
    (attrs : list (pystr * option pystr)) :
  carries_marker r p attrs ->
  handle_starttag p tag attrs = ok p' ->
  within r p' = true /\ buffer r p' = [].
Proof.
  unfold handle_starttag, carries_marker. revert p.
  induction attrs as [|attr attrs IH]; simpl; intros p (value & Hin & Hc) H;
    [done|].
  unfold bind in H. destruct (starttag_attr p attr) as [e|q] eqn:E;
    [discriminate|].
  destruct Hin as [-> | Hin].
  - destruct (starttag_attr_marker r p value Hc) as (q' & Hq' & Hw & Hb).
    rewrite Hq' in E. inversion E; subst q'.
    by apply (handle_starttag_keeps r q p' tag attrs).
  - apply (IH q); [|done]. exists value. split; [done|].
    apply starttag_attr_frame in E as (Hk & Hv & _).
    destruct r; simpl in *; congruence.
Qed.

Lemma handle_data_within (r : Region) (p : Parser) (data : pystr) :
  within r (handle_data p data) = within r p.
Proof.
  unfold handle_data. destruct r; simpl; parser_cases.
Qed.

Lemma handle_data_metadata (p : Parser) (data : pystr) :
  retrieved_metadata (handle_data p data) = retrieved_metadata p.
Proof. unfold handle_data. parser_cases. Qed.

Lemma handle_endtag_within (r : Region) (p : Parser) (tag : pystr) :
  within r (handle_endtag p tag) = false.
Proof.
  unfold handle_endtag. destruct r; simpl; parser_cases.
Qed.

Lemma handle_event_within (r : Region) (p p' : Parser) (ev : Event) :
  closes_no_tag ev = true ->
  handle_event p ev = ok p' ->
  within r p = true -> within r p' = true.
Proof.
  destruct ev; simpl; try discriminate; intros _ H Hw.
  - apply handle_starttag_frame in H as (_ & _ & _ & Hf). auto.
  - inversion H; subst. by rewrite handle_data_within.
  - by inversion H; subst.
  - by inversion H; subst.
  - by inversion H; subst.
Qed.

Lemma feed_events_within (r : Region) (p p' : Parser) (evs : list Event) :
  forallb closes_no_tag evs = true ->
  feed_events p evs = ok p' ->
  within r p = true -> within r p' = true.
Proof.
  revert p. induction evs as [|ev evs IH]; simpl; intros p Hall H Hw.
  - by inversion H; subst.
  - apply andb_prop in Hall as [Hev Hall]. unfold bind in H.
    destruct (handle_event p ev) as [e|q] eqn:E; [discriminate|].
    apply (IH q); auto. eapply handle_event_within; eauto.
Qed.

(** C4, as amended. An open tag that carries the marker of a region sets
    the flag of that region; the flag stays set through every call that
    closes no tag; and the next close tag clears it, whatever element it
    closes: [handle_endtag] does not look at the tag name, so the close tag
    of an unrelated element nested in the region ends the region. *)
Theorem region_ends_at_next_endtag :
  forall (r : Region) (p p' p'' : Parser) (tag other : pystr)
         (attrs : list (pystr * option pystr)) (evs : list Event),
    carries_marker r p attrs ->
    handle_starttag p tag attrs = ok p' ->
    forallb closes_no_tag evs = true ->
    feed_events p' evs = ok p'' ->
    within r p' = true /\ within r p'' = true
    /\ within r (handle_endtag p'' other) = false.
Proof.
  intros r p p' p'' tag other attrs evs Hm Hs Hall Hf.
  destruct (handle_starttag_marker r p p' tag attrs Hm Hs) as [Hw _].
  split; [done|]. split.
  - by apply (feed_events_within r p' p'' evs).
  - apply handle_endtag_within.
Qed.

Lemma region_ends_at_next_endtag_witness :
  carries_marker KeyRegion new_parser [class_attr "auth"]
  /\ handle_starttag new_parser (py "div") [class_attr "auth"]
     = ok key_opened
  /\ feed_events key_opened [Starttag (py "b") []; Data (py "Au")]
     = ok key_opened_Au
  /\ within KeyRegion key_opened = true
  /\ within KeyRegion key_opened_Au = true
  /\ within KeyRegion (handle_endtag key_opened_Au (py "b")) = false.
Proof.
  assert (Hm : carries_marker KeyRegion new_parser [class_attr "auth"]).
  { exists (py "auth"). split; [left|]; reflexivity. }
  assert (Hs : handle_starttag new_parser (py "div") [class_attr "auth"]
               = ok key_opened) by reflexivity.
  assert (Hf : feed_events key_opened [Starttag (py "b") []; Data (py "Au")]
               = ok key_opened_Au) by reflexivity.
  repeat (split; [assumption|]).
  exact (region_ends_at_next_endtag KeyRegion new_parser key_opened
           key_opened_Au (py "div") (py "b") [class_attr "auth"]
           [Starttag (py "b") []; Data (py "Au")] Hm Hs eq_refl Hf).
Defined.

(** C4, the claim as stated fails: in
    [<div class=auth><b>Au</b>tor</div><div class=titn>x</div>] the close
    tag of the nested [b] clears the key flag, so that [tor] is not part of
    the key and the page yields [Au: x]. *)
Lemma nested_endtag_clears_key_flag :
  within_k_tag key_opened_Au = true
  /\ within_k_tag (handle_endtag key_opened_Au (py "b")) = false
  /\ parse_result new_parser nested_page = ok [(py "Au", py "x")].
Proof. repeat split; reflexivity. Qed.

Lemma handle_data_buffer (r : Region) (p : Parser) (data : pystr) :
  within r p = true ->
  buffer r (handle_data p data) = appended r (buffer r p) data.
Proof.
  unfold handle_data, appended. fold (normalize data).
  destruct p as [wk wv kc vc ck cv md]; destruct r; simpl; intros ->.
  - destruct (normalize data) as [|c text] eqn:E; simpl.
    + by rewrite app_nil_r.
    + destruct wv; simpl; [destruct cv|]; reflexivity.
  - rewrite orb_true_r.
    destruct (normalize data) as [|c text] eqn:E; simpl; [done|].
    destruct wk; simpl; destruct cv; simpl; try reflexivity.
    all: by rewrite <- app_assoc.
Qed.

(** C5, as amended. A marker-carrying open tag met while its region flag
    is already set does not fail, provided each [class] attribute of the
    tag has a value, and it leaves the flag set; but it is not a no-op:
    [handle_starttag] empties the buffer of the region, so the text
    collected so far is discarded and the text that follows starts a new
    buffer. *)
Theorem reopened_marker_restarts_buffer :
  forall (r : Region) (p : Parser) (tag : pystr)
         (attrs : list (pystr * option pystr)),
    within r p = true ->
    carries_marker r p attrs ->
    classes_valued attrs ->
    exists p', handle_starttag p tag attrs = ok p'
               /\ within r p' = true
               /\ buffer r p' = []
               /\ forall data,
                    buffer r (handle_data p' data) = appended r [] data.
Proof.
  intros r p tag attrs _ Hm Hv.
  destruct (handle_starttag_total p tag attrs Hv) as [p' Hp'].
  destruct (handle_starttag_marker r p p' tag attrs Hm Hp') as [Hw Hb].
  exists p'. repeat split; try done.
  intros data. by rewrite handle_data_buffer, Hb.
Qed.

Lemma reopened_marker_restarts_buffer_witness :
  within KeyRegion key_opened_Au = true
  /\ carries_marker KeyRegion key_opened_Au [class_attr "auth"]
  /\ classes_valued [class_attr "auth"]
  /\ exists p', handle_starttag key_opened_Au (py "span") [class_attr "auth"]
                = ok p'
                /\ within KeyRegion p' = true
                /\ buffer KeyRegion p' = []
                /\ forall data, buffer KeyRegion (handle_data p' data)
                                = appended KeyRegion [] data.
Proof.
  assert (Hm : carries_marker KeyRegion key_opened_Au [class_attr "auth"]).
  { exists (py "auth"). split; [left|]; reflexivity. }
  assert (Hv : classes_valued [class_attr "auth"]).
  { intros name [H|[]]. discriminate H. }
  split; [reflexivity|]. split; [exact Hm|]. split; [exact Hv|].
  exact (reopened_marker_restarts_buffer KeyRegion key_opened_Au (py "span")
           [class_attr "auth"] eq_refl Hm Hv).
Defined.

(** C5, the claim as stated fails: after [<div class=auth>Au] the key
    buffer holds [Au]; the open tag [<span class=auth>] empties it, and
    the page [reopened_page] yields the key [tor], not [Autor]. *)
Lemma reopened_marker_discards_key_text :
  current_key key_opened_Au = py "Au"
  /\ handle_starttag key_opened_Au (py "span") [class_attr "auth"]
     = ok key_opened
  /\ current_key key_opened = []
  /\ parse_result new_parser reopened_page = ok [(py "tor", py "x")].
Proof. repeat split; reflexivity. Qed.

(** What a close tag does inside a value region: one commit, both buffers
    and both flags reset. *)
Lemma handle_endtag_commit (p : Parser) (tag : pystr) :
  within_v_tag p = true ->
  handle_endtag p tag
  = mkParser false false (k_class p) (v_class p) [] []
      (dict_set (key_or_sentinel (current_key p)) (current_value p)
                (retrieved_metadata p)).
Proof.
  destruct p as [wk wv kc vc ck cv md]; simpl; intros ->.
  unfold handle_endtag; destruct wk, ck; reflexivity.
Qed.

Lemma handle_endtag_no_commit (p : Parser) (tag : pystr) :
  within_v_tag p = false ->
  retrieved_metadata (handle_endtag p tag) = retrieved_metadata p.
Proof.
  destruct p as [wk wv kc vc ck cv md]; simpl; intros ->.
  unfold handle_endtag; destruct wk; reflexivity.
Qed.

Lemma key_or_sentinel_nonempty (key : pystr) : key_or_sentinel key <> [].
Proof. destruct key; discriminate. Qed.

Lemma keys_ok_set (k v : pystr) (d : dict pystr) :
  k <> [] -> keys_ok d -> keys_ok (dict_set k v d).
Proof.
  intros Hk [Hnd Hne]. split; [by apply dict_set_NoDup|].
  rewrite dict_keys_set. destruct (dict_mem k d); [done|].
  apply Forall_app. split; [done|]. by constructor.
Qed.

Lemma handle_endtag_keys_ok (p : Parser) (tag : pystr) :
  keys_ok (retrieved_metadata p) ->
  keys_ok (retrieved_metadata (handle_endtag p tag)).
Proof.
  intros H. destruct (within_v_tag p) eqn:E.
  - rewrite handle_endtag_commit by done. simpl.
    apply keys_ok_set; [apply key_or_sentinel_nonempty | done].
  - by rewrite handle_endtag_no_commit.
Qed.

Lemma handle_event_keys_ok (p p' : Parser) (ev : Event) :
  handle_event p ev = ok p' ->
  keys_ok (retrieved_metadata p) -> keys_ok (retrieved_metadata p').
Proof.
  destruct ev; simpl; intros H Hok.
  - apply handle_starttag_frame in H as (_ & _ & -> & _). done.
  - inversion H; subst. by apply handle_endtag_keys_ok.
  - unfold bind in H.
    destruct (handle_starttag p tag attrs) as [e|q] eqn:E; [discriminate|].
    inversion H; subst. apply handle_endtag_keys_ok.
    apply handle_starttag_frame in E as (_ & _ & -> & _). done.
  - inversion H; subst. by rewrite handle_data_metadata.
  - by inversion H; subst.
  - by inversion H; subst.
  - by inversion H; subst.
Qed.

Lemma feed_events_keys_ok (p p' : Parser) (evs : list Event) :
  feed_events p evs = ok p' ->
  keys_ok (retrieved_metadata p) -> keys_ok (retrieved_metadata p').
Proof.
  revert p. induction evs as [|ev evs IH]; simpl; intros p H Hok.
  - by inversion H; subst.
  - unfold bind in H.
    destruct (handle_event p ev) as [e|q] eqn:E; [discriminate|].
    apply (IH q); [done|]. by apply (handle_event_keys_ok p q ev).
Qed.

(** C6. The result dictionary changes only when a close tag arrives inside
    a value region: that call stores the current value under the current
    key, or under the sentinel when the key text is empty, and resets both
    buffers; a close tag outside a value region, which is all a key region
    closing amounts to, stores nothing, and neither do text and open tags.
    Storing under a key already present replaces its value and adds no
    key. Hence the keys [parse] returns are distinct and none of them is
    the empty string. *)
Theorem commit_only_on_value_close :
  forall (p : Parser) (tag : pystr),
    (within_v_tag p = true ->
     handle_endtag p tag
     = mkParser false false (k_class p) (v_class p) [] []
         (dict_set (key_or_sentinel (current_key p)) (current_value p)
                   (retrieved_metadata p)))
    /\ (within_v_tag p = false ->
        retrieved_metadata (handle_endtag p tag) = retrieved_metadata p)
    /\ (forall data,
          retrieved_metadata (handle_data p data) = retrieved_metadata p)
    /\ (forall attrs p',
          handle_starttag p tag attrs = ok p' ->
          retrieved_metadata p' = retrieved_metadata p)
    /\ (forall (k v : pystr) (d : dict pystr),
          dict_get k (dict_set k v d) = Some v
          /\ (dict_mem k d = true ->
              dict_keys (dict_set k v d) = dict_keys d))
    /\ (forall evs p',
          parse_events p evs = ok p' ->
          NoDup (dict_keys (retrieved_metadata p'))
          /\ Forall (fun k => k <> []) (dict_keys (retrieved_metadata p'))).
Proof.
  intros p tag. split; [apply handle_endtag_commit|].
  split; [apply handle_endtag_no_commit|].
  split; [apply handle_data_metadata|].
  split.
  { intros attrs p' H.
    by apply handle_starttag_frame in H as (_ & _ & -> & _). }
  split.
  { intros k v d. split; [apply dict_get_set_same|apply dict_keys_set_old]. }
  intros evs p' H.
  apply (feed_events_keys_ok _ p' evs H). simpl.
  split; constructor.
Qed.

Lemma commit_only_on_value_close_witness :
  within_v_tag value_opened_x = true
  /\ handle_endtag value_opened_x (py "div")
     = mkParser false false CONFIG_K_DIV_CLASS CONFIG_V_DIV_CLASS [] []
                [(py "Autor", py "x")]
  /\ parse_result new_parser
       [ Starttag (py "div") [class_attr "titn"]; Data (py "x");
         Endtag (py "div") ]
     = ok [(EMPTY_KEY, py "x")].
Proof.
  split; [reflexivity|]. split; [|reflexivity].
  exact (proj1 (commit_only_on_value_close value_opened_x (py "div"))
           eq_refl).
Defined.

(** C7. [parse] resets the result dictionary and nothing else: the flags
    and the buffers a page leaves behind are the starting state of the
    next call. A first [parse] of [<b>T</b><div class=titn>x] on a new
    parser returns the empty dictionary and leaves the value flag set with
    [x] in the value buffer; a second [parse] of the same page returns one
    entry, stored under the sentinel when [</b>] arrives. So does [main],
    which uses one parser for all its Mantecas, on two URIs that serve
    that page. *)
Theorem parse_twice_differs :
  (forall (p : Parser) (d : dict pystr) (evs : list Event),
     parse_events (set_retrieved_metadata d p) evs = parse_events p evs)
  /\ parse_events new_parser unclosed_page = ok after_unclosed_page
  /\ parse_result new_parser unclosed_page = ok []
  /\ parse_result after_unclosed_page unclosed_page
     = ok [(EMPTY_KEY, py "x / T")]
  /\ calls (skimmedfile
              (main (R := Scripted site_unclosed pages_unclosed) [] tt
                    (mkMantecaText [uri_a; uri_b]) (mkRecorder [])).1)
     = [(1%positive, uri_a, []);
        (2%positive, uri_b, [(EMPTY_KEY, py "x / T")])].
Proof. repeat split; reflexivity. Qed.

(** An open tag with a [class] attribute that has no value, as in
    [<div class>], makes [handle_starttag] raise [TypeError]. *)
Lemma valueless_class_raises :
  handle_starttag new_parser (py "div") [(py "class", None)]
  = raise TypeError.
Proof. reflexivity. Qed.

(** ** The fetcher *)

Lemma give_back_inv (attempt : nat -> option (option bytes)) (min k : nat)
    (r : option bytes) :
  give_back attempt min k = Some r ->
  exists j, (min <= j <= k)%nat /\ attempt j = Some r.
Proof.
  induction k as [|k IH]; simpl.
  - destruct (Nat.ltb_spec 0 min); [discriminate|].
    destruct (attempt 0%nat) eqn:E; [|discriminate].
    intros [= ->]. exists 0%nat. split; [lia|done].
  - destruct (Nat.ltb_spec (Datatypes.S k) min); [discriminate|].
    destruct (attempt (Datatypes.S k)) eqn:E.
    + intros [= ->]. exists (Datatypes.S k). split; [lia|done].
    + intros H'. destruct (IH H') as (j & Hj & Ha).
      exists j. split; [lia|done].
Qed.

Lemma run_length_le (cls : byte -> bool) (s : bytes) :
  (run_length cls s <= length s)%nat.
Proof.
  induction s as [|c s IH]; simpl; [lia|]. destruct (cls c); simpl; lia.
Qed.

(** The group of a match is the one it started with or a text a
    capturing repetition took. *)
Lemma match_here_group (pat : list item) :
  captures_nonempty pat = true ->
  forall (s : bytes) (group r : option bytes),
    match_here pat s group = Some r ->
    r = group \/ exists g, r = Some g /\ g <> [].
Proof.
  induction pat as [|it pat IH]; simpl; intros Hpat s group r H.
  - left. congruence.
  - apply andb_prop in Hpat as [Hit Hpat].
    destruct it as [l|cls min capture].
    + destruct (match_lit l s) as [s'|]; [|discriminate].
      by apply (IH Hpat s' group).
    + apply give_back_inv in H as (j & Hj & H).
      apply (IH Hpat) in H as [->|H]; [|by right].
      destruct capture; [|by left].
      right. exists (take j s). split; [done|].
      destruct min as [|min]; [discriminate Hit|].
      pose proof (run_length_le cls s).
      intros Ht. apply (f_equal length) in Ht.
      rewrite length_take in Ht. simpl in Ht. lia.
Qed.

Lemma re_search_nonempty (pat : list item) (s g : bytes) :
  captures_nonempty pat = true -> re_search pat s = Some g -> g <> [].
Proof.
  intros Hpat. unfold re_search.
  assert (Hs : forall r, search pat s = Some r ->
                         r = None \/ exists g, r = Some g /\ g <> []).
  { induction s as [|c s IH]; simpl; intros r;
      (destruct (match_here pat _ None) eqn:E;
       [intros [= <-]; by apply (match_here_group pat Hpat _ None) in E|]).
    - discriminate.
    - apply IH. }
  destruct (search pat s) as [[g'|]|] eqn:E; try discriminate.
  intros [= ->]. destruct (Hs _ eq_refl) as [|(g' & [= <-] & Hg)]; done.
Qed.

Lemma decode_ascii_nonempty (g : bytes) (text : pystr) :
  decode_ascii g = ok text -> g <> [] -> text <> [].
Proof.
  unfold decode_ascii. destruct (forallb _ g); [|discriminate].
  intros [= <-]. by destruct g.
Qed.

(** With a scheme and a host, [urlunparse] puts the target after them,
    behind a slash when it does not start with one. *)
Lemma urlunparse_target (sch host target : pystr) :
  sch <> [] -> host <> [] -> target <> [] ->
  urlunparse sch host target [] [] []
  = sch ++ py "://" ++ host
    ++ (if startswith (py "/") target then target else py "/" ++ target).
Proof.
  intros Hs Hh Ht. unfold urlunparse.
  destruct sch; [done|]. destruct host; [done|]. destruct target; [done|].
  cbn [nonempty orb andb negb].
  destruct (startswith (py "/") _); reflexivity.
Qed.

Section FetchFacts.
Context {R : Runtime}.

(** C1, as amended. When the body of the page holds a meta refresh, the
    URI of the page is one [urlparse] accepts and the target is ASCII
    text, the fetcher issues a second GET, in the network state the first
    one left, for the URI made of the scheme and the network location of
    the original URI followed by the target, nothing of the original
    path, query or fragment being kept; what it returns is the body of
    the second response, decoded with the charset determined from the
    second response alone, or the exception of the second GET. *)
Theorem meta_refresh_followed :
  forall (w w1 w2 : World) (uri target : pystr) (first : Response)
         (parsed : ParseResult) (g : bytes) (r2 : Exc Response),
    urlopen w uri = (w1, ok first) ->
    re_search RE_REFRESH (contents first) = Some g ->
    urlparse uri = ok parsed ->
    decode_ascii g = ok target ->
    urlopen w1 (redirected_uri parsed target) = (w2, r2) ->
    retrieve_uri_contents w uri
    = (w2, match r2 with
           | inl e =>
               raise (unknown_url_type (redirected_uri parsed target) e)
           | inr second => decode_body second
           end)
    /\ (scheme parsed <> [] -> netloc parsed <> [] ->
        redirected_uri parsed target
        = scheme parsed ++ py "://" ++ netloc parsed
          ++ (if startswith (py "/") target then target
              else py "/" ++ target)).
Proof.
  intros w w1 w2 uri target first parsed g r2 H1 Hre Hp Hg H2. split.
  - unfold retrieve_uri_contents, retrieve_body.
    rewrite H1. unfold ok at 1. rewrite Hre, Hp. unfold ok at 1.
    rewrite Hg. unfold ok at 1. rewrite H2. by destruct r2.
  - intros Hs Hn. unfold redirected_uri.
    apply urlunparse_target; [done..|].
    apply (decode_ascii_nonempty g); [done|].
    by apply (re_search_nonempty RE_REFRESH (contents first)).
Qed.

End FetchFacts.

Lemma meta_refresh_followed_witness :
  retrieve_uri_contents (R := Scripted site_ab []) [] uri_a
  = ([uri_a; uri_b], ok (py "caf" ++ [233%N]))
  /\ redirected_uri (mkParseResult (py "http") (py "host") (py "/a.html"))
                    (py "/b.html")
     = uri_b.
Proof.
  destruct (meta_refresh_followed (R := Scripted site_ab [])
              [] [uri_a] [uri_a; uri_b] uri_a (py "/b.html") page_a
              (mkParseResult (py "http") (py "host") (py "/a.html"))
              (pyb "/b.html") (ok page_b)
              eq_refl eq_refl eq_refl eq_refl eq_refl) as [Hfetch Huri].
  split; [exact Hfetch|]. apply Huri; discriminate.
Defined.

(** C1, the claim as stated fails for a target that is not ASCII: the
    page served for [uri_a] holds a meta refresh towards [/espa] followed
    by the byte [0xF1] and [a]; the fetch ends with the decoding exception
    and the network has seen one GET only. *)
Lemma refresh_target_not_ascii_not_followed :
  urlopen (Runtime := runtime_enye_target) [] uri_a
  = ([uri_a], ok page_enye_target)
  /\ re_search RE_REFRESH (contents page_enye_target)
     = Some (pyb "/espa" ++ [xf1] ++ pyb "a")
  /\ retrieve_uri_contents (R := runtime_enye_target) [] uri_a
     = ([uri_a], raise UnicodeDecodeError).
Proof. repeat split; reflexivity. Qed.


(** ** The loop of [main] *)

Lemma SkimmedExcel_add_nothing (s : SkimmedExcel) (row : positive)
    (uri : pystr) :
  add_metadata s row uri [] = (s, None).
Proof. reflexivity. Qed.

Section MainFacts.
Context {R : Runtime} {Sink : Type} {SF : SkimmedFile Sink}.

Lemma main_loop_caught (st : MainState Sink) (row : positive)
    (uri reason : pystr) (rest : list (positive * pystr)) (w : World)
    (e : exn) :
  retrieve_uri_contents (world st) uri = (w, raise e) ->
  except_reason e = Some reason ->
  main_loop st ((row, uri) :: rest)
  = main_loop (mkMainState w (tokenizer st) (parser st) (skimmedfile st)
                           (bad_uris st ++ [(uri, reason)])) rest.
Proof.
  intros Hf He. simpl. unfold main_iteration, main_except.
  rewrite Hf. unfold raise. by rewrite He.
Qed.

(** C3. The exception of a failed decode is neither a [ConnectionError]
    nor a [URLError]: no [except] clause of the loop catches it, the
    loop is left at once, no failure entry is recorded and the entries
    that follow are not processed. *)
Theorem decode_failure_aborts_run :
  forall (st : MainState Sink) (row : positive) (uri : pystr)
         (rest : list (positive * pystr)) (w : World) (resp : Response)
         (e : exn),
    retrieve_body (world st) uri = (w, ok resp) ->
    decode_body resp = raise e ->
    e = UnicodeDecodeError \/ e = LookupError ->
    main_loop st ((row, uri) :: rest)
    = (mkMainState w (tokenizer st) (parser st) (skimmedfile st)
                   (bad_uris st), Some e).
Proof.
  intros st row uri rest w resp e Hb Hd He. simpl.
  unfold main_iteration, retrieve_uri_contents. rewrite Hb.
  unfold ok at 1. simpl. rewrite Hd. unfold raise, main_except.
  by destruct He as [-> | ->].
Qed.

End MainFacts.

Lemma decode_failure_aborts_run_witness :
  main (R := runtime_bad) [] tt mantecas_bad (mkRecorder [])
  = (mkMainState (R := runtime_bad) [uri_bad] tt new_parser
                 (mkRecorder []) [],
     Some UnicodeDecodeError).
Proof.
  exact (decode_failure_aborts_run (R := runtime_bad)
           (mkMainState (R := runtime_bad) [] tt new_parser
                        (mkRecorder []) [])
           1%positive uri_bad [(2%positive, uri_b)] [uri_bad]
           (mkResponse [xff] (Some (py "utf-8"))) UnicodeDecodeError
           eq_refl eq_refl (or_introl eq_refl)).
Defined.


(** ** The sources *)

Section SourceFacts.
Context {R : Runtime}.

Lemma first_manteca_http (cells : list Cell)
    (found : list (positive * pystr)) (row : positive) (uri : pystr) :
  first_manteca cells = ok found -> In (row, uri) found ->
  exists parsed,
    urlparse uri = ok parsed
    /\ startswith (py "http") (scheme parsed) = true.
Proof.
  revert found.
  induction cells as [|cell cells IH]; intros found; cbn [first_manteca].
  - by intros [= <-] [].
  - destruct (negb (str_eqb (data_type cell) (py "s"))).
    { destruct (coordinate cell); [discriminate | apply IH]. }
    destruct (cell_value cell) as [value|]; [|discriminate].
    destruct (urlparse value) as [e|parsed] eqn:Ep; [discriminate|].
    unfold bind.
    destruct (startswith (py "http") (scheme parsed)) eqn:E; [|apply IH].
    destruct (coordinate cell); [discriminate|].
    intros [= <-] [[= _ <-]|[]]. by exists parsed.
Qed.

Lemma MantecaExcel_get_mantecas_http (sheet_rows : list (list Cell))
    (row : positive) (uri : pystr) :
  In (row, uri) (MantecaExcel_get_mantecas sheet_rows).1 ->
  exists parsed,
    urlparse uri = ok parsed
    /\ startswith (py "http") (scheme parsed) = true.
Proof.
  induction sheet_rows as [|cells sheet_rows IH];
    cbn [MantecaExcel_get_mantecas]; [intros []|].
  destruct (scan_row cells) as [e|found] eqn:Ef; [intros []|].
  destruct (MantecaExcel_get_mantecas sheet_rows) as [more failure].
  cbn [fst] in *. intros Hin. apply in_app_or in Hin as [Hin|Hin]; [|auto].
  apply (first_manteca_http cells found row); [|done].
  by destruct cells.
Qed.
End SourceFacts.

Lemma MantecaText_from_spec (start : positive) (lines : list pystr)
    (row : positive) (uri : pystr) :
  In (row, uri) (MantecaText_from start lines)
  <-> exists (i : nat) (line : pystr),
        lines !! i = Some line
        /\ Pos.to_nat row = (Pos.to_nat start + i)%nat
        /\ uri = strip line /\ uri <> [].
Proof.
  revert start. induction lines as [|l ls IH]; intros start; simpl.
  - split; [intros []|]. intros (i & line & H & _). by destruct i.
  - rewrite in_app_iff, IH. split.
    + intros [H|(i & line & Hl & Hr & Hu)].
      * destruct (strip l) as [|c u] eqn:E; simpl in H; [done|].
        destruct H as [[= <- <-]|[]].
        exists 0%nat, l. rewrite E. repeat split; [lia|done].
      * exists (Datatypes.S i), line. repeat split; try tauto.
        rewrite Pos2Nat.inj_succ in Hr. lia.
    + intros ([|i] & line & Hl & Hr & Hu & Hne); simpl in Hl.
      * left. injection Hl as ->. subst uri.
        assert (row = start) as -> by (apply Pos2Nat.inj; lia).
        destruct (strip line); [done|]. by left.
      * right. exists i, line. repeat split; try done.
        rewrite Pos2Nat.inj_succ. lia.
Qed.

(** C10, as amended. Every record of the spreadsheet source has a URI
    that [urlparse] accepts and whose scheme starts with [http]. The text
    source checks no scheme: it is never ended by an exception and its
    records are the lines that are not blank, trimmed, each with its
    1-based line number. *)
Theorem sources_yield :
  (forall (R : Runtime) (rows : list (list Cell)) (row : positive)
          (uri : pystr),
     In (row, uri) (get_mantecas (mkMantecaExcel rows)).1 ->
     exists parsed,
       urlparse uri = ok parsed
       /\ startswith (py "http") (scheme parsed) = true)
  /\ (forall (lines : list pystr),
        (get_mantecas (mkMantecaText lines)).2 = None
        /\ forall (row : positive) (uri : pystr),
             In (row, uri) (get_mantecas (mkMantecaText lines)).1
             <-> exists (i : nat) (line : pystr),
                   lines !! i = Some line /\ Pos.to_nat row = Datatypes.S i
                   /\ uri = strip line /\ uri <> []).
Proof.
  split.
  - intros R rows row uri. apply MantecaExcel_get_mantecas_http.
  - intros lines. split; [reflexivity|]. intros row uri. simpl.
    unfold MantecaText_get_mantecas. by rewrite MantecaText_from_spec.
Qed.

Lemma sources_yield_witness :
  exists parsed,
    urlparse (R := Scripted [] []) uri_a = ok parsed
    /\ startswith (py "http") (scheme parsed) = true.
Proof.
  exact (proj1 sources_yield (Scripted [] [])
           [[mkCell 2 1 (py "n") OtherValue;
             mkCell 2 2 (py "s") (StrValue uri_a)]]
           2%positive uri_a (or_introl eq_refl)).
Defined.

(** C10, the claim as stated fails for the text source: the line [foo],
    which has no scheme, is yielded as record 1. *)
Lemma text_source_yields_schemeless_line :
  get_mantecas (mkMantecaText [py "foo" ++ [10%N]])
  = ([(1%positive, py "foo")], None)
  /\ (forall (R : Runtime),
        urlparse (py "foo") = ok (mkParseResult [] [] (py "foo")))
  /\ startswith (py "http") [] = false.
Proof. repeat split; reflexivity. Qed.

(** ** The spreadsheet sink *)

Lemma bind_value_coordinates (c : Cell) (value : pystr) :
  cell_row (bind_value c value).1 = cell_row c
  /\ cell_column (bind_value c value).1 = cell_column c.
Proof. unfold bind_value. by destruct (check_string value). Qed.

Lemma bind_value_returns (c : Cell) (value : pystr) :
  (bind_value c value).2 = None ->
  exists checked,
    check_string value = ok checked
    /\ (bind_value c value).1
       = mkCell (cell_row c) (cell_column c) (string_data_type checked)
                (StrValue checked).
Proof.
  unfold bind_value. destruct (check_string value) as [e|checked];
    [discriminate|]. intros _. by exists checked.
Qed.

(** A cut string is the string itself when it is short enough. *)
Lemma check_string_take (value checked : pystr) :
  check_string value = ok checked -> checked = take (N.to_nat 32767) value.
Proof.
  unfold check_string. destruct (existsb _ _); [discriminate|]. by intros [= <-].
Qed.

Lemma max_column_ws_bind (ws : list Cell) (row column : positive)
    (value : pystr) :
  max_column (ws_bind ws row column value).1
  = Pos.max (max_column ws) column.
Proof.
  unfold max_column. induction ws as [|c ws IH]; cbn [ws_bind].
  - pose proof (bind_value_coordinates
                  (mkCell row column (py "n") OtherValue) value) as [_ H].
    destruct (bind_value _ value) as [c' r]. simpl in *. lia.
  - destruct (cell_row c =? row)%positive; cbn [andb].
    + destruct (Pos.eqb_spec (cell_column c) column) as [Hc|Hc].
      * pose proof (bind_value_coordinates c value) as [_ H].
        destruct (bind_value c value) as [c' r]. simpl in *. lia.
      * destruct (ws_bind ws row column value) as [ws'' r]. simpl in *. lia.
    + destruct (ws_bind ws row column value) as [ws'' r]. simpl in *. lia.
Qed.

(** [sheet.cell] either leaves the sheet as it is, when the row is out of
    range, or binds the cell. *)
Lemma ws_cell_cases (ws : list Cell) (row column : positive) (value : pystr) :
  ((1048576 < row)%positive
   /\ (ws_cell ws row column value).1 = ws
   /\ (ws_cell ws row column value).2 <> None)
  \/ ((row <= 1048576)%positive
      /\ ws_cell ws row column value = ws_bind ws row column value).
Proof.
  unfold ws_cell. destruct (Pos.ltb_spec 1048576 row); [left|right; by split].
  by repeat split.
Qed.

Lemma max_column_ws_cell (ws : list Cell) (row column : positive)
    (value : pystr) :
  (column <= max_column ws)%positive ->
  max_column (ws_cell ws row column value).1 = max_column ws.
Proof.
  intros Hc. destruct (ws_cell_cases ws row column value)
    as [(_ & -> & _)|(_ & ->)]; [done|].
  rewrite max_column_ws_bind. lia.
Qed.

Lemma ws_get_beyond (ws : list Cell) (row column : positive) :
  (max_column ws < column)%positive -> ws_get ws row column = None.
Proof.
  unfold max_column. induction ws as [|c ws IH]; simpl; [done|].
  intros H. destruct (Pos.eqb_spec (cell_column c) column) as [Hc|Hc];
    [lia|]. rewrite andb_false_r. apply IH. lia.
Qed.

(** The cell [sheet.cell] binds: the one at the coordinate, or a new
    empty one. *)
Lemma ws_get_ws_bind_same (ws : list Cell) (row column : positive)
    (value : pystr) :
  ws_get (ws_bind ws row column value).1 row column
  = Some (bind_value
            match ws_get ws row column with
            | Some c => c
            | None => mkCell row column (py "n") OtherValue
            end value).1.
Proof.
  induction ws as [|c ws IH]; cbn [ws_bind ws_get].
  - pose proof (bind_value_coordinates
                  (mkCell row column (py "n") OtherValue) value) as [H1 H2].
    destruct (bind_value _ value) as [c' r]. simpl in *.
    by rewrite H1, H2, !Pos.eqb_refl.
  - destruct ((cell_row c =? row) && (cell_column c =? column))%positive
      eqn:E.
    + pose proof (bind_value_coordinates c value) as [H1 H2].
      destruct (bind_value c value) as [c' r]. simpl in *.
      by rewrite H1, H2, E.
    + destruct (ws_bind ws row column value) as [ws'' r]. simpl in *.
      by rewrite E.
Qed.

Lemma ws_get_ws_bind_other (ws : list Cell)
    (row column row' column' : positive) (value : pystr) :
  row <> row' \/ column <> column' ->
  ws_get (ws_bind ws row column value).1 row' column' = ws_get ws row' column'.
Proof.
  intros Hne.
  assert (Hoff : ((row =? row') && (column =? column'))%positive = false).
  { apply andb_false_iff. destruct Hne as [H|H]; [left|right];
      by apply Pos.eqb_neq. }
  induction ws as [|c ws IH]; cbn [ws_bind ws_get].
  - pose proof (bind_value_coordinates
                  (mkCell row column (py "n") OtherValue) value) as [H1 H2].
    destruct (bind_value _ value) as [c' r]. simpl in *.
    by rewrite H1, H2, Hoff.
  - destruct ((cell_row c =? row) && (cell_column c =? column))%positive
      eqn:E.
    + pose proof (bind_value_coordinates c value) as [H1 H2].
      destruct (bind_value c value) as [c' r]. simpl in *.
      apply andb_prop in E as [Er Ec].
      apply Pos.eqb_eq in Er, Ec. rewrite H1, H2, Er, Ec. by rewrite Hoff.
    + destruct (ws_bind ws row column value) as [ws'' r]. simpl in *.
      by rewrite IH.
Qed.

Lemma ws_get_ws_cell_other (ws : list Cell)
    (row column row' column' : positive) (value : pystr) :
  row <> row' \/ column <> column' ->
  ws_get (ws_cell ws row column value).1 row' column' = ws_get ws row' column'.
Proof.
  intros Hne. destruct (ws_cell_cases ws row column value)
    as [(_ & -> & _)|(_ & ->)]; [done|].
  by apply ws_get_ws_bind_other.
Qed.

Lemma ws_bind_raised (ws : list Cell) (row column : positive)
    (value : pystr) :
  (ws_bind ws row column value).2
  = match check_string value with
    | inl e => Some e
    | inr _ => None
    end.
Proof.
  assert (Hb : forall c, (bind_value c value).2
                         = match check_string value with
                           | inl e => Some e
                           | inr _ => None
                           end).
  { intros c. unfold bind_value. by destruct (check_string value). }
  induction ws as [|c ws IH]; cbn [ws_bind].
  - rewrite <- (Hb (mkCell row column (py "n") OtherValue)).
    by destruct (bind_value _ value).
  - destruct ((cell_row c =? row) && (cell_column c =? column))%positive.
    + rewrite <- (Hb c). by destruct (bind_value c value).
    + rewrite <- IH. by destruct (ws_bind ws row column value).
Qed.

(** A call of [sheet.cell] that returns has stored the checked string at
    the coordinate. *)
Lemma ws_cell_returns (ws : list Cell) (row column : positive)
    (value : pystr) :
  (ws_cell ws row column value).2 = None ->
  exists checked,
    check_string value = ok checked
    /\ ws_get (ws_cell ws row column value).1 row column
       = Some (mkCell row column (string_data_type checked)
                      (StrValue checked)).
Proof.
  destruct (ws_cell_cases ws row column value) as [(_ & _ & H)|(_ & ->)];
    [done|].
  rewrite ws_bind_raised, ws_get_ws_bind_same.
  destruct (check_string value) as [e|checked] eqn:E; [discriminate|].
  intros _. exists checked. split; [done|].
  unfold bind_value. rewrite E. cbn [fst]. f_equal.
  destruct (ws_get ws row column) as [c|] eqn:Eg; [|done].
  assert (cell_row c = row /\ cell_column c = column) as [-> ->]; [|done].
  clear -Eg. induction ws as [|c0 ws IH]; simpl in Eg; [done|].
  destruct ((cell_row c0 =? row) && (cell_column c0 =? column))%positive
    eqn:E; [|auto].
  injection Eg as <-. apply andb_prop in E as [Er Ec].
  by apply Pos.eqb_eq in Er, Ec.
Qed.

Section DictColumns.
Context {V : Type}.
Implicit Types (d : dict V) (k : pystr).

Lemma dict_get_app_l k d (more : dict V) (c : V) :
  dict_get k d = Some c -> dict_get k (d ++ more) = Some c.
Proof.
  induction d as [|[k' v'] d IH]; simpl; [done|].
  destruct (str_eqb k k'); auto.
Qed.

Lemma dict_get_prefix k d (d' : dict V) (c : V) :
  d `prefix_of` d' -> dict_get k d = Some c -> dict_get k d' = Some c.
Proof. intros [more ->]. apply dict_get_app_l. Qed.

Lemma dict_get_values k d (c : V) :
  dict_get k d = Some c -> c ∈ dict_values d.
Proof.
  induction d as [|[k' v'] d IH]; simpl; [done|].
  destruct (str_eqb k k').
  - intros [= ->]. left.
  - intros H. right. auto.
Qed.

Lemma dict_mem_get k d :
  dict_mem k d = true -> exists c, dict_get k d = Some c.
Proof. unfold dict_mem. destruct (dict_get k d); [eauto|discriminate]. Qed.
End DictColumns.

(** Two keys of a strictly increasing assignment never share a column. *)
Lemma dict_columns_inj (d : dict positive) (k k' : pystr) (c : positive) :
  StronglySorted Pos.lt (dict_values d) ->
  dict_get k d = Some c -> dict_get k' d = Some c -> k = k'.
Proof.
  induction d as [|[k0 c0] d IH]; simpl; [done|].
  intros Hs. apply StronglySorted_cons in Hs as [Hall Hs].
  rewrite Forall_forall in Hall.
  destruct (str_eqb k k0) eqn:E1, (str_eqb k' k0) eqn:E2.
  - apply str_eqb_true in E1, E2. congruence.
  - intros [= ->] H. apply dict_get_values, Hall in H. lia.
  - intros H [= ->]. apply dict_get_values, Hall in H. lia.
  - by apply IH.
Qed.

Lemma columns_ok_init (ws : list Cell) :
  columns_ok (max_column ws) (SkimmedExcel_init ws).
Proof.
  repeat split; simpl; try constructor. lia.
Qed.

Lemma max_column_ws_cell_le (ws : list Cell) (row column : positive)
    (value : pystr) :
  (max_column ws <= max_column (ws_cell ws row column value).1)%positive.
Proof.
  destruct (ws_cell_cases ws row column value) as [(_ & -> & _)|(_ & ->)];
    [lia|]. rewrite max_column_ws_bind. lia.
Qed.

(** The last statement of the loop body, for a key that has a column. *)
Lemma SkimmedExcel_add_value_found (row : positive) (s : SkimmedExcel)
    (key value : pystr) (col : positive) :
  dict_get key (metadata_columns s) = Some col ->
  SkimmedExcel_add_value row s key value
  = (mkSkimmedExcel (metadata_columns s)
                    (ws_cell (sheet s) row col value).1,
     (ws_cell (sheet s) row col value).2).
Proof.
  intros H. unfold SkimmedExcel_add_value. rewrite H.
  by destruct (ws_cell (sheet s) row col value).
Qed.

(** The ways a turn of the loop of [add_metadata] can go: the key has a
    column and the value is written there; or the key is new and is
    stored with the column after the last one of the sheet, and then the
    column is out of range, or the header cell refuses the key, or the
    header is written and the value after it. *)
Lemma SkimmedExcel_add_item_cases (row : positive) (s : SkimmedExcel)
    (k v : pystr) :
  (exists col,
     dict_get (CONFIG_PREFIX ++ k) (metadata_columns s) = Some col
     /\ SkimmedExcel_add_item row s (k, v)
        = (mkSkimmedExcel (metadata_columns s)
                          (ws_cell (sheet s) row col v).1,
           (ws_cell (sheet s) row col v).2))
  \/ (dict_mem (CONFIG_PREFIX ++ k) (metadata_columns s) = false
      /\ exists assigned,
           assigned
           = metadata_columns s
             ++ [(CONFIG_PREFIX ++ k, (max_column (sheet s) + 1)%positive)]
           /\ dict_get (CONFIG_PREFIX ++ k) assigned
              = Some (max_column (sheet s) + 1)%positive
           /\ (((LAST_COLUMN < max_column (sheet s) + 1)%positive
                /\ (SkimmedExcel_add_item row s (k, v)).1
                   = mkSkimmedExcel assigned (sheet s)
                /\ (SkimmedExcel_add_item row s (k, v)).2 <> None)
               \/ ((max_column (sheet s) + 1 <= LAST_COLUMN)%positive
                   /\ exists header,
                        header
                        = ws_bind (sheet s) 1 (max_column (sheet s) + 1)
                                  (CONFIG_PREFIX ++ k)
                        /\ ((header.2 <> None
                             /\ SkimmedExcel_add_item row s (k, v)
                                = (mkSkimmedExcel assigned header.1,
                                   header.2))
                            \/ (header.2 = None
                                /\ SkimmedExcel_add_item row s (k, v)
                                   = (mkSkimmedExcel assigned
                                        (ws_cell header.1 row
                                           (max_column (sheet s) + 1) v).1,
                                      (ws_cell header.1 row
                                         (max_column (sheet s) + 1) v).2)))))).
Proof.
  unfold SkimmedExcel_add_item. cbn [fst snd].
  set (key := CONFIG_PREFIX ++ k).
  set (column := (max_column (sheet s) + 1)%positive).
  destruct (dict_mem key (metadata_columns s)) eqn:Em.
  - left. destruct (dict_mem_get key _ Em) as [col Hcol]. exists col.
    split; [done|]. by apply SkimmedExcel_add_value_found.
  - right. split; [done|].
    exists (metadata_columns s ++ [(key, column)]). split; [done|].
    pose proof (dict_get_set_same key column (metadata_columns s)) as Hget.
    rewrite (dict_keys_set_new key column _ Em) in Hget |- *.
    split; [exact Hget|].
    unfold get_column_letter.
    destruct (Pos.leb_spec column 18278) as [Hle|Hgt].
    + right. split; [exact Hle|]. unfold ok. cbn [sheet metadata_columns].
      exists (ws_bind (sheet s) 1 column key). split; [done|].
      change (ws_cell (sheet s) 1 column key)
        with (ws_bind (sheet s) 1 column key).
      destruct (ws_bind (sheet s) 1 column key) as [ws [e|]]; cbn [fst snd].
      * left. by split.
      * right. split; [done|].
        by apply (SkimmedExcel_add_value_found row
                    (mkSkimmedExcel (metadata_columns s ++ [(key, column)])
                                    ws)).
    + left. unfold raise. cbn [fst snd]. by repeat split.
Qed.

Lemma dict_keys_app {V} (d more : dict V) :
  dict_keys (d ++ more) = dict_keys d ++ dict_keys more.
Proof. unfold dict_keys. apply map_app. Qed.

Lemma dict_values_app {V} (d more : dict V) :
  dict_values (d ++ more) = dict_values d ++ dict_values more.
Proof. unfold dict_values. apply map_app. Qed.

Lemma NoDup_keys_new {V} (d : dict V) (key : pystr) (c : V) :
  dict_mem key d = false -> NoDup (dict_keys d) ->
  NoDup (dict_keys (d ++ [(key, c)])).
Proof.
  intros Hnew Hnd. rewrite dict_keys_app. apply NoDup_app.
  split; [done|]. split; [|apply NoDup_singleton].
  intros x Hx Hk. apply list_elem_of_singleton in Hk. subst x.
  apply list_elem_of_In in Hx. apply (proj2 (dict_mem_In key d)) in Hx.
  congruence.
Qed.

(** A new key takes the column after the last one of the sheet, and the
    assignment stays in order once the sheet has a cell there. *)
Lemma columns_ok_new (base : positive) (s : SkimmedExcel) (key : pystr)
    (ws : list Cell) :
  columns_ok base s ->
  dict_mem key (metadata_columns s) = false ->
  max_column ws = (max_column (sheet s) + 1)%positive ->
  columns_ok base
    (mkSkimmedExcel
       (metadata_columns s ++ [(key, (max_column (sheet s) + 1)%positive)])
       ws).
Proof.
  intros (Hnd & Hsorted & Hall & Hbase) Hnew Hmax.
  unfold columns_ok. cbn [metadata_columns sheet].
  rewrite dict_values_app, Hmax. simpl.
  rewrite Forall_forall in Hall.
  split; [by apply NoDup_keys_new|]. split; [|split; [|lia]].
  - apply StronglySorted_app_2; [|done|repeat constructor].
    intros x1 x2 H1 H2. apply list_elem_of_singleton in H2. subst x2.
    apply Hall in H1. lia.
  - apply Forall_app. split.
    + apply Forall_forall. intros c Hc. apply Hall in Hc. lia.
    + constructor; [lia|constructor].
Qed.

(** One turn of the loop of [add_metadata]. Whatever the turn does, the
    assignment only grows at its end and the cells it touches are in the
    column of its key, in the row of the call or in the header row. The
    assignment stays in order when the column of the key is one a
    worksheet has, and a turn that returns has stored the checked value
    in the row, in that column. *)
Lemma SkimmedExcel_add_item_spec (base row : positive) (s : SkimmedExcel)
    (k v : pystr) :
  let s' := (SkimmedExcel_add_item row s (k, v)).1 in
  metadata_columns s `prefix_of` metadata_columns s'
  /\ (max_column (sheet s) <= max_column (sheet s'))%positive
  /\ (NoDup (dict_keys (metadata_columns s)) ->
      NoDup (dict_keys (metadata_columns s')))
  /\ ((base <= max_column (sheet s))%positive ->
      Forall (fun c => (base < c)%positive)
             (dict_values (metadata_columns s)) ->
      Forall (fun c => (base < c)%positive)
             (dict_values (metadata_columns s')))
  /\ exists col,
       dict_get (CONFIG_PREFIX ++ k) (metadata_columns s') = Some col
       /\ (forall r c,
             (r <> row /\ r <> 1%positive) \/ c <> col ->
             ws_get (sheet s') r c = ws_get (sheet s) r c)
       /\ (columns_ok base s -> (col <= LAST_COLUMN)%positive ->
           columns_ok base s')
       /\ ((SkimmedExcel_add_item row s (k, v)).2 = None ->
           exists checked,
             check_string v = ok checked
             /\ ws_get (sheet s') row col
                = Some (mkCell row col (string_data_type checked)
                               (StrValue checked))).
Proof.
  cbv zeta.
  destruct (SkimmedExcel_add_item_cases row s k v)
    as [(col & Hcol & ->)
       |(Hnew & assigned & -> & Hget
         & [(Hout & -> & Hraised)
           |(Hin & header & -> & [(Hraised & ->)|(Hreturned & ->)])])];
    cbn [fst snd metadata_columns sheet].
  - split; [done|]. split; [apply max_column_ws_cell_le|].
    split; [done|]. split; [done|].
    exists col. split; [done|]. split; [|split].
    + intros r c Hrc. apply ws_get_ws_cell_other.
      destruct Hrc as [[Hr _]|Hc]; [left|right]; congruence.
    + intros (Hnd & Hsorted & Hall & Hbase) _.
      assert (Hc : (col <= max_column (sheet s))%positive).
      { rewrite Forall_forall in Hall.
        apply dict_get_values, Hall in Hcol. lia. }
      unfold columns_ok. cbn [metadata_columns sheet].
      by rewrite max_column_ws_cell.
    + apply ws_cell_returns.
  - split; [by apply prefix_app_r|]. split; [lia|].
    split; [by apply NoDup_keys_new|]. split.
    { intros Hbase Hall. rewrite dict_values_app. apply Forall_app.
      split; [done|]. unfold dict_values. cbn [map snd].
      constructor; [lia|constructor]. }
    exists (max_column (sheet s) + 1)%positive.
    split; [done|]. split; [done|]. split; [|done].
    intros _ Hle. unfold LAST_COLUMN in *. lia.
  - rewrite max_column_ws_bind.
    split; [by apply prefix_app_r|]. split; [lia|].
    split; [by apply NoDup_keys_new|]. split.
    { intros Hbase Hall. rewrite dict_values_app. apply Forall_app.
      split; [done|]. unfold dict_values. cbn [map snd].
      constructor; [lia|constructor]. }
    exists (max_column (sheet s) + 1)%positive.
    split; [done|]. split; [|split; [|done]].
    + intros r c Hrc. apply ws_get_ws_bind_other.
      destruct Hrc as [[_ Hr]|Hc]; [left|right]; congruence.
    + intros Hok _. apply columns_ok_new; [done|done|].
      rewrite max_column_ws_bind. lia.
  - assert (Hmax : max_column
                     (ws_cell (ws_bind (sheet s) 1 (max_column (sheet s) + 1)
                                 (CONFIG_PREFIX ++ k)).1
                        row (max_column (sheet s) + 1) v).1
                   = (max_column (sheet s) + 1)%positive).
    { rewrite max_column_ws_cell; rewrite max_column_ws_bind; lia. }
    rewrite Hmax.
    split; [by apply prefix_app_r|]. split; [lia|].
    split; [by apply NoDup_keys_new|]. split.
    { intros Hbase Hall. rewrite dict_values_app. apply Forall_app.
      split; [done|]. unfold dict_values. cbn [map snd].
      constructor; [lia|constructor]. }
    exists (max_column (sheet s) + 1)%positive.
    split; [done|]. split; [|split].
    + intros r c Hrc. rewrite ws_get_ws_cell_other.
      * apply ws_get_ws_bind_other.
        destruct Hrc as [[_ Hr]|Hc]; [left|right]; congruence.
      * destruct Hrc as [[Hr _]|Hc]; [left|right]; congruence.
    + intros Hok _. by apply columns_ok_new.
    + apply ws_cell_returns.
Qed.

(** The loop of [add_metadata], whether it ends or is left by an
    exception. *)
Lemma SkimmedExcel_add_items_spec (base row : positive) (items : dict pystr)
    (s : SkimmedExcel) :
  let s' := (SkimmedExcel_add_items row s items).1 in
  metadata_columns s `prefix_of` metadata_columns s'
  /\ (max_column (sheet s) <= max_column (sheet s'))%positive
  /\ (NoDup (dict_keys (metadata_columns s)) ->
      NoDup (dict_keys (metadata_columns s')))
  /\ ((base <= max_column (sheet s))%positive ->
      Forall (fun c => (base < c)%positive)
             (dict_values (metadata_columns s)) ->
      Forall (fun c => (base < c)%positive)
             (dict_values (metadata_columns s')))
  /\ (forall r c,
        (r <> row /\ r <> 1%positive)
        \/ (forall k v, In (k, v) items ->
              dict_get (CONFIG_PREFIX ++ k) (metadata_columns s')
              <> Some c) ->
        ws_get (sheet s') r c = ws_get (sheet s) r c)
  /\ (columns_ok base s ->
      Forall (fun c => (c <= LAST_COLUMN)%positive)
             (dict_values (metadata_columns s')) ->
      columns_ok base s'
      /\ (NoDup (dict_keys items) ->
          (SkimmedExcel_add_items row s items).2 = None ->
          forall k v, In (k, v) items ->
            exists col checked,
              dict_get (CONFIG_PREFIX ++ k) (metadata_columns s') = Some col
              /\ check_string v = ok checked
              /\ ws_get (sheet s') row col
                 = Some (mkCell row col (string_data_type checked)
                                (StrValue checked)))).
Proof.
  cbv zeta. revert s.
  induction items as [|[k0 v0] items IH]; intros s; cbn [SkimmedExcel_add_items].
  { cbn [fst snd]. split; [done|]. split; [lia|]. split; [done|].
    split; [done|]. split; [done|]. intros Hok _. split; [done|].
    by intros _ _ k v []. }
  destruct (SkimmedExcel_add_item_spec base row s k0 v0)
    as (Hpre1 & Hmax1 & Hnd1 & Hbeyond1 & col0 & Hget0 & Hframe1 & Hok1
        & Hret1).
  destruct (SkimmedExcel_add_item row s (k0, v0)) as [s1 [e|]];
    cbn [fst snd] in *.
  - split; [done|]. split; [done|]. split; [done|]. split; [done|]. split.
    + intros r c Hrc. apply Hframe1.
      destruct Hrc as [Hr|Hc]; [by left|right].
      intros ->. by apply (Hc k0 v0); [left|].
    + intros Hok Hlast. split; [|discriminate].
      apply Hok1; [done|]. rewrite Forall_forall in Hlast.
      by apply Hlast, (dict_get_values (CONFIG_PREFIX ++ k0)).
  - destruct (IH s1) as (Hpre & Hmax & Hnd & Hbeyond & Hframe & Hok).
    assert (Hget0' : dict_get (CONFIG_PREFIX ++ k0)
                       (metadata_columns
                          (SkimmedExcel_add_items row s1 items).1)
                     = Some col0)
      by (by apply (dict_get_prefix _ _ _ col0 Hpre)).
    split; [by etransitivity|]. split; [lia|]. split; [auto|].
    split; [intros Hb Hall; apply Hbeyond; [lia | by apply Hbeyond1]|].
    split.
    + intros r c Hrc. rewrite Hframe.
      * apply Hframe1. destruct Hrc as [Hr|Hc]; [by left|right].
        intros ->. by apply (Hc k0 v0); [left|].
      * destruct Hrc as [Hr|Hc]; [by left|right].
        intros k v Hin. apply (Hc k v). by right.
    + intros Hok0 Hlast.
      assert (Hs1 : columns_ok base s1).
      { apply Hok1; [done|]. rewrite Forall_forall in Hlast.
        by apply Hlast, (dict_get_values (CONFIG_PREFIX ++ k0)). }
      destruct (Hok Hs1 Hlast) as [Hok' Hwritten]. split; [done|].
      intros Hkeys Hnone k v Hin.
      apply NoDup_cons in Hkeys as [Hfresh Hkeys].
      destruct Hin as [[= -> ->]|Hin]; [|by apply Hwritten].
      destruct (Hret1 eq_refl) as (checked & Hcheck & Hcell).
      exists col0, checked. split; [done|]. split; [done|].
      rewrite Hframe; [done|]. right. intros k' v' Hin' Hget'.
      destruct Hok' as (_ & Hsorted & _).
      pose proof (dict_columns_inj _ _ _ col0 Hsorted Hget' Hget0') as Heq.
      apply app_inv_head in Heq. subst k'. apply Hfresh.
      apply list_elem_of_In. exact (in_map fst items (k, v') Hin').
Qed.

Lemma SkimmedExcel_calls_cons (s : SkimmedExcel) (row : positive)
    (uri : pystr) (metadata : dict pystr)
    (calls : list (positive * pystr * dict pystr)) :
  SkimmedExcel_calls s ((row, uri, metadata) :: calls)
  = SkimmedExcel_calls (SkimmedExcel_add_items row s metadata).1 calls.
Proof. reflexivity. Qed.

(** A sequence of calls on one sink, one made after the other whether
    the one before returned or raised. *)
Lemma SkimmedExcel_calls_spec (base : positive)
    (calls : list (positive * pystr * dict pystr)) (s : SkimmedExcel) :
  let s' := SkimmedExcel_calls s calls in
  metadata_columns s `prefix_of` metadata_columns s'
  /\ (max_column (sheet s) <= max_column (sheet s'))%positive
  /\ (NoDup (dict_keys (metadata_columns s)) ->
      NoDup (dict_keys (metadata_columns s')))
  /\ ((base <= max_column (sheet s))%positive ->
      Forall (fun c => (base < c)%positive)
             (dict_values (metadata_columns s)) ->
      Forall (fun c => (base < c)%positive)
             (dict_values (metadata_columns s'))
      /\ forall r c, (c <= base)%positive ->
                     ws_get (sheet s') r c = ws_get (sheet s) r c)
  /\ (columns_ok base s ->
      Forall (fun c => (c <= LAST_COLUMN)%positive)
             (dict_values (metadata_columns s')) ->
      columns_ok base s').
Proof.
  cbv zeta. revert s.
  induction calls as [|[[row uri] metadata] calls IH]; intros s.
  { split; [done|]. split; [reflexivity|]. split; [done|]. split; [|done].
    intros Hb Hall. by split. }
  rewrite SkimmedExcel_calls_cons.
  destruct (SkimmedExcel_add_items_spec base row metadata s)
    as (Hpre1 & Hmax1 & Hnd1 & Hbeyond1 & Hframe1 & Hok1).
  set (s1 := (SkimmedExcel_add_items row s metadata).1) in *.
  destruct (IH s1) as (Hpre & Hmax & Hnd & Hbeyond & Hok).
  split; [by etransitivity|]. split; [lia|]. split; [auto|]. split.
  - intros Hbase Hall.
    destruct (Hbeyond ltac:(lia) (Hbeyond1 Hbase Hall)) as [Hall' Horig].
    split; [done|]. intros r c Hc. rewrite (Horig r c Hc).
    apply Hframe1. right. intros k v _ Hget.
    pose proof (Hbeyond1 Hbase Hall) as Hall1.
    rewrite Forall_forall in Hall1.
    apply dict_get_values, Hall1 in Hget. lia.
  - intros Hok0 Hlast. apply Hok; [|done].
    apply Hok1; [done|].
    rewrite Forall_forall in Hlast |- *. intros c Hc. apply Hlast.
    destruct Hpre as [more ->]. rewrite dict_values_app.
    apply elem_of_app. by left.
Qed.




(** * Further properties *)

(** ** Text cleaning in [handle_data] *)

Lemma rev_nonempty {A} (l : list A) : l <> [] -> rev l <> [].
Proof.
  destruct l as [|a l]; [done|]. simpl. intros _ H.
  by apply app_eq_nil in H as [_ H].
Qed.

Lemma split_from_words (cur s : pystr) :
  Forall (fun c => py_isspace c = false) cur ->
  Forall is_word (split_from cur s).
Proof.
  revert cur. induction s as [|c s IH]; intros cur Hcur; simpl.
  - destruct cur as [|c0 cur]; [constructor|].
    constructor; [|constructor]. split.
    + by apply rev_nonempty.
    + by apply List.Forall_rev.
  - destruct (py_isspace c) eqn:E.
    + destruct cur as [|c0 cur]; [by apply IH|].
      constructor; [|by apply IH]. split.
      * by apply rev_nonempty.
      * by apply List.Forall_rev.
    + apply IH. by constructor.
Qed.

Lemma split_from_nonempty (cur s : pystr) :
  cur <> [] -> split_from cur s <> [].
Proof.
  revert cur. induction s as [|c s IH]; intros cur Hcur; simpl.
  - by destruct cur.
  - destruct (py_isspace c); [by destruct cur|]. by apply IH.
Qed.

Lemma split_empty_iff (s : pystr) :
  split s = [] <-> forallb py_isspace s = true.
Proof.
  unfold split. induction s as [|c s IH]; simpl; [done|].
  destruct (py_isspace c); simpl; [done|]. split; [|done].
  intros H. by apply split_from_nonempty in H.
Qed.

Lemma split_from_word (w cur more : pystr) :
  Forall (fun c => py_isspace c = false) w ->
  split_from cur (w ++ more) = split_from (rev w ++ cur) more.
Proof.
  revert cur. induction w as [|c w IH]; intros cur Hw; simpl; [done|].
  apply Forall_cons in Hw as [-> Hw]. rewrite IH by done.
  by rewrite <- app_assoc.
Qed.

Lemma join_nonempty (sep w : pystr) (ws : list pystr) :
  w <> [] -> join sep (w :: ws) <> [].
Proof. destruct ws, w; simpl; done. Qed.

Lemma split_join (ws : list pystr) :
  Forall is_word ws -> split (join (py " ") ws) = ws.
Proof.
  unfold split. induction ws as [|w ws IH]; intros Hws; [done|].
  apply Forall_cons in Hws as [[Hne Hw] Hws].
  destruct ws as [|w2 ws].
  - simpl. rewrite <- (app_nil_r w) at 1.
    rewrite split_from_word by done. rewrite app_nil_r. simpl.
    destruct (rev w) eqn:E; [by apply rev_nonempty in Hne|].
    by rewrite <- E, rev_involutive.
  - change (join (py " ") (w :: w2 :: ws))
      with (w ++ 32%N :: join (py " ") (w2 :: ws)).
    rewrite split_from_word by done. rewrite app_nil_r. simpl.
    destruct (rev w) eqn:E; [by apply rev_nonempty in Hne|].
    rewrite <- E, rev_involutive. f_equal. by apply IH.
Qed.

Lemma normalize_empty_iff (data : pystr) :
  normalize data = [] <-> forallb py_isspace data = true.
Proof.
  rewrite <- split_empty_iff. unfold normalize.
  pose proof (split_from_words [] data ltac:(constructor)) as Hw.
  fold (split data) in Hw.
  destruct (split data) as [|w ws]; [done|].
  apply Forall_cons in Hw as [[Hne _] _].
  split; [|done]. intros H. by apply join_nonempty in H.
Qed.

(** X5. The text [handle_data] keeps of its data is a sequence of words,
    none empty and none with white space in it, joined by single spaces;
    cleaning a cleaned text changes nothing; and the cleaned text is
    empty exactly when the data is white space only. *)
Theorem normalize_words :
  forall (data : pystr),
    Forall is_word (split data)
    /\ normalize data = join (py " ") (split data)
    /\ normalize (normalize data) = normalize data
    /\ (normalize data = [] <-> forallb py_isspace data = true).
Proof.
  intros data.
  assert (Hw : Forall is_word (split data))
    by (apply split_from_words; constructor).
  split; [done|]. split; [done|]. split.
  - unfold normalize. by rewrite split_join.
  - apply normalize_empty_iff.
Qed.

(** X1. [handle_data] leaves the parser as it is when no region is open,
    whatever the data, and when the data is white space only, whatever the
    regions; in all cases it touches neither the flags nor the markers nor
    the result dictionary. *)
Theorem handle_data_ignores :
  forall (p : Parser) (data : pystr),
    (within_k_tag p = false -> within_v_tag p = false ->
     handle_data p data = p)
    /\ (forallb py_isspace data = true -> handle_data p data = p)
    /\ within_k_tag (handle_data p data) = within_k_tag p
    /\ within_v_tag (handle_data p data) = within_v_tag p
    /\ k_class (handle_data p data) = k_class p
    /\ v_class (handle_data p data) = v_class p
    /\ retrieved_metadata (handle_data p data) = retrieved_metadata p.
Proof.
  intros p data. split; [|split].
  - destruct p as [wk wv kc vc ck cv md]; simpl. by intros -> ->.
  - intros Hsp. apply normalize_empty_iff in Hsp.
    unfold handle_data. fold (normalize data). rewrite Hsp.
    destruct p as [[] [] kc vc ck cv md]; reflexivity.
  - split; [apply (handle_data_within KeyRegion)|].
    split; [apply (handle_data_within ValueRegion)|].
    unfold handle_data.
    destruct p as [[] [] kc vc ck cv md]; simpl;
      destruct (join (py " ") (split data)); simpl;
      try destruct cv; simpl; repeat split; reflexivity.
Qed.

Lemma handle_data_ignores_witness :
  handle_data new_parser (py "Autor:") = new_parser
  /\ handle_data key_opened [32%N; 10%N; 9%N] = key_opened.
Proof.
  split.
  - exact (proj1 (handle_data_ignores new_parser (py "Autor:"))
             eq_refl eq_refl).
  - exact (proj1 (proj2 (handle_data_ignores key_opened [32%N; 10%N; 9%N]))
             eq_refl).
Defined.

(** ** Keys and values the parser builds *)

Lemma head_lstrip_by (f : N -> bool) (s : pystr) (c : N) :
  head (lstrip_by f s) = Some c -> f c = false.
Proof.
  induction s as [|a s IH]; simpl; [done|].
  destruct (f a) eqn:E; [done|]. simpl. by intros [= <-].
Qed.

Lemma last_rstrip_by (f : N -> bool) (s : pystr) (c : N) :
  last (rstrip_by f s) = Some c -> f c = false.
Proof.
  unfold rstrip_by. rewrite (rev_alt (lstrip_by f (rev s))).
  change (rev_append ?l []) with (reverse l). rewrite last_reverse.
  apply head_lstrip_by.
Qed.

Lemma starttag_attr_key (p p' : Parser) (attr : pystr * option pystr) :
  starttag_attr p attr = ok p' ->
  current_key p' = current_key p \/ current_key p' = [].
Proof.
  unfold starttag_attr, marker_in, bind, ok, raise.
  destruct attr as [name [value|]]; simpl;
    destruct (str_eqb name (py "class")); simpl; try discriminate;
    try (destruct (contains (k_class p) value); simpl;
         destruct (contains (v_class p) value); simpl);
    intros H; inversion H; subst; simpl; auto.
Qed.

Lemma handle_starttag_key (p p' : Parser) (tag : pystr)
    (attrs : list (pystr * option pystr)) :
  handle_starttag p tag attrs = ok p' ->
  current_key p' = current_key p \/ current_key p' = [].
Proof.
  unfold handle_starttag. revert p.
  induction attrs as [|attr attrs IH]; simpl; intros p H.
  - inversion H; subst. by left.
  - unfold bind in H. destruct (starttag_attr p attr) as [e|q] eqn:E;
      [discriminate|].
    apply starttag_attr_key in E. apply IH in H.
    destruct H as [H|H]; [|by right]. rewrite H. exact E.
Qed.

Lemma handle_data_key (p : Parser) (data : pystr) :
  current_key (handle_data p data)
  = if within_k_tag p
    then current_key p ++ rstrip (py ":") (normalize data)
    else current_key p.
Proof.
  destruct (within_k_tag p) eqn:E.
  - by apply (handle_data_buffer KeyRegion).
  - unfold handle_data. rewrite E.
    destruct p as [wk [] kc vc ck cv md]; simpl;
      destruct (join (py " ") (split data)); simpl;
      try destruct cv; reflexivity.
Qed.

Lemma no_colon_app_rstrip (key text : pystr) :
  last key <> Some 58%N ->
  last (key ++ rstrip (py ":") text) <> Some 58%N.
Proof.
  intros Hkey. rewrite last_app.
  destruct (last (rstrip (py ":") text)) as [c|] eqn:E; [|done].
  intros [= ->]. by apply last_rstrip_by in E.
Qed.

Lemma dict_set_keys_Forall {V} (P : pystr -> Prop) (k : pystr) (v : V)
    (d : dict V) :
  P k -> Forall P (dict_keys d) -> Forall P (dict_keys (dict_set k v d)).
Proof.
  intros Hk Hd. rewrite dict_keys_set. destruct (dict_mem k d); [done|].
  apply Forall_app. split; [done|]. by constructor.
Qed.

(** The invariant behind X2 and its preservation by every call. *)
Lemma handle_event_no_colon (p p' : Parser) (ev : Event) :
  handle_event p ev = ok p' ->
  last (current_key p) <> Some 58%N ->
  Forall (fun k => last k <> Some 58%N) (dict_keys (retrieved_metadata p)) ->
  last (current_key p') <> Some 58%N
  /\ Forall (fun k => last k <> Some 58%N)
            (dict_keys (retrieved_metadata p')).
Proof.
  assert (Hend : forall q tag,
             last (current_key q) <> Some 58%N ->
             Forall (fun k => last k <> Some 58%N)
                    (dict_keys (retrieved_metadata q)) ->
             last (current_key (handle_endtag q tag)) <> Some 58%N
             /\ Forall (fun k => last k <> Some 58%N)
                       (dict_keys (retrieved_metadata (handle_endtag q tag)))).
  { intros q tag Hk Hd. destruct (within_v_tag q) eqn:E.
    - rewrite handle_endtag_commit by done. simpl. split; [done|].
      apply dict_set_keys_Forall; [|done].
      destruct (current_key q); [vm_compute; discriminate | done].
    - rewrite handle_endtag_no_commit by done. split; [|done].
      destruct q as [[] wv kc vc ck cv md]; simpl in *; subst wv; done. }
  assert (Hstart : forall q q' tag attrs,
             handle_starttag q tag attrs = ok q' ->
             last (current_key q) <> Some 58%N ->
             Forall (fun k => last k <> Some 58%N)
                    (dict_keys (retrieved_metadata q)) ->
             last (current_key q') <> Some 58%N
             /\ Forall (fun k => last k <> Some 58%N)
                       (dict_keys (retrieved_metadata q'))).
  { intros q q' tag attrs H Hk Hd.
    destruct (handle_starttag_key q q' tag attrs H) as [-> | ->];
      apply handle_starttag_frame in H as (_ & _ & -> & _); done. }
  destruct ev; simpl; intros H Hk Hd.
  - by apply (Hstart p p' tag attrs).
  - inversion H; subst. by apply Hend.
  - unfold bind in H.
    destruct (handle_starttag p tag attrs) as [e|q] eqn:E; [discriminate|].
    inversion H; subst.
    destruct (Hstart p q tag attrs E Hk Hd). by apply Hend.
  - inversion H; subst. rewrite handle_data_metadata, handle_data_key.
    split; [|done]. destruct (within_k_tag p); [|done].
    by apply no_colon_app_rstrip.
  - by inversion H; subst.
  - by inversion H; subst.
  - by inversion H; subst.
Qed.

(** X2. No key [parse] returns ends with a colon, and neither does the
    key text the parser is left with, provided the key text it started
    with did not: [handle_data] strips the colons at the end of every piece
    of key text before it appends it. *)
Theorem keys_never_end_with_colon :
  forall (p p' : Parser) (evs : list Event),
    last (current_key p) <> Some 58%N ->
    parse_events p evs = ok p' ->
    last (current_key p') <> Some 58%N
    /\ Forall (fun k => last k <> Some 58%N)
              (dict_keys (retrieved_metadata p')).
Proof.
  intros p p' evs Hk. unfold parse_events.
  assert (Hd : Forall (fun k => last k <> Some 58%N)
                 (dict_keys (retrieved_metadata
                               (set_retrieved_metadata [] p))))
    by constructor.
  change (current_key p) with (current_key (set_retrieved_metadata [] p))
    in Hk.
  revert Hk Hd. generalize (set_retrieved_metadata [] p). clear p.
  induction evs as [|ev evs IH]; simpl; intros p Hk Hd H.
  - by inversion H; subst.
  - unfold bind in H.
    destruct (handle_event p ev) as [e|q] eqn:E; [discriminate|].
    destruct (handle_event_no_colon p q ev E Hk Hd). by apply (IH q).
Qed.

Lemma keys_never_end_with_colon_witness :
  last (current_key new_parser) <> Some 58%N
  /\ Forall (fun k => last k <> Some 58%N)
            (dict_keys [(py "Autor", py "x")]).
Proof.
  assert (H : last (current_key new_parser) <> Some 58%N) by discriminate.
  split; [exact H|].
  exact (proj2 (keys_never_end_with_colon new_parser
                  (mkParser false false CONFIG_K_DIV_CLASS
                            CONFIG_V_DIV_CLASS [] [] [(py "Autor", py "x")])
                  [ Starttag (py "div") [class_attr "auth"];
                    Data (py "Autor::"); Endtag (py "div");
                    Starttag (py "div") [class_attr "titn"]; Data (py "x");
                    Endtag (py "div") ] H eq_refl)).
Defined.

Lemma join_cons_cons (sep a b : pystr) (l : list pystr) :
  join sep (a :: b :: l) = a ++ sep ++ join sep (b :: l).
Proof. reflexivity. Qed.

Lemma join_merge_head (sep a b : pystr) (l : list pystr) :
  join sep ((a ++ sep ++ b) :: l) = join sep (a :: b :: l).
Proof.
  rewrite join_cons_cons. destruct l as [|c l]; [done|].
  rewrite !join_cons_cons. by rewrite <- !app_assoc.
Qed.

(** A run of [handle_data] calls inside a value region, from any buffer. *)
Lemma feed_data_value (p : Parser) (datas : list pystr) :
  within_v_tag p = true ->
  exists p', feed_events p (map Data datas) = ok p'
             /\ within_v_tag p' = true
             /\ retrieved_metadata p' = retrieved_metadata p
             /\ current_value p'
                = join (py " / ")
                    ((if nonempty (current_value p) then [current_value p]
                      else []) ++ fragments datas).
Proof.
  revert p. induction datas as [|d datas IH]; intros p Hv.
  - exists p. repeat split; try done. simpl.
    rewrite app_nil_r. by destruct (current_value p).
  - assert (Hq : within_v_tag (handle_data p d) = true)
      by (by rewrite (handle_data_within ValueRegion)).
    destruct (IH _ Hq) as (p' & Hfeed & Hv' & Hmd & Hcv).
    exists p'. split; [exact Hfeed|]. split; [done|].
    split; [by rewrite Hmd, handle_data_metadata|].
    rewrite Hcv. pose proof (handle_data_buffer ValueRegion p d Hv) as Hb.
    cbn [buffer] in Hb. rewrite Hb.
    unfold fragments. cbn [map List.filter appended].
    destruct (normalize d) as [|c t] eqn:En; [done|].
    cbn [nonempty]. destruct (current_value p) as [|c0 cv]; [done|].
    cbn [nonempty app]. apply (join_merge_head _ (c0 :: cv) (c :: t)).
Qed.

(** X3. Inside a value region that has just been opened, a run of text
    pieces leaves in the value buffer the cleaned pieces that are not
    empty, in order, joined by [' / ']; the result dictionary is not
    touched. *)
Theorem value_is_joined_fragments :
  forall (p : Parser) (datas : list pystr),
    within_v_tag p = true ->
    current_value p = [] ->
    exists p', feed_events p (map Data datas) = ok p'
               /\ current_value p' = join (py " / ") (fragments datas)
               /\ within_v_tag p' = true
               /\ retrieved_metadata p' = retrieved_metadata p.
Proof.
  intros p datas Hv Hcv.
  destruct (feed_data_value p datas Hv) as (p' & Hfeed & Hv' & Hmd & H).
  exists p'. rewrite Hcv in H. by repeat split.
Qed.

Lemma value_is_joined_fragments_witness :
  exists p', feed_events (set_current_value [] (set_within_v true new_parser))
               (map Data [py "Madrid :"; [32%N; 10%N]; py " 1605 "])
             = ok p'
             /\ current_value p'
                = join (py " / ")
                    (fragments [py "Madrid :"; [32%N; 10%N]; py " 1605 "])
             /\ within_v_tag p' = true
             /\ retrieved_metadata p' = retrieved_metadata
                  (set_current_value [] (set_within_v true new_parser)).
Proof.
  exact (value_is_joined_fragments
           (set_current_value [] (set_within_v true new_parser))
           [py "Madrid :"; [32%N; 10%N]; py " 1605 "] eq_refl eq_refl).
Defined.

(** ** When the parser fails *)

Lemma starttag_attr_raises (p : Parser) (attr : pystr * option pystr)
    (e : exn) :
  starttag_attr p attr = raise e ->
  e = TypeError /\ attr = (py "class", None).
Proof.
  unfold starttag_attr, marker_in, bind, ok, raise.
  destruct attr as [name [value|]]; simpl;
    destruct (str_eqb name (py "class")) eqn:E; simpl; try discriminate.
  intros [= <-]. apply str_eqb_true in E. by subst.
Qed.

Lemma handle_starttag_raises (p : Parser) (tag : pystr)
    (attrs : list (pystr * option pystr)) (e : exn) :
  handle_starttag p tag attrs = raise e ->
  e = TypeError /\ In (py "class", None) attrs.
Proof.
  unfold handle_starttag. revert p.
  induction attrs as [|attr attrs IH]; simpl; intros p H; [discriminate|].
  unfold bind in H. destruct (starttag_attr p attr) as [e'|q] eqn:E.
  - injection H as ->. apply starttag_attr_raises in E as [-> ->]. auto.
  - apply IH in H as [-> H]. auto.
Qed.

Lemma handle_event_total (p : Parser) (ev : Event) :
  event_classes_valued ev -> exists p', handle_event p ev = ok p'.
Proof.
  destruct ev; simpl; intros H; try by eexists.
  - by apply handle_starttag_total.
  - destruct (handle_starttag_total p tag attrs H) as [q ->]. by eexists.
Qed.

Lemma handle_event_raises (p : Parser) (ev : Event) (e : exn) :
  handle_event p ev = raise e ->
  e = TypeError /\ ~ event_classes_valued ev.
Proof.
  assert (Hbad : forall attrs,
             In (py "class", None) attrs -> ~ classes_valued attrs)
    by (intros attrs Hin Hv; by apply (Hv _ Hin)).
  destruct ev; simpl; intros H; try discriminate.
  - apply handle_starttag_raises in H as [-> H]. auto.
  - unfold bind in H.
    destruct (handle_starttag p tag attrs) as [e'|q] eqn:E; [|discriminate].
    injection H as ->. apply handle_starttag_raises in E as [-> E]. auto.
Qed.

Lemma handle_starttag_ok_valued (p p' : Parser) (tag : pystr)
    (attrs : list (pystr * option pystr)) :
  handle_starttag p tag attrs = ok p' -> classes_valued attrs.
Proof.
  unfold handle_starttag, classes_valued. revert p.
  induction attrs as [|attr attrs IH]; simpl; intros p H name [];
    unfold bind in H;
    destruct (starttag_attr p attr) as [e|q] eqn:E; try discriminate.
  - subst attr. intros ->. discriminate E.
  - by apply (IH q).
Qed.

Lemma handle_event_ok_valued (p p' : Parser) (ev : Event) :
  handle_event p ev = ok p' -> event_classes_valued ev.
Proof.
  destruct ev; simpl; try done.
  - apply handle_starttag_ok_valued.
  - unfold bind.
    destruct (handle_starttag p tag attrs) as [e|q] eqn:E; [discriminate|].
    intros _. by apply (handle_starttag_ok_valued p q tag).
Qed.



(** ** The records of the sources *)

Section ExcelSource.
Context {R : Runtime}.

Lemma first_manteca_step (cell : Cell) (cells : list Cell) :
  first_manteca (cell :: cells)
  = match cell_outcome cell with
    | Yielded uri => ok [(cell_row cell, uri)]
    | Skipped => first_manteca cells
    | Failed e => raise e
    end.
Proof.
  cbn [first_manteca]. unfold cell_outcome.
  destruct (negb (str_eqb (data_type cell) (py "s")));
    [by destruct (coordinate cell)|].
  destruct (cell_value cell) as [value|]; [|done].
  destruct (urlparse value) as [e|parsed]; [done|]. unfold bind.
  destruct (startswith (py "http") (scheme parsed)); [|done].
  by destruct (coordinate cell).
Qed.

(** The three ways the scan of a row can end: at the end of the row, at
    the first cell that is yielded, at the first cell that fails. *)
Lemma first_manteca_spec (cells : list Cell) :
  (Forall (fun c => cell_outcome c = Skipped) cells
   /\ first_manteca cells = ok [])
  \/ exists before cell after,
       cells = before ++ cell :: after
       /\ Forall (fun c => cell_outcome c = Skipped) before
       /\ ((exists uri, cell_outcome cell = Yielded uri
                        /\ first_manteca cells = ok [(cell_row cell, uri)])
           \/ (exists e, cell_outcome cell = Failed e
                         /\ first_manteca cells = raise e)).
Proof.
  induction cells as [|cell cells IH]; [left; by split|].
  rewrite first_manteca_step.
  destruct (cell_outcome cell) as [uri| |e] eqn:Eo.
  - right. exists [], cell, cells. split; [done|]. split; [done|].
    left. by exists uri.
  - destruct IH as [[Hall Hnone]|(before & c & after & -> & Hall & H)].
    + left. split; [by constructor | done].
    + right. exists (cell :: before), c, after.
      split; [done|]. split; [by constructor | done].
  - right. exists [], cell, cells. split; [done|]. split; [done|].
    right. by exists e.
Qed.

Lemma first_manteca_yields (before after : list Cell) (cell : Cell)
    (uri : pystr) :
  Forall (fun c => cell_outcome c = Skipped) before ->
  cell_outcome cell = Yielded uri ->
  first_manteca (before ++ cell :: after) = ok [(cell_row cell, uri)].
Proof.
  intros Hall Hcell. induction before as [|c before IH]; simpl app;
    rewrite first_manteca_step.
  - by rewrite Hcell.
  - apply Forall_cons in Hall as [-> Hall]. auto.
Qed.

(** What the rows yield, and where the generator ends. *)
Lemma MantecaExcel_get_mantecas_spec (sheet_rows : list (list Cell)) :
  exists scanned : nat,
    (scanned <= length sheet_rows)%nat
    /\ Forall (fun cells => exists found, scan_row cells = ok found)
              (take scanned sheet_rows)
    /\ match (MantecaExcel_get_mantecas sheet_rows).2 with
       | None => scanned = length sheet_rows
       | Some e =>
           exists cells,
             sheet_rows !! scanned = Some cells
             /\ ((cells = [] /\ e = IndexError)
                 \/ exists before cell after,
                      cells = before ++ cell :: after
                      /\ Forall (fun c => cell_outcome c = Skipped) before
                      /\ cell_outcome cell = Failed e)
       end
    /\ (length (MantecaExcel_get_mantecas sheet_rows).1 <= scanned)%nat
    /\ forall (row : positive) (uri : pystr),
         In (row, uri) (MantecaExcel_get_mantecas sheet_rows).1
         <-> exists cells before cell after,
               In cells (take scanned sheet_rows)
               /\ cells = before ++ cell :: after
               /\ Forall (fun c => cell_outcome c = Skipped) before
               /\ cell_outcome cell = Yielded uri
               /\ row = cell_row cell.
Proof.
  induction sheet_rows as [|cells sheet_rows IH];
    cbn [MantecaExcel_get_mantecas].
  { exists 0%nat. cbn. split; [lia|]. split; [constructor|].
    split; [done|]. split; [lia|]. intros row uri. split; [intros []|].
    by intros (cells & _ & _ & _ & [] & _). }
  assert (Hstop : forall e,
             (cells = [] /\ e = IndexError)
             \/ (exists before cell after,
                   cells = before ++ cell :: after
                   /\ Forall (fun c => cell_outcome c = Skipped) before
                   /\ cell_outcome cell = Failed e) ->
             exists scanned : nat,
               (scanned <= length (cells :: sheet_rows))%nat
               /\ Forall (fun cells => exists found, scan_row cells = ok found)
                         (take scanned (cells :: sheet_rows))
               /\ (exists cells0,
                     (cells :: sheet_rows) !! scanned = Some cells0
                     /\ ((cells0 = [] /\ e = IndexError)
                         \/ exists before cell after,
                              cells0 = before ++ cell :: after
                              /\ Forall (fun c => cell_outcome c = Skipped)
                                        before
                              /\ cell_outcome cell = Failed e))
               /\ (length (@nil (positive * pystr)) <= scanned)%nat
               /\ forall (row : positive) (uri : pystr),
                    In (row, uri) [] 
                    <-> exists cells0 before cell after,
                          In cells0 (take scanned (cells :: sheet_rows))
                          /\ cells0 = before ++ cell :: after
                          /\ Forall (fun c => cell_outcome c = Skipped) before
                          /\ cell_outcome cell = Yielded uri
                          /\ row = cell_row cell).
  { intros e He. exists 0%nat. cbn. split; [lia|]. split; [constructor|].
    split; [by exists cells|]. split; [lia|].
    intros row uri. split; [intros []|].
    by intros (cs & _ & _ & _ & [] & _). }
  destruct cells as [|cell0 cells0]; [apply Hstop; by left|].
  cbn [scan_row]. set (cells := cell0 :: cells0) in *.
  assert (Hscan : forall found, first_manteca cells = ok found ->
                                scan_row cells = ok found) by done.
  destruct (first_manteca_spec cells)
    as [[Hall Hf]|(before & cell & after & Hc & Hall
                   & [(uri0 & Hcell & Hf)|(e & Hcell & Hf)])];
    rewrite Hf; cbn [ok raise].
  - destruct IH as (scanned & Hle & Hok & Hend & Hlen & Hin).
    destruct (MantecaExcel_get_mantecas sheet_rows) as [more failure].
    cbn [fst snd app] in *. exists (Datatypes.S scanned). cbn [take length].
    split; [lia|]. split; [constructor; [exists []; by apply Hscan|done]|].
    split; [destruct failure as [e|]; [exact Hend | by rewrite Hend]|].
    split; [lia|].
    intros row uri. rewrite Hin. split.
    + intros (cs & b & c & a & H1 & H2). exists cs, b, c, a.
      split; [by right|done].
    + intros (cs & b & c & a & [Heq|H1] & Hsplit & Hb & Hy & Hr).
      * subst cs. rewrite Hsplit in Hall.
        rewrite Forall_app in Hall. destruct Hall as [_ Hall].
        apply Forall_cons in Hall as [Hall _]. congruence.
      * by exists cs, b, c, a.
  - destruct IH as (scanned & Hle & Hok & Hend & Hlen & Hin).
    destruct (MantecaExcel_get_mantecas sheet_rows) as [more failure].
    cbn [fst snd app] in *. exists (Datatypes.S scanned). cbn [take length].
    split; [lia|].
    split; [constructor; [eexists; by apply Hscan|done]|].
    split; [destruct failure as [e|]; [exact Hend | by rewrite Hend]|].
    split; [lia|].
    intros row uri. split.
    + intros [[= <- <-]|Hmore].
      * exists cells, before, cell, after. split; [by left|done].
      * apply Hin in Hmore as (cs & b & c & a & H1 & H2).
        exists cs, b, c, a. split; [by right|done].
    + intros (cs & b & c & a & [Heq|H1] & Hsplit & Hb & Hy & Hr).
      * left. subst cs. rewrite Hsplit in Hf.
        rewrite (first_manteca_yields b a c uri Hb Hy) in Hf.
        injection Hf as <- <-. by rewrite Hr.
      * right. apply Hin. by exists cs, b, c, a.
  - apply Hstop. right. by exists before, cell, after.
Qed.
End ExcelSource.



Lemma lstrip_by_suffix (f : N -> bool) (s : pystr) :
  exists dropped, s = dropped ++ lstrip_by f s.
Proof.
  induction s as [|c s [d IH]]; simpl; [by exists []|].
  destruct (f c); [|by exists []].
  exists (c :: d). simpl. by rewrite <- IH.
Qed.

Lemma rstrip_by_prefix (f : N -> bool) (s : pystr) :
  exists dropped, s = rstrip_by f s ++ dropped.
Proof.
  unfold rstrip_by. destruct (lstrip_by_suffix f (rev s)) as [d Hd].
  exists (rev d). rewrite <- rev_app_distr, <- Hd. by rewrite rev_involutive.
Qed.

(** What [strip] leaves has no white space at either end. *)
Lemma strip_ends (s : pystr) (c : N) :
  head (strip s) = Some c \/ last (strip s) = Some c -> py_isspace c = false.
Proof.
  unfold strip. intros [H|H]; [|by apply last_rstrip_by in H].
  destruct (rstrip_by_prefix py_isspace (lstrip_by py_isspace s)) as [d Hd].
  apply (head_lstrip_by py_isspace s). rewrite Hd.
  destruct (rstrip_by py_isspace (lstrip_by py_isspace s)); [done|].
  exact H.
Qed.

Lemma MantecaText_from_rows (start : positive) (file_lines : list pystr) :
  StronglySorted Pos.lt (map fst (MantecaText_from start file_lines))
  /\ Forall (fun row => (start <= row)%positive)
            (map fst (MantecaText_from start file_lines))
  /\ (length (MantecaText_from start file_lines)
      <= length file_lines)%nat.
Proof.
  revert start. induction file_lines as [|l ls IH]; intros start; simpl.
  - repeat split; constructor.
  - destruct (IH (Pos.succ start)) as (Hs & Hall & Hlen).
    assert (Hlt : Forall (Pos.lt start)
                    (map fst (MantecaText_from (Pos.succ start) ls))).
    { eapply Forall_impl; [exact Hall|]. cbv beta. intros r Hr. lia. }
    assert (Hle : Forall (fun row => (start <= row)%positive)
                    (map fst (MantecaText_from (Pos.succ start) ls))).
    { eapply Forall_impl; [exact Hall|]. cbv beta. intros r Hr. lia. }
    destruct (nonempty (strip l)); simpl.
    + split; [by constructor|]. split; [|lia].
      constructor; [lia | exact Hle].
    + split; [done|]. split; [exact Hle | lia].
Qed.

(** X7. The records of the text source come with strictly increasing
    line numbers, at most one per line of the file, and each URI is a
    line without the white space at its ends: it is not empty and neither
    starts nor ends with white space. *)
Theorem text_source_records :
  forall (file_lines : list pystr),
    StronglySorted Pos.lt
      (map fst (get_mantecas (mkMantecaText file_lines)).1)
    /\ (length (get_mantecas (mkMantecaText file_lines)).1
        <= length file_lines)%nat
    /\ forall (row : positive) (uri : pystr),
         In (row, uri) (get_mantecas (mkMantecaText file_lines)).1 ->
         uri <> []
         /\ (Pos.to_nat row <= length file_lines)%nat
         /\ forall c, head uri = Some c \/ last uri = Some c ->
                      py_isspace c = false.
Proof.
  intros file_lines. simpl. unfold MantecaText_get_mantecas.
  destruct (MantecaText_from_rows 1 file_lines) as (Hs & _ & Hlen).
  split; [done|]. split; [done|].
  intros row uri Hin.
  apply MantecaText_from_spec in Hin as (i & line & Hl & Hr & -> & Hne).
  split; [done|]. split.
  - apply lookup_lt_Some in Hl. lia.
  - apply strip_ends.
Qed.

Lemma text_source_records_witness :
  py "http://host/a.html" <> []
  /\ (Pos.to_nat 2 <= 2)%nat
  /\ forall c, head (py "http://host/a.html") = Some c
               \/ last (py "http://host/a.html") = Some c ->
               py_isspace c = false.
Proof.
  apply (proj2 (proj2 (text_source_records
                         [[32%N; 10%N];
                          [32%N] ++ py "http://host/a.html" ++ [13%N; 10%N]]))
           2%positive (py "http://host/a.html")).
  vm_compute. left. reflexivity.
Defined.

(** ** More on the spreadsheet sink *)

Lemma Forall_last_prefix (d d' : dict positive) :
  d `prefix_of` d' ->
  Forall (fun c => (c <= LAST_COLUMN)%positive) (dict_values d') ->
  Forall (fun c => (c <= LAST_COLUMN)%positive) (dict_values d).
Proof.
  intros [more ->]. rewrite dict_values_app. by intros [H _]%Forall_app.
Qed.

(** A property of the sink that every turn of the loop keeps, as long as
    the columns assigned are columns a worksheet has and for the rows
    that satisfy [row_ok], holds after any sequence of calls on such
    rows. *)
Lemma SkimmedExcel_calls_keep (Inv : SkimmedExcel -> Prop)
    (row_ok : positive -> Prop) :
  (forall row s item,
     row_ok row -> Inv s ->
     Forall (fun c => (c <= LAST_COLUMN)%positive)
            (dict_values
               (metadata_columns (SkimmedExcel_add_item row s item).1)) ->
     Inv (SkimmedExcel_add_item row s item).1) ->
  forall calls s,
    Forall (fun call : positive * pystr * dict pystr => row_ok call.1.1)
           calls ->
    Inv s ->
    Forall (fun c => (c <= LAST_COLUMN)%positive)
           (dict_values (metadata_columns (SkimmedExcel_calls s calls))) ->
    Inv (SkimmedExcel_calls s calls).
Proof.
  intros Hstep.
  assert (Hitems : forall row items s,
             row_ok row -> Inv s ->
             Forall (fun c => (c <= LAST_COLUMN)%positive)
                    (dict_values
                       (metadata_columns
                          (SkimmedExcel_add_items row s items).1)) ->
             Inv (SkimmedExcel_add_items row s items).1).
  { intros row items. induction items as [|[k v] items IH];
      intros s Hrow Hs Hlast; cbn [SkimmedExcel_add_items] in *; [done|].
    pose proof (Hstep row s (k, v) Hrow Hs) as H1.
    destruct (SkimmedExcel_add_item row s (k, v)) as [s1 [e|]];
      cbn [fst snd] in *; [auto|].
    apply IH; [done| |done]. apply H1.
    destruct (SkimmedExcel_add_items_spec 1 row items s1) as (Hpre & _).
    by apply (Forall_last_prefix _ _ Hpre). }
  intros sequence.
  induction sequence as [|[[row uri] metadata] sequence IH];
    intros s Hrows Hs Hlast; [done|].
  rewrite SkimmedExcel_calls_cons in *.
  apply Forall_cons in Hrows as [Hrow Hrows]. cbn [fst] in Hrow.
  apply IH; [done| |done]. apply Hitems; [done|done|].
  destruct (SkimmedExcel_calls_spec 1 sequence
              (SkimmedExcel_add_items row s metadata).1) as (Hpre & _).
  by apply (Forall_last_prefix _ _ Hpre).
Qed.

Lemma Forall_rows_any (calls : list (positive * pystr * dict pystr)) :
  Forall (fun call : positive * pystr * dict pystr => True) calls.
Proof. by apply Forall_forall. Qed.

Lemma dict_get_lookup {V} (k : pystr) (d : dict V) (c : V) :
  dict_get k d = Some c -> exists i, d !! i = Some (k, c).
Proof.
  induction d as [|[k' v'] d IH]; simpl; [done|].
  destruct (str_eqb k k') eqn:E.
  - apply str_eqb_true in E. subst k'. intros [= ->]. by exists 0%nat.
  - intros H. destruct (IH H) as [i Hi]. by exists (Datatypes.S i).
Qed.

(** X8. Whatever calls a spreadsheet sink receives, and whether they
    return or raise, the cells in the columns the sheet had when the sink
    was opened stay as they were, value and data type: the sink only
    writes beyond the last column of the original sheet. *)
Theorem original_columns_untouched :
  forall (ws : list Cell) (calls : list (positive * pystr * dict pystr))
         (r c : positive),
    (c <= max_column ws)%positive ->
    ws_get (sheet (SkimmedExcel_calls (SkimmedExcel_init ws) calls)) r c
    = ws_get ws r c.
Proof.
  intros ws calls r c Hc.
  destruct (SkimmedExcel_calls_spec (max_column ws) calls
              (SkimmedExcel_init ws)) as (_ & _ & _ & H & _).
  destruct H as [_ H]; [simpl; lia | constructor | by apply H].
Qed.

Lemma original_columns_untouched_witness :
  ws_get (sheet sink_after_second) 2 1 = ws_get sample_sheet 2 1.
Proof.
  exact (original_columns_untouched sample_sheet
           [(2%positive, uri_a, [(py "Autor", py "Cervantes")]);
            (3%positive, uri_b, [(py "Autor", py "Lope")])]
           2%positive 1%positive ltac:(vm_compute; discriminate)).
Defined.

(** X9. As long as every column assigned is a column a worksheet has,
    the columns a spreadsheet sink assigns are consecutive: the key
    assigned in place [i], counting from 0 in order of first appearance,
    has the column [i + 1] places after the last column of the original
    sheet, and the last column of the sheet is the last one assigned. *)
Theorem columns_are_consecutive :
  forall (ws : list Cell) (calls : list (positive * pystr * dict pystr)),
    Forall (fun c => (c <= LAST_COLUMN)%positive)
           (dict_values
              (metadata_columns
                 (SkimmedExcel_calls (SkimmedExcel_init ws) calls))) ->
    Pos.to_nat (max_column
                  (sheet (SkimmedExcel_calls (SkimmedExcel_init ws) calls)))
    = (Pos.to_nat (max_column ws)
       + length (metadata_columns
                   (SkimmedExcel_calls (SkimmedExcel_init ws) calls)))%nat
    /\ forall (i : nat) (k : pystr) (c : positive),
         metadata_columns (SkimmedExcel_calls (SkimmedExcel_init ws) calls)
           !! i = Some (k, c) ->
         Pos.to_nat c = (Pos.to_nat (max_column ws) + Datatypes.S i)%nat.
Proof.
  intros ws calls Hlast.
  pose (Inv := fun s =>
          Pos.to_nat (max_column (sheet s))
          = (Pos.to_nat (max_column ws) + length (metadata_columns s))%nat
          /\ forall i k c, metadata_columns s !! i = Some (k, c) ->
               Pos.to_nat c
               = (Pos.to_nat (max_column ws) + Datatypes.S i)%nat).
  apply (SkimmedExcel_calls_keep Inv (fun _ => True));
    [|apply Forall_rows_any|split; [simpl; lia|by intros []]|done].
  clear Hlast. intros row s [k v] _ [Hmax Hcols] Hlast.
  destruct (SkimmedExcel_add_item_cases row s k v)
    as [(col & Hcol & Heq)
       |(Hnew & assigned & -> & Hget
         & [(Hout & Heq & Hraised)
           |(Hin & header & -> & [(Hraised & Heq)|(Hreturned & Heq)])])];
    rewrite Heq in *; unfold Inv; cbn [fst snd metadata_columns sheet] in *.
  - apply dict_get_lookup in Hcol as [i Hi].
    pose proof (lookup_lt_Some _ _ _ Hi) as Hlt.
    pose proof (Hcols i _ _ Hi) as Hc.
    rewrite max_column_ws_cell by lia. by split.
  - rewrite dict_values_app in Hlast. apply Forall_app in Hlast as [_ Hlast].
    apply Forall_cons in Hlast as [Hlast _]. simpl in Hlast. lia.
  - rewrite max_column_ws_bind, length_app. simpl. split; [lia|].
    intros i k' c Hi. apply lookup_app_Some in Hi as [Hi|[Hge Hi]];
      [by apply (Hcols i k' c)|].
    destruct (i - length (metadata_columns s))%nat eqn:Ei; [|by destruct n].
    injection Hi as <- <-. lia.
  - rewrite max_column_ws_cell; rewrite max_column_ws_bind; [|lia].
    rewrite length_app. simpl. split; [lia|].
    intros i k' c Hi. apply lookup_app_Some in Hi as [Hi|[Hge Hi]];
      [by apply (Hcols i k' c)|].
    destruct (i - length (metadata_columns s))%nat eqn:Ei; [|by destruct n].
    injection Hi as <- <-. lia.
Qed.

(** A string that starts with the prefix is stored as a string, not as a
    formula or an error code. *)
Lemma string_data_type_prefixed (k : pystr) :
  string_data_type (take (N.to_nat 32767) (CONFIG_PREFIX ++ k)) = py "s".
Proof.
  replace (N.to_nat 32767) with (Datatypes.S (N.to_nat 32766))
    by (rewrite <- N2Nat.inj_succ; reflexivity).
  change (CONFIG_PREFIX ++ k) with (91%N :: (py "sm] " ++ k)).
  cbn [take]. unfold string_data_type.
  change (startswith (py "=") (91%N :: take (N.to_nat 32766) (py "sm] " ++ k)))
    with false.
  rewrite andb_false_r.
  assert (H : existsb (str_eqb (91%N :: take (N.to_nat 32766)
                                          (py "sm] " ++ k)))
                      ERROR_CODES = false); [|by rewrite H].
  apply not_true_is_false. intros H. apply existsb_exists in H as (x & Hx & H).
  apply str_eqb_true in H. subst x. unfold ERROR_CODES in Hx.
  cbn [In] in Hx.
  repeat (destruct Hx as [Hx|Hx]; [discriminate Hx|]). done.
Qed.

(** The header cell of a new column, once [sheet.cell] has been called
    for it: it holds the key, or nothing when the key was refused, and has
    the data type of a string either way. *)
Lemma header_bound (ws : list Cell) (column : positive) (k : pystr) :
  (max_column ws < column)%positive ->
  ws_get (ws_bind ws 1 column (CONFIG_PREFIX ++ k)).1 1 column
  = Some (mkCell 1 column (py "s")
            match check_string (CONFIG_PREFIX ++ k) with
            | inr checked => StrValue checked
            | inl _ => OtherValue
            end).
Proof.
  intros Hc. rewrite ws_get_ws_bind_same, (ws_get_beyond ws 1 column Hc).
  unfold bind_value.
  destruct (check_string (CONFIG_PREFIX ++ k)) as [e|checked] eqn:E; [done|].
  cbn [fst cell_row cell_column].
  by rewrite (check_string_take _ _ E), string_data_type_prefixed.
Qed.

(** X10. When no call is for row 1 and every column assigned is a column
    a worksheet has, the first row of the sheet holds, in the column of
    every key the sink has assigned, a cell of string type with that key,
    cut at 32767 characters, or without a value when the key holds a
    character a worksheet refuses; and the key starts with the prefix. *)
Theorem headers_hold_keys :
  forall (ws : list Cell) (calls : list (positive * pystr * dict pystr))
         (k : pystr) (c : positive),
    Forall (fun call : positive * pystr * dict pystr =>
              call.1.1 <> 1%positive) calls ->
    Forall (fun c => (c <= LAST_COLUMN)%positive)
           (dict_values
              (metadata_columns
                 (SkimmedExcel_calls (SkimmedExcel_init ws) calls))) ->
    In (k, c) (metadata_columns
                 (SkimmedExcel_calls (SkimmedExcel_init ws) calls)) ->
    ws_get (sheet (SkimmedExcel_calls (SkimmedExcel_init ws) calls)) 1 c
    = Some (mkCell 1 c (py "s")
              match check_string k with
              | inr checked => StrValue checked
              | inl _ => OtherValue
              end)
    /\ startswith CONFIG_PREFIX k = true.
Proof.
  intros ws calls k c Hrows Hlast.
  pose (Inv := fun s =>
          columns_ok (max_column ws) s
          /\ forall k c, In (k, c) (metadata_columns s) ->
               ws_get (sheet s) 1 c
               = Some (mkCell 1 c (py "s")
                         match check_string k with
                         | inr checked => StrValue checked
                         | inl _ => OtherValue
                         end)
               /\ startswith CONFIG_PREFIX k = true).
  assert (H : Inv (SkimmedExcel_calls (SkimmedExcel_init ws) calls)).
  { apply (SkimmedExcel_calls_keep Inv (fun row => row <> 1%positive));
      [|done|split; [apply columns_ok_init|by intros ? ? []]|done].
    clear Hlast. intros row s [k0 v] Hrow [Hok Hhead] Hlast.
    destruct (SkimmedExcel_add_item_spec (max_column ws) row s k0 v)
      as (_ & _ & _ & _ & col & Hcol & _ & Hok' & _).
    split.
    { apply Hok'; [done|]. rewrite Forall_forall in Hlast.
      by apply Hlast, (dict_get_values (CONFIG_PREFIX ++ k0)). }
    clear col Hcol Hok'.
    assert (Hold : forall k' c', In (k', c') (metadata_columns s) ->
                     (c' <= max_column (sheet s))%positive).
    { intros k' c' Hin.
      destruct Hok as (_ & _ & Hall & _). rewrite Forall_forall in Hall.
      assert (Hc : c' ∈ dict_values (metadata_columns s)).
      { apply list_elem_of_In. unfold dict_values.
        exact (in_map snd _ _ Hin). }
      apply Hall in Hc. lia. }
    destruct (SkimmedExcel_add_item_cases row s k0 v)
      as [(col & Hcol & Heq)
         |(Hnew & assigned & -> & Hget
           & [(Hout & Heq & Hraised)
             |(Hin & header & -> & [(Hraised & Heq)|(Hreturned & Heq)])])];
      rewrite Heq in *; cbn [fst snd metadata_columns sheet] in *.
    - intros k' c' Hin'. rewrite ws_get_ws_cell_other; [|by left].
      by apply Hhead.
    - rewrite dict_values_app in Hlast.
      apply Forall_app in Hlast as [_ Hlast].
      apply Forall_cons in Hlast as [Hlast _]. simpl in Hlast.
      unfold LAST_COLUMN in *. lia.
    - intros k' c' Hin'. apply in_app_or in Hin' as [Hin'|[[= <- <-]|[]]].
      + destruct (Hhead k' c' Hin') as [Hget' Hpre]. split; [|done].
        rewrite <- Hget'. apply ws_get_ws_bind_other. right.
        apply Hold in Hin'. lia.
      + split; [|reflexivity]. apply header_bound. lia.
    - intros k' c' Hin'. rewrite ws_get_ws_cell_other; [|by left].
      apply in_app_or in Hin' as [Hin'|[[= <- <-]|[]]].
      + destruct (Hhead k' c' Hin') as [Hget' Hpre]. split; [|done].
        rewrite <- Hget'. apply ws_get_ws_bind_other. right.
        apply Hold in Hin'. lia.
      + split; [|reflexivity]. apply header_bound. lia. }
  apply H.
Qed.

Lemma headers_hold_keys_witness :
  ws_get (sheet sink_after_second) 1 2
  = Some (mkCell 1 2 (py "s") (StrValue (py "[sm] Autor")))
  /\ startswith CONFIG_PREFIX (py "[sm] Autor") = true.
Proof.
  apply (headers_hold_keys sample_sheet
           [(2%positive, uri_a, [(py "Autor", py "Cervantes")]);
            (3%positive, uri_b, [(py "Autor", py "Lope")])]
           (py "[sm] Autor") 2%positive).
  - repeat constructor; discriminate.
  - vm_compute. repeat constructor. discriminate.
  - left. reflexivity.
Defined.

(** ** More on the loop of [main] *)

Lemma except_reason_cases (e : exn) (reason : pystr) :
  except_reason e = Some reason -> reason = NO_CONNECT \/ reason = NO_ACCESS.
Proof. destruct e; simpl; intros [= <-]; auto. Qed.

Lemma sink_calls_app {Sink : Type} {SF : SkimmedFile Sink} (s : Sink)
    (first more : list (positive * pystr * dict pystr)) :
  sink_calls s (first ++ more) = sink_calls (sink_calls s first) more.
Proof. unfold sink_calls. apply fold_left_app. Qed.

(** The sinks of the program raise nothing the loop catches. *)
Lemma SkimmedExcel_raises (s : SkimmedExcel) (row : positive) (uri : pystr)
    (metadata : dict pystr) (e : exn) :
  (add_metadata s row uri metadata).2 = Some e -> except_reason e = None.
Proof.
  assert (Hcell : forall ws r c v e,
             (ws_cell ws r c v).2 = Some e -> except_reason e = None).
  { intros ws r c v e'. unfold ws_cell.
    destruct (1048576 <? r)%positive; [by intros [= <-]|].
    rewrite ws_bind_raised. unfold check_string.
    destruct (existsb _ _); [by intros [= <-] | discriminate]. }
  cbn [add_metadata SkimmedExcel_file]. unfold SkimmedExcel_add_metadata.
  revert s. induction metadata as [|[k v] metadata IH]; intros s;
    cbn [SkimmedExcel_add_items]; [discriminate|].
  destruct (SkimmedExcel_add_item row s (k, v)) as [s1 [e1|]] eqn:E;
    cbn [snd]; [|apply IH].
  intros [= <-]. revert E. unfold SkimmedExcel_add_item. cbn [fst snd].
  assert (Hvalue : forall s0 key s2,
             SkimmedExcel_add_value row s0 key v = (s2, Some e1) ->
             except_reason e1 = None).
  { intros s0 key s2. unfold SkimmedExcel_add_value.
    destruct (dict_get key (metadata_columns s0)) as [col|]; [|discriminate].
    destruct (ws_cell (sheet s0) row col v) as [ws r] eqn:Ew.
    intros [= _ ->]. apply (Hcell (sheet s0) row col v). by rewrite Ew. }
  destruct (dict_mem _ _); [apply Hvalue|].
  unfold get_column_letter. destruct (_ <=? _)%positive;
    [|by intros [= _ <-]].
  unfold ok. cbn [sheet metadata_columns].
  destruct (ws_cell (sheet s) 1 _ _) as [ws [e2|]] eqn:Ew;
    [|apply Hvalue].
  intros [= _ <-].
  apply (Hcell (sheet s) 1%positive (max_column (sheet s) + 1)%positive
               (CONFIG_PREFIX ++ k) e2).
  by rewrite Ew.
Qed.

Lemma SkimmedText_raises (s : SkimmedText) (row : positive) (uri : pystr)
    (metadata : dict pystr) (e : exn) :
  (add_metadata s row uri metadata).2 = Some e -> except_reason e = None.
Proof.
  assert (Hwrite : forall s0 text s1,
             file_write s0 text = (s1, Some e) -> except_reason e = None).
  { intros s0 text s1. unfold file_write.
    destruct (encodable text); [discriminate|]. by intros [= _ <-]. }
  cbn [add_metadata SkimmedText_file]. unfold SkimmedText_add_metadata.
  destruct (file_write s _) as [s1 [e1|]] eqn:E1; cbn [snd].
  { intros [= ->]. by apply (Hwrite _ _ _ E1). }
  clear E1. revert s1. induction metadata as [|[k v] metadata IH];
    intros s1; cbn [SkimmedText_add_items]; [discriminate|].
  destruct (file_write s1 _) as [s2 [e2|]] eqn:E2; cbn [snd]; [|apply IH].
  intros [= ->]. by apply (Hwrite _ _ _ E2).
Qed.

Lemma Recorder_raises (s : Recorder) (row : positive) (uri : pystr)
    (metadata : dict pystr) (e : exn) :
  (add_metadata s row uri metadata).2 = Some e -> except_reason e = None.
Proof. discriminate. Qed.

Section MainMore.
Context {R : Runtime} {Sink : Type} {SF : SkimmedFile Sink}.

(** The ways a turn of the loop can go: a failure recorded before the
    sink is reached, an exception that leaves the loop before the sink
    is reached, a call to the sink. After the call, which follows the
    entry for a page without metadata, the turn ends, or the exception of
    the sink is recorded, or it leaves the loop. *)
Lemma main_iteration_cases (st : MainState Sink) (row : positive)
    (uri : pystr) :
  (exists reason,
     (reason = NO_CONNECT \/ reason = NO_ACCESS)
     /\ (main_iteration st row uri).2 = None
     /\ skimmedfile (main_iteration st row uri).1 = skimmedfile st
     /\ bad_uris (main_iteration st row uri).1
        = bad_uris st ++ [(uri, reason)])
  \/ (exists e,
        (main_iteration st row uri).2 = Some e
        /\ except_reason e = None
        /\ skimmedfile (main_iteration st row uri).1 = skimmedfile st
        /\ bad_uris (main_iteration st row uri).1 = bad_uris st)
  \/ (exists metadata bad,
        skimmedfile (main_iteration st row uri).1
        = (add_metadata (skimmedfile st) row uri metadata).1
        /\ (bad = bad_uris st \/ bad = bad_uris st ++ [(uri, NO_METADATA)])
        /\ (((add_metadata (skimmedfile st) row uri metadata).2 = None
             /\ (main_iteration st row uri).2 = None
             /\ bad_uris (main_iteration st row uri).1 = bad)
            \/ (exists e reason,
                  (add_metadata (skimmedfile st) row uri metadata).2 = Some e
                  /\ except_reason e = Some reason
                  /\ (main_iteration st row uri).2 = None
                  /\ bad_uris (main_iteration st row uri).1
                     = bad ++ [(uri, reason)])
            \/ (exists e,
                  (add_metadata (skimmedfile st) row uri metadata).2 = Some e
                  /\ except_reason e = None
                  /\ (main_iteration st row uri).2 = Some e
                  /\ bad_uris (main_iteration st row uri).1 = bad))).
Proof.
  assert (Hexc : forall w e,
             (exists reason,
                (reason = NO_CONNECT \/ reason = NO_ACCESS)
                /\ (main_except st w uri e).2 = None
                /\ skimmedfile (main_except st w uri e).1 = skimmedfile st
                /\ bad_uris (main_except st w uri e).1
                   = bad_uris st ++ [(uri, reason)])
             \/ (exists e',
                   (main_except st w uri e).2 = Some e'
                   /\ except_reason e' = None
                   /\ skimmedfile (main_except st w uri e).1 = skimmedfile st
                   /\ bad_uris (main_except st w uri e).1 = bad_uris st)).
  { intros w e. unfold main_except.
    destruct (except_reason e) as [reason|] eqn:E; simpl.
    - left. exists reason. split; [by apply (except_reason_cases e)|done].
    - right. by exists e. }
  unfold main_iteration.
  destruct (retrieve_uri_contents (world st) uri) as [w [e|page]].
  - destruct (Hexc w e) as [H|H]; auto.
  - destruct (parse (tokenizer st) (parser st) page) as [t [e|p]].
    + destruct (Hexc w e) as [H|H]; auto.
    + right. right. exists (retrieved_metadata p).
      exists match retrieved_metadata p with
             | [] => bad_uris st ++ [(uri, NO_METADATA)]
             | _ :: _ => bad_uris st
             end.
      destruct (add_metadata (skimmedfile st) row uri (retrieved_metadata p))
        as [sink [e|]]; cbn [fst snd].
      * unfold main_except.
        destruct (except_reason e) as [reason|] eqn:E;
          cbn [fst snd skimmedfile bad_uris].
        -- split; [done|]. split; [by destruct (retrieved_metadata p); auto|].
           right. left. by exists e, reason.
        -- split; [done|]. split; [by destruct (retrieved_metadata p); auto|].
           right. right. by exists e.
      * split; [done|]. split; [by destruct (retrieved_metadata p); auto|].
        by left.
Qed.

(** What a run of the loop does to the sink and to the failure list. *)
Lemma main_loop_trace (mantecas : list (positive * pystr))
    (st : MainState Sink) :
  exists sequence,
    skimmedfile (main_loop st mantecas).1
    = sink_calls (skimmedfile st) sequence
    /\ map fst sequence `sublist_of` mantecas
    /\ bad_uris st `prefix_of` bad_uris (main_loop st mantecas).1
    /\ (length (bad_uris (main_loop st mantecas).1)
        <= length (bad_uris st) + 2 * length mantecas)%nat
    /\ ((forall s row uri metadata e,
           (add_metadata s row uri metadata).2 = Some e ->
           except_reason e = None) ->
        (length (bad_uris (main_loop st mantecas).1)
         <= length (bad_uris st) + length mantecas)%nat)
    /\ (forall e, (main_loop st mantecas).2 = Some e ->
                  except_reason e = None)
    /\ ((main_loop st mantecas).2 = None ->
        forall row uri, In (row, uri) mantecas ->
          (exists metadata, In (row, uri, metadata) sequence)
          \/ exists reason,
               In (uri, reason) (bad_uris (main_loop st mantecas).1)
               /\ (reason = NO_CONNECT \/ reason = NO_ACCESS)).
Proof.
  revert st. induction mantecas as [|[row uri] mantecas IH]; intros st.
  - exists []. simpl. repeat split; try done; lia.
  - cbn [main_loop].
    pose proof (main_iteration_cases st row uri) as Hcases.
    destruct (main_iteration st row uri) as [st1 r1]. cbn [fst snd] in Hcases.
    destruct Hcases as [(reason & Hreason & -> & Hsink & Hbad)
                       |[(e & -> & He & Hsink & Hbad)
                        |(metadata & bad & Hsink & Hbad0 & Hcall)]].
    + destruct (IH st1)
        as (sequence & Hs & Hsub & Hpre & Hlen & Hlen1 & Hexc & Hacc).
      exists sequence. rewrite Hsink in Hs. rewrite Hbad in Hpre, Hlen, Hlen1.
      rewrite length_app in Hlen, Hlen1. simpl in Hlen, Hlen1.
      split; [done|]. split; [by apply sublist_cons|].
      split; [by apply (prefix_app_l _ _ [(uri, reason)])|].
      split; [simpl; lia|].
      split; [intros Hq; specialize (Hlen1 Hq); simpl; lia|].
      split; [done|].
      intros Hnone row' uri' [[= <- <-]|Hin]; [|by apply Hacc].
      right. exists reason. split; [|done].
      destruct Hpre as [more ->]. apply in_or_app. left.
      apply in_or_app. right. by left.
    + exists []. cbn [fst snd]. rewrite Hsink, Hbad.
      split; [done|]. split; [apply sublist_nil_l|]. split; [done|].
      cbn [length]. split; [lia|]. split; [lia|].
      split; [by intros e' [= <-]|]. discriminate.
    + assert (Hbad' : bad_uris st `prefix_of` bad
                      /\ (length bad <= Datatypes.S (length (bad_uris st)))%nat).
      { destruct Hbad0 as [-> | ->]; (split; [|try rewrite length_app; simpl; lia]);
          [done | by apply prefix_app_r]. }
      destruct Hbad' as [Hpre0 Hlen0].
      destruct Hcall as [(Hret & -> & Hbad)
                        |[(e & reason & Hraised & He & -> & Hbad)
                         |(e & Hraised & He & -> & Hbad)]].
      * destruct (IH st1)
          as (sequence & Hs & Hsub & Hpre & Hlen & Hlen1 & Hexc & Hacc).
        exists ((row, uri, metadata) :: sequence).
        rewrite Hsink in Hs. rewrite Hbad in Hpre, Hlen, Hlen1.
        split; [exact Hs|]. split; [by apply sublist_skip|].
        split; [by etransitivity|]. split; [simpl; lia|].
        split; [intros Hq; specialize (Hlen1 Hq); simpl; lia|].
        split; [done|].
        intros Hnone row' uri' [[= <- <-]|Hin].
        -- left. exists metadata. by left.
        -- destruct (Hacc Hnone row' uri' Hin) as [[md Hmd]|H]; [|by right].
           left. exists md. by right.
      * destruct (IH st1)
          as (sequence & Hs & Hsub & Hpre & Hlen & Hlen1 & Hexc & Hacc).
        exists ((row, uri, metadata) :: sequence).
        rewrite Hsink in Hs. rewrite Hbad in Hpre, Hlen, Hlen1.
        rewrite length_app in Hlen, Hlen1. simpl in Hlen, Hlen1.
        split; [exact Hs|]. split; [by apply sublist_skip|].
        split.
        { etransitivity; [exact Hpre0|].
          etransitivity; [|exact Hpre]. by apply prefix_app_r. }
        split; [simpl; lia|].
        split.
        { intros Hq. apply Hq in Hraised. congruence. }
        split; [done|].
        intros Hnone row' uri' [[= <- <-]|Hin].
        -- left. exists metadata. by left.
        -- destruct (Hacc Hnone row' uri' Hin) as [[md Hmd]|H]; [|by right].
           left. exists md. by right.
      * exists [(row, uri, metadata)]. cbn [fst snd]. rewrite Hsink, Hbad.
        split; [done|].
        split; [apply sublist_skip, sublist_nil_l|].
        split; [done|]. cbn [length]. split; [lia|]. split; [lia|].
        split; [by intros e' [= <-]|]. discriminate.
Qed.

(** X11. The calls the sink receives in a run are for records of the
    source, in the order of the source, at most one for each; and when
    the run reaches the end of the source, every record has either had
    its call to the sink or has a failure entry that says the URI could
    not be connected to or reached. *)
Theorem every_record_is_accounted_for :
  forall (st : MainState Sink) (mantecas : list (positive * pystr)),
    exists sequence,
      skimmedfile (main_loop st mantecas).1
      = sink_calls (skimmedfile st) sequence
      /\ map fst sequence `sublist_of` mantecas
      /\ ((main_loop st mantecas).2 = None ->
          forall row uri, In (row, uri) mantecas ->
            (exists metadata, In (row, uri, metadata) sequence)
            \/ exists reason,
                 In (uri, reason) (bad_uris (main_loop st mantecas).1)
                 /\ (reason = NO_CONNECT \/ reason = NO_ACCESS)).
Proof.
  intros st mantecas.
  destruct (main_loop_trace mantecas st)
    as (sequence & Hs & Hsub & _ & _ & _ & _ & Hacc).
  by exists sequence.
Qed.

(** X12. The failure list only grows; with a sink that raises neither
    [ConnectionError] nor [URLError], as the sinks of the program, it
    grows by at most one entry for each record of the source, and by at
    most two with any sink; and the exception that ends a run early is
    never a [ConnectionError] or a [URLError]: those two are always
    caught. *)
Theorem failure_list_grows_by_one :
  forall (st : MainState Sink) (mantecas : list (positive * pystr)),
    bad_uris st `prefix_of` bad_uris (main_loop st mantecas).1
    /\ ((forall s row uri metadata e,
           (add_metadata s row uri metadata).2 = Some e ->
           except_reason e = None) ->
        (length (bad_uris (main_loop st mantecas).1)
         <= length (bad_uris st) + length mantecas)%nat)
    /\ (length (bad_uris (main_loop st mantecas).1)
        <= length (bad_uris st) + 2 * length mantecas)%nat
    /\ forall e, (main_loop st mantecas).2 = Some e ->
                 e <> ConnectionError /\ forall reason, e <> URLError reason.
Proof.
  intros st mantecas.
  destruct (main_loop_trace mantecas st)
    as (sequence & _ & _ & Hpre & Hlen & Hlen1 & Hexc & _).
  split; [done|]. split; [done|]. split; [done|].
  intros e He. apply Hexc in He. by destruct e.
Qed.

(** X13. A URI of a type [urlopen] does not know is recorded as one that
    could not be reached and the loop goes on; a [ValueError] with any
    other message ends the run. *)
Theorem unknown_url_type_is_recorded :
  forall (st : MainState Sink) (row : positive) (uri msg : pystr)
         (rest : list (positive * pystr)) (w : World),
    urlopen (world st) uri = (w, raise (ValueError msg)) ->
    (startswith (py "unknown url type:") msg = true ->
     main_loop st ((row, uri) :: rest)
     = main_loop (mkMainState w (tokenizer st) (parser st) (skimmedfile st)
                              (bad_uris st ++ [(uri, NO_ACCESS)])) rest)
    /\ (startswith (py "unknown url type:") msg = false ->
        main_loop st ((row, uri) :: rest)
        = (mkMainState w (tokenizer st) (parser st) (skimmedfile st)
                       (bad_uris st), Some (ValueError msg))).
Proof.
  intros st row uri msg rest w Hopen.
  assert (Hfetch : retrieve_uri_contents (world st) uri
                   = (w, raise (unknown_url_type uri (ValueError msg)))).
  { unfold retrieve_uri_contents, retrieve_body. by rewrite Hopen. }
  split; intros Hmsg; simpl; unfold main_iteration; rewrite Hfetch;
    unfold unknown_url_type, raise, main_except; by rewrite Hmsg.
Qed.
End MainMore.

Lemma every_record_is_accounted_for_witness :
  exists sequence,
    skimmedfile
      (main_loop (R := runtime_failures)
         (mkMainState (R := runtime_failures) [] tt new_parser
                      (mkRecorder []) [])
         mantecas_failures).1
    = sink_calls (mkRecorder []) sequence
    /\ map fst sequence `sublist_of` mantecas_failures
    /\ forall row uri, In (row, uri) mantecas_failures ->
         (exists metadata, In (row, uri, metadata) sequence)
         \/ exists reason,
              In (uri, reason)
                 [(uri_reset, NO_CONNECT); (uri_down, NO_ACCESS);
                  (uri_b, NO_METADATA)]
              /\ (reason = NO_CONNECT \/ reason = NO_ACCESS).
Proof.
  destruct (every_record_is_accounted_for (R := runtime_failures)
              (mkMainState (R := runtime_failures) [] tt new_parser
                           (mkRecorder []) [])
              mantecas_failures) as (sequence & Hs & Hsub & Hacc).
  exists sequence. split; [exact Hs|]. split; [exact Hsub|].
  exact (Hacc eq_refl).
Defined.

Lemma failure_list_grows_by_one_witness :
  (length (bad_uris
             (main_loop (R := runtime_failures)
                (mkMainState (R := runtime_failures) [] tt new_parser
                             (mkRecorder []) [])
                mantecas_failures).1)
   <= 0 + length mantecas_failures)%nat
  /\ UnicodeDecodeError <> ConnectionError
  /\ forall reason, UnicodeDecodeError <> URLError reason.
Proof.
  split.
  - exact (proj1 (proj2 (failure_list_grows_by_one (R := runtime_failures)
                           (mkMainState (R := runtime_failures) [] tt
                                        new_parser (mkRecorder []) [])
                           mantecas_failures))
             Recorder_raises).
  - exact (proj2 (proj2 (proj2
             (failure_list_grows_by_one (R := runtime_bad)
                (mkMainState (R := runtime_bad) [] tt new_parser
                             (mkRecorder []) [])
                (get_mantecas mantecas_bad).1)))
             UnicodeDecodeError eq_refl).
Defined.

Lemma unknown_url_type_is_recorded_witness :
  main_loop (R := runtime_schemeless)
    (mkMainState (R := runtime_schemeless) [] tt new_parser
                 (mkRecorder []) [])
    [(1%positive, py "foo")]
  = (mkMainState (R := runtime_schemeless) [py "foo"] tt new_parser
                 (mkRecorder []) [(py "foo", NO_ACCESS)],
     None).
Proof.
  exact (proj1 (unknown_url_type_is_recorded (R := runtime_schemeless)
                  (mkMainState (R := runtime_schemeless) [] tt new_parser
                               (mkRecorder []) [])
                  1%positive (py "foo") (py "unknown url type: 'foo'")
                  [] [py "foo"] eq_refl) eq_refl).
Defined.

(** ** More on the fetcher *)

Section FetchMore.
Context {R : Runtime}.

(** X14. A page without a meta refresh costs one GET and is decoded as
    it came; and a charset given in the headers is the one used, whatever
    the body declares. *)
Theorem fetch_without_refresh :
  forall (w w1 : World) (uri : pystr) (first : Response),
    urlopen w uri = (w1, ok first) ->
    re_search RE_REFRESH (contents first) = None ->
    retrieve_uri_contents w uri = (w1, decode_body first)
    /\ forall charset,
         content_charset first = Some charset ->
         retrieve_uri_contents w uri
         = (w1, decode charset (contents first)).
Proof.
  intros w w1 uri first Hopen Hre.
  assert (H : retrieve_uri_contents w uri = (w1, decode_body first)).
  { unfold retrieve_uri_contents, retrieve_body.
    rewrite Hopen. unfold ok at 1. by rewrite Hre. }
  split; [done|]. intros charset Hc. rewrite H.
  unfold decode_body, detect_charset. by rewrite Hc.
Qed.

(** X15. The fetcher follows at most one redirection: the network is
    left either as the first GET left it or as a second GET, for the
    redirected URI, left it. When the page holds a meta refresh and
    [urlparse] refuses the URI of the page, or the target of the meta
    refresh is not ASCII, the fetch ends with that exception and no second
    GET is made. *)
Theorem at_most_one_redirection :
  forall (w : World) (uri : pystr),
    ((retrieve_uri_contents w uri).1 = (urlopen w uri).1
     \/ exists parsed target,
          urlparse uri = ok parsed
          /\ (retrieve_uri_contents w uri).1
             = (urlopen (urlopen w uri).1 (redirected_uri parsed target)).1)
    /\ (forall first g parsed e,
          (urlopen w uri).2 = ok first ->
          re_search RE_REFRESH (contents first) = Some g ->
          urlparse uri = ok parsed ->
          decode_ascii g = raise e ->
          retrieve_uri_contents w uri = ((urlopen w uri).1, raise e))
    /\ (forall first g e,
          (urlopen w uri).2 = ok first ->
          re_search RE_REFRESH (contents first) = Some g ->
          urlparse uri = raise e ->
          retrieve_uri_contents w uri
          = ((urlopen w uri).1, raise (unknown_url_type uri e))).
Proof.
  intros w uri. unfold retrieve_uri_contents, retrieve_body.
  destruct (urlopen w uri) as [w1 [e1|first]] eqn:E1; cbn [fst snd].
  { split; [by left|]. split; [by intros first g parsed e [=]|].
    by intros first g e [=]. }
  destruct (re_search RE_REFRESH (contents first)) as [g|] eqn:Ere.
  2:{ split; [by left|].
      split; [intros first' g' parsed e' [= <-]; by rewrite Ere|].
      intros first' g' e' [= <-]. by rewrite Ere. }
  destruct (urlparse uri) as [e|parsed] eqn:Ep.
  { split; [by left|]. split; [by intros first' g' parsed e' _ _ [=]|].
    by intros first' g' e' _ _ [= <-]. }
  destruct (decode_ascii g) as [e|target] eqn:Eg.
  - split; [by left|]. split; [|by intros first' g' e' _ _ [=]].
    intros first' g' parsed' e' [= <-]. rewrite Ere. intros [= <-] _.
    rewrite Eg. by intros [= <-].
  - split; [|split; [|by intros first' g' e' _ _ [=]]].
    + right. exists parsed, target. split; [done|].
      by destruct (urlopen w1 (redirected_uri parsed target)) as [w2 [|]].
    + intros first' g' parsed' e' [= <-]. rewrite Ere. intros [= <-] _.
      rewrite Eg. discriminate.
Qed.
End FetchMore.

Lemma fetch_without_refresh_witness :
  retrieve_uri_contents (R := Scripted site_ab []) [] uri_b
  = ([uri_b], ok (py "caf" ++ [233%N])).
Proof.
  exact (proj1 (fetch_without_refresh (R := Scripted site_ab [])
                  [] [uri_b] uri_b page_b eq_refl eq_refl)).
Defined.

(** ** The run and the workbook *)

Lemma columns_ok_sorted (base : positive) (s : SkimmedExcel) :
  columns_ok base s -> columns_sorted base s.
Proof.
  intros (Hnd & Hsorted & Hall & _). split; [done|]. split; [done|].
  eapply Forall_impl; [exact Hall|]. cbv beta. intros c Hc. lia.
Qed.

(** One turn of the loop of [add_metadata] on a sink whose assignment is
    in order: the assignment stays sorted, and within the sheet when the
    turn returns. *)
Lemma SkimmedExcel_add_item_run (base row : positive) (s : SkimmedExcel)
    (k v : pystr) :
  columns_ok base s ->
  columns_sorted base (SkimmedExcel_add_item row s (k, v)).1
  /\ ((SkimmedExcel_add_item row s (k, v)).2 = None ->
      columns_ok base (SkimmedExcel_add_item row s (k, v)).1).
Proof.
  intros Hok.
  destruct (SkimmedExcel_add_item_spec base row s k v)
    as (_ & _ & _ & _ & col & Hcol & _ & Hok' & _).
  destruct (SkimmedExcel_add_item_cases row s k v)
    as [(col' & Hcol' & Heq)
       |(Hnew & assigned & -> & Hget
         & [(Hout & Heq & Hraised)
           |(Hin & header & -> & [(Hraised & Heq)|(Hreturned & Heq)])])].
  - assert (columns_ok base (SkimmedExcel_add_item row s (k, v)).1).
    { destruct Hok as (Hnd & Hsorted & Hall & Hbase).
      assert (Hc : (col' <= max_column (sheet s))%positive).
      { rewrite Forall_forall in Hall.
        apply dict_get_values, Hall in Hcol'. lia. }
      rewrite Heq. unfold columns_ok. cbn [fst metadata_columns sheet].
      by rewrite max_column_ws_cell. }
    split; [by apply columns_ok_sorted | done].
  - split; [|done]. rewrite Heq.
    destruct Hok as (Hnd & Hsorted & Hall & Hbase).
    rewrite Forall_forall in Hall.
    unfold columns_sorted. cbn [metadata_columns].
    rewrite dict_values_app. unfold dict_values at 2 4. cbn [map snd].
    split; [by apply NoDup_keys_new|]. split.
    + apply StronglySorted_app_2; [|done|repeat constructor].
      intros x1 x2 H1 H2. apply list_elem_of_singleton in H2. subst x2.
      apply Hall in H1. lia.
    + apply Forall_app. split.
      * apply Forall_forall. intros c Hc. apply Hall in Hc. lia.
      * constructor; [lia|constructor].
  - assert (columns_ok base (SkimmedExcel_add_item row s (k, v)).1).
    { apply Hok'; [done|]. rewrite Heq in Hcol.
      cbn [fst metadata_columns] in Hcol. rewrite Hget in Hcol.
      by injection Hcol as <-. }
    split; [by apply columns_ok_sorted | done].
  - assert (columns_ok base (SkimmedExcel_add_item row s (k, v)).1).
    { apply Hok'; [done|]. rewrite Heq in Hcol.
      cbn [fst metadata_columns] in Hcol. rewrite Hget in Hcol.
      by injection Hcol as <-. }
    split; [by apply columns_ok_sorted | done].
Qed.

Lemma SkimmedExcel_add_metadata_run (base row : positive) (uri : pystr)
    (metadata : dict pystr) (s : SkimmedExcel) :
  columns_ok base s ->
  columns_sorted base (add_metadata s row uri metadata).1
  /\ ((add_metadata s row uri metadata).2 = None ->
      columns_ok base (add_metadata s row uri metadata).1).
Proof.
  cbn [add_metadata SkimmedExcel_file]. unfold SkimmedExcel_add_metadata.
  revert s. induction metadata as [|[k v] metadata IH]; intros s Hok;
    cbn [SkimmedExcel_add_items].
  { split; [by apply columns_ok_sorted | done]. }
  destruct (SkimmedExcel_add_item_run base row s k v Hok) as [Hsorted Hret].
  destruct (SkimmedExcel_add_item row s (k, v)) as [s1 [e|]];
    cbn [fst snd] in *; [by split | by apply IH, Hret].
Qed.

Lemma SkimmedExcel_calls_original (ws : list Cell)
    (sequence : list (positive * pystr * dict pystr)) (r c : positive) :
  (c <= max_column ws)%positive ->
  ws_get (sheet (sink_calls (SkimmedExcel_init ws) sequence)) r c
  = ws_get ws r c.
Proof.
  intros Hc.
  destruct (SkimmedExcel_calls_spec (max_column ws) sequence
              (SkimmedExcel_init ws)) as (_ & _ & _ & H & _).
  destruct H as [_ H]; [simpl; lia | constructor | by apply H].
Qed.

Section RunOnWorkbook.
Context {R : Runtime}.

(** The loop of [main] on a spreadsheet sink: an exception of the sink
    leaves the loop, so every call but the last has returned. *)
Lemma main_loop_workbook (base : positive)
    (mantecas : list (positive * pystr)) (st : MainState SkimmedExcel) :
  columns_ok base (skimmedfile st) ->
  columns_sorted base (skimmedfile (main_loop st mantecas).1)
  /\ ((main_loop st mantecas).2 = None ->
      columns_ok base (skimmedfile (main_loop st mantecas).1)).
Proof.
  revert st. induction mantecas as [|[row uri] mantecas IH]; intros st Hok.
  { split; [by apply columns_ok_sorted | done]. }
  cbn [main_loop].
  pose proof (main_iteration_cases st row uri) as Hcases.
  destruct (main_iteration st row uri) as [st1 r1]. cbn [fst snd] in Hcases.
  destruct Hcases as [(reason & _ & -> & Hsink & _)
                     |[(e & -> & _ & Hsink & _)
                      |(metadata & bad & Hsink & _ & Hcall)]].
  - apply IH. by rewrite Hsink.
  - cbn [fst snd]. rewrite Hsink. split; [by apply columns_ok_sorted | done].
  - destruct (SkimmedExcel_add_metadata_run base row uri metadata
                (skimmedfile st) Hok) as [Hsorted Hret].
    destruct Hcall as [(Hnone & -> & _)
                      |[(e & reason & Hraised & He & _)
                       |(e & _ & _ & -> & _)]].
    + apply IH. rewrite Hsink. by apply Hret.
    + apply SkimmedExcel_raises in Hraised. congruence.
    + cbn [fst snd]. rewrite Hsink. by split.
Qed.
End RunOnWorkbook.

(** X16. A run of [main] on a workbook never changes a cell in the
    columns the sheet came with, whatever the network serves, whatever
    the source or the sink raises and whether the run ends normally or on
    an exception: all it writes lies beyond the last column of the
    original sheet, every key has one column and the columns grow in
    order of assignment; and when the run ends normally every column
    assigned is within the sheet. *)
Theorem main_keeps_original_sheet :
  forall (R : Runtime) (w : World) (t : Tokenizer) (M : Type)
         (MF : MantecaFile M) (mantecafile : M) (ws : list Cell)
         (r c : positive),
    (c <= max_column ws)%positive ->
    ws_get (sheet (skimmedfile
                     (main w t mantecafile (SkimmedExcel_init ws)).1)) r c
    = ws_get ws r c
    /\ columns_sorted (max_column ws)
         (skimmedfile (main w t mantecafile (SkimmedExcel_init ws)).1)
    /\ ((main w t mantecafile (SkimmedExcel_init ws)).2 = None ->
        columns_ok (max_column ws)
          (skimmedfile (main w t mantecafile (SkimmedExcel_init ws)).1)).
Proof.
  intros R w t M MF mantecafile ws r c Hc. unfold main.
  destruct (get_mantecas mantecafile) as [mantecas failure].
  set (st0 := mkMainState w t
                (Parser_init CONFIG_K_DIV_CLASS CONFIG_V_DIV_CLASS)
                (SkimmedExcel_init ws) []).
  destruct (main_loop_trace mantecas st0) as (sequence & Hcalls & _).
  destruct (main_loop_workbook (max_column ws) mantecas st0
              (columns_ok_init ws)) as [Hsorted Hret].
  assert (Hsame : skimmedfile
                    (match main_loop st0 mantecas with
                     | (st, None) => (st, failure)
                     | (st, Some e) => (st, Some e)
                     end).1
                  = skimmedfile (main_loop st0 mantecas).1)
    by (by destruct (main_loop st0 mantecas) as [st [e|]]).
  rewrite Hsame. split; [|split; [done|]].
  - rewrite Hcalls. by apply SkimmedExcel_calls_original.
  - intros Hnone. apply Hret.
    by destruct (main_loop st0 mantecas) as [st [e|]].
Qed.

Lemma at_most_one_redirection_witness :
  retrieve_uri_contents (R := runtime_latin_target) [] uri_a
  = ([uri_a], raise UnicodeDecodeError).
Proof.
  exact (proj1 (proj2
           (at_most_one_redirection (R := runtime_latin_target) [] uri_a))
           page_latin_target (pyb "/caf" ++ [xe9])
           (mkParseResult (py "http") (py "host") (py "/a.html"))
           UnicodeDecodeError eq_refl eq_refl eq_refl eq_refl).
Defined.

Lemma main_keeps_original_sheet_witness :
  (main (R := runtime_nested) [] tt (mkMantecaText [uri_a ++ [10%N]])
        (SkimmedExcel_init wide_sheet)).2
  = Some (ValueError (py "Invalid column index 18279"))
  /\ ws_get (sheet (skimmedfile
                      (main (R := runtime_nested) [] tt
                            (mkMantecaText [uri_a ++ [10%N]])
                            (SkimmedExcel_init wide_sheet)).1)) 1 18278
     = Some (mkCell 1 18278 (py "s") (StrValue (py "ZZZ"))).
Proof.
  split; [reflexivity|].
  exact (proj1 (main_keeps_original_sheet runtime_nested [] tt MantecaText
                  MantecaText_file (mkMantecaText [uri_a ++ [10%N]])
                  wide_sheet 1%positive 18278%positive
                  ltac:(vm_compute; discriminate))).
Defined.

(** ** A page the parser fails on *)

Lemma feed_events_raises (p : Parser) (evs : list Event) (e : exn) :
  feed_events p evs = raise e -> e = TypeError.
Proof.
  revert p. induction evs as [|ev evs IH]; intros p; simpl; [discriminate|].
  unfold bind. destruct (handle_event p ev) as [e'|q] eqn:E.
  - intros [= <-]. by apply handle_event_raises in E as [-> _].
  - apply IH.
Qed.

Section ParserFailure.
Context {R : Runtime} {Sink : Type} {SF : SkimmedFile Sink}.

End ParserFailure.


(** ** What the patterns capture *)

Lemma take_run_Forall (cls : byte -> bool) (s : bytes) (j : nat) :
  (j <= run_length cls s)%nat ->
  Forall (fun c => cls c = true) (take j s).
Proof.
  revert j. induction s as [|c s IH]; intros [|j]; simpl; intros Hj;
    [constructor | constructor | constructor |].
  destruct (cls c) eqn:E; [|lia].
  constructor; [done|]. apply IH. lia.
Qed.

Lemma match_here_group_class (cls0 : byte -> bool) (pat : list item) :
  (forall cls min, In (Rep cls min true) pat ->
                   cls = cls0 /\ (1 <= min)%nat) ->
  forall (s : bytes) (group : option bytes) (g : bytes),
    match_here pat s group = Some (Some g) ->
    group = Some g
    \/ (g <> [] /\ Forall (fun c => cls0 c = true) g).
Proof.
  induction pat as [|it pat IH]; simpl; intros Hpat s group g H.
  - left. congruence.
  - assert (Hpat' : forall cls min, In (Rep cls min true) pat ->
                                    cls = cls0 /\ (1 <= min)%nat)
      by (intros cls min Hin; apply Hpat; by right).
    destruct it as [l|cls min capture].
    + destruct (match_lit l s) as [s'|]; [|discriminate].
      by apply (IH Hpat' s' group).
    + apply give_back_inv in H as (j & Hj & H).
      apply (IH Hpat') in H as [H|H]; [|by right].
      destruct capture; [|by left].
      injection H as <-. right.
      destruct (Hpat cls min (or_introl eq_refl)) as [-> Hmin]. split.
      * pose proof (run_length_le cls0 s).
        intros Ht. apply (f_equal length) in Ht.
        rewrite length_take in Ht. simpl in Ht. lia.
      * apply take_run_Forall. lia.
Qed.

Lemma re_search_group_class (cls0 : byte -> bool) (pat : list item)
    (s g : bytes) :
  (forall cls min, In (Rep cls min true) pat ->
                   cls = cls0 /\ (1 <= min)%nat) ->
  re_search pat s = Some g ->
  g <> [] /\ Forall (fun c => cls0 c = true) g.
Proof.
  intros Hpat. unfold re_search.
  destruct (search pat s) as [[g'|]|] eqn:E; try discriminate.
  intros [= ->]. revert E.
  induction s as [|c s IH]; simpl;
    (destruct (match_here pat _ None) as [r|] eqn:Em;
     [intros [= ->];
      by destruct (match_here_group_class cls0 pat Hpat _ None g Em)|]).
  - discriminate.
  - apply IH.
Qed.

(** X18. What the three patterns of the fetcher capture, the target of
    a meta refresh or the name of a charset, is never empty and never
    holds a double quote. *)
Theorem captured_text_has_no_quote :
  forall (body g : bytes),
    re_search RE_REFRESH body = Some g
    \/ re_search RE_CONTENT_TYPE body = Some g
    \/ re_search RE_META_CHARSET body = Some g ->
    g <> [] /\ Forall (fun c => c <> x22) g.
Proof.
  intros body g H.
  assert (Hg : g <> [] /\ Forall (fun c => not_byte 34 c = true) g).
  { destruct H as [H|[H|H]];
      (eapply re_search_group_class; [|exact H]);
      intros cls min Hin; simpl in Hin;
      repeat (destruct Hin as [Hin|Hin]; try discriminate Hin);
      try done; injection Hin as <- <-; split; (reflexivity || lia). }
  destruct Hg as [Hne Hall]. split; [done|].
  eapply Forall_impl; [exact Hall|]. cbv beta. by intros c Hc ->.
Qed.

Lemma captured_text_has_no_quote_witness :
  pyb "/b.html" <> [] /\ Forall (fun c => c <> x22) (pyb "/b.html").
Proof.
  exact (captured_text_has_no_quote (contents page_a) (pyb "/b.html")
           (or_introl eq_refl)).
Defined.

(** ** The redirected URI *)

Lemma filter_ctl_id (url : list N) :
  Forall (fun c => url_char_ok c = true) url ->
  filter (fun c => negb ((c =? 9) || (c =? 10) || (c =? 13))%N) url = url.
Proof.
  induction url as [|c url IH]; intros H; [done|].
  apply Forall_cons in H as [Hc H].
  rewrite filter_cons_True; [by rewrite IH|].
  unfold url_char_ok in Hc. by rewrite Hc.
Qed.

Lemma split_first_app (f : N -> bool) (a b : pystr) (c : N) :
  Forall (fun x => f x = false) a -> f c = true ->
  split_first f (a ++ c :: b) = Some (a, b).
Proof.
  induction a as [|x a IH]; simpl; intros Ha Hc.
  - by rewrite Hc.
  - apply Forall_cons in Ha as [-> Ha]. by rewrite IH.
Qed.

Lemma span_until_app (f : N -> bool) (a b : pystr) (c : N) :
  Forall (fun x => f x = false) a -> f c = true ->
  span_until f (a ++ c :: b) = (a, c :: b).
Proof.
  induction a as [|x a IH]; simpl; intros Ha Hc.
  - by rewrite Hc.
  - apply Forall_cons in Ha as [-> Ha]. by rewrite IH.
Qed.

(** Arithmetic on the character tests. *)
Ltac n_cases :=
  cbv [is_alpha is_digit scheme_char lower_char url_char_ok netloc_char_ok]
    in *; lia.

Lemma scheme_char_facts (c : N) :
  scheme_char c = true ->
  (c <=? 32)%N = false /\ url_char_ok c = true /\ (c =? 58)%N = false
  /\ scheme_char (lower_char c) = true
  /\ lower_char (lower_char c) = lower_char c
  /\ (is_alpha c = true -> is_alpha (lower_char c) = true).
Proof.
  intros H. repeat split; [n_cases | n_cases | n_cases | | | ].
  - cbv [lower_char scheme_char is_alpha is_digit] in *.
    destruct ((65 <=? c) && (c <=? 90))%N eqn:E; lia.
  - cbv [lower_char scheme_char is_alpha is_digit] in *.
    destruct ((65 <=? c) && (c <=? 90))%N eqn:E; [|by rewrite E].
    destruct ((65 <=? c + 32) && (c + 32 <=? 90))%N eqn:E'; lia.
  - intros Ha. cbv [lower_char scheme_char is_alpha is_digit] in *.
    destruct ((65 <=? c) && (c <=? 90))%N eqn:E; lia.
Qed.

Lemma slash_slash_match {A} (url : pystr) (f : pystr -> A) (d : A) :
  match url with
  | 47%N :: 47%N :: url' => f url'
  | _ => d
  end = if startswith (py "//") url then f (drop 2 url) else d.
Proof.
  destruct url as [|a [|b url']]; try reflexivity.
  - destruct a as [|p]; [reflexivity|].
    do 6 (try destruct p as [p|p|]; try reflexivity).
  - destruct a as [|p]; [reflexivity|].
    do 6 (try destruct p as [p|p|]; try reflexivity).
    destruct b as [|q]; [reflexivity|].
    do 6 (try destruct q as [q|q|]; try reflexivity).
Qed.

Lemma split_first_inv (f : N -> bool) (s a b : pystr) :
  split_first f s = Some (a, b) -> exists c, s = a ++ c :: b.
Proof.
  revert a. induction s as [|x s IH]; simpl; intros a; [discriminate|].
  destruct (f x).
  - intros [= <- <-]. by exists x.
  - destruct (split_first f s) as [[a' b']|]; [|discriminate].
    intros [= <- <-]. destruct (IH a' eq_refl) as [c ->]. by exists c.
Qed.

Lemma span_until_inv (f : N -> bool) (s a b : pystr) :
  span_until f s = (a, b) ->
  s = a ++ b /\ Forall (fun x => f x = false) a.
Proof.
  revert a. induction s as [|x s IH]; simpl; intros a.
  - intros [= <- <-]. by split.
  - destruct (f x) eqn:E.
    + intros [= <- <-]. by split.
    + destruct (span_until f s) as [a' b']. intros [= <- <-].
      destruct (IH a' eq_refl) as [-> Ha]. split; [done|]. by constructor.
Qed.

Section RedirectedUri.
Context {R : Runtime}.

(** [urlparse] on a URI made of a scheme, a network location and a
    target: the split gives the three parts back, and the result depends
    on the two checks of the network location. *)
Lemma urlparse_of_parts (sch host target : pystr) :
  scheme_ok sch ->
  Forall (fun c => netloc_char_ok c = true) host ->
  startswith (py "/") target = true ->
  Forall (fun c => url_char_ok c = true) target ->
  urlparse (sch ++ py "://" ++ host ++ target)
  = let* _ := check_brackets host in
    let* _ := checknetloc host in
    ok (mkParseResult sch host target).
Proof.
  intros (Hhead & Hchars & Hlower) Hhost Hslash Htarget.
  destruct sch as [|c sch]; [done|].
  destruct target as [|t0 target]; [discriminate|].
  change (py "/") with [47%N] in Hslash. cbn [startswith] in Hslash.
  apply andb_prop in Hslash as [Ht0 _]. apply N.eqb_eq in Ht0. subst t0.
  assert (Hall : Forall (fun x => scheme_char x = true) (c :: sch))
    by (apply Forall_forall; intros x Hx; apply list_elem_of_In in Hx;
        by apply (proj1 (forallb_forall _ _) Hchars)).
  unfold urlparse.
  assert (H1 : lstrip_by (fun c => (c <=? 32)%N)
                 ((c :: sch) ++ py "://" ++ host ++ 47%N :: target)
               = (c :: sch) ++ py "://" ++ host ++ 47%N :: target).
  { simpl. apply Forall_cons in Hall as [Hc _].
    apply scheme_char_facts in Hc as (-> & _). done. }
  rewrite H1. clear H1.
  unfold pystr in *.
  rewrite filter_ctl_id.
  2:{ apply Forall_app. split.
      - eapply Forall_impl; [exact Hall|]. intros x Hx.
        by apply scheme_char_facts in Hx as (_ & Hx & _).
      - apply Forall_app. split; [by repeat constructor|].
        apply Forall_app. split; [|done].
        eapply Forall_impl; [exact Hhost|]. cbv beta. intros x Hx.
        unfold netloc_char_ok in Hx. by apply andb_prop in Hx as [_ Hx]. }
  change (py "://" ++ host ++ 47%N :: target)
    with (58%N :: 47%N :: 47%N :: host ++ 47%N :: target).
  rewrite (split_first_app (N.eqb 58) (c :: sch)); [| |done].
  2:{ eapply Forall_impl; [exact Hall|]. cbv beta. intros x Hx.
      apply scheme_char_facts in Hx as (_ & _ & Hx & _).
      by rewrite N.eqb_sym. }
  rewrite Hhead, Hchars. cbn [andb]. rewrite Hlower.
  rewrite (span_until_app _ host target 47%N); [done| |done].
  eapply Forall_impl; [exact Hhost|]. cbv beta. intros x Hx.
  unfold netloc_char_ok in Hx. apply andb_prop in Hx as [Hx _].
  by apply negb_true_iff in Hx.
Qed.

(** What [urlparse] returns, when it returns: a scheme that is empty or
    well formed, and a network location that has passed the two checks. *)
Lemma urlparse_wf (uri : pystr) (parsed : ParseResult) :
  urlparse uri = ok parsed ->
  (scheme parsed = [] \/ scheme_ok (scheme parsed))
  /\ Forall (fun c => netloc_char_ok c = true) (netloc parsed)
  /\ check_brackets (netloc parsed) = ok tt
  /\ checknetloc (netloc parsed) = ok tt.
Proof.
  unfold urlparse.
  set (u := filter _ (lstrip_by _ uri)).
  assert (Hu : Forall (fun c => url_char_ok c = true) u).
  { apply Forall_forall. intros x Hx. apply list_elem_of_filter in Hx as [Hx _].
    unfold url_char_ok. by apply Is_true_true in Hx. }
  assert (Hnet : forall sch url,
             Forall (fun c => url_char_ok c = true) url ->
             match url with
             | 47%N :: 47%N :: url' =>
                 let '(netloc, rest) :=
                   span_until
                     (fun c => (c =? 47) || (c =? 63) || (c =? 35))%N
                     url' in
                 let* _ := check_brackets netloc in
                 let* _ := checknetloc netloc in
                 ok (mkParseResult sch netloc rest)
             | _ => ok (mkParseResult sch [] url)
             end = ok parsed ->
             scheme parsed = sch
             /\ Forall (fun c => netloc_char_ok c = true) (netloc parsed)
             /\ check_brackets (netloc parsed) = ok tt
             /\ checknetloc (netloc parsed) = ok tt).
  { intros sch url Hurl. rewrite slash_slash_match.
    destruct (startswith (py "//") url).
    2:{ intros [= <-]. by repeat split. }
    destruct (span_until _ (drop 2 url)) as [n r] eqn:Es.
    destruct (check_brackets n) as [e|[]] eqn:Eb; [discriminate|].
    destruct (checknetloc n) as [e|[]] eqn:En; [discriminate|].
    intros [= <-]. cbn [scheme netloc].
    split; [done|]. split; [|by split].
    apply span_until_inv in Es as [Hs Hn].
    assert (Hd : Forall (fun c => url_char_ok c = true) (n ++ r))
      by (rewrite <- Hs; by apply Forall_drop).
    apply Forall_app in Hd as [Hd _].
    apply Forall_forall. intros x Hx.
    rewrite Forall_forall in Hd, Hn. unfold netloc_char_ok.
    rewrite (Hd x Hx), (Hn x Hx). done. }
  destruct (split_first (N.eqb 58) u) as [[[|c before] after]|] eqn:Es.
  - intros H. destruct (Hnet [] u Hu H) as (H1 & H2). rewrite H1.
    split; [by left|done].
  - apply split_first_inv in Es as [c' Es].
    assert (Hafter : Forall (fun c => url_char_ok c = true) after).
    { rewrite Es in Hu. apply Forall_app in Hu as [_ Hu].
      by apply Forall_cons in Hu as [_ Hu]. }
    destruct (is_alpha c && forallb scheme_char (c :: before)) eqn:Ec.
    + intros H.
      destruct (Hnet (map lower_char (c :: before)) after Hafter H)
        as (H1 & H2).
      rewrite H1. split; [right|done].
      apply andb_prop in Ec as [Ha Hb].
      assert (Hall : forall x, In x (c :: before) -> scheme_char x = true)
        by (by apply forallb_forall).
      split; [|split].
      * simpl. assert (Hc := Hall c (or_introl eq_refl)).
        apply scheme_char_facts in Hc as (_ & _ & _ & _ & _ & Hc).
        by apply Hc.
      * apply forallb_forall. intros x Hx.
        apply in_map_iff in Hx as (y & <- & Hy). apply Hall in Hy.
        by apply scheme_char_facts in Hy as (_ & _ & _ & Hy & _).
      * rewrite map_map. apply map_ext_in. intros x Hx. apply Hall in Hx.
        by apply scheme_char_facts in Hx as (_ & _ & _ & _ & Hx & _).
    + intros H. destruct (Hnet [] u Hu H) as (H1 & H2). rewrite H1.
      split; [by left|done].
  - intros H. destruct (Hnet [] u Hu H) as (H1 & H2). rewrite H1.
    split; [by left|done].
Qed.
End RedirectedUri.

(** X19. The URI of a redirection parses back to the scheme and the
    network location of the original URI, followed by the target as it
    stood in the page: nothing of the original path, query or fragment is
    left, and [urlparse], which accepted the original URI, accepts the
    new one. This holds when the original URI has a scheme and a network
    location and the target starts with a slash and holds no tab, newline
    or return. *)
Theorem redirected_uri_parses_back :
  forall (R : Runtime) (uri target : pystr) (parsed : ParseResult),
    urlparse uri = ok parsed ->
    scheme parsed <> [] ->
    netloc parsed <> [] ->
    startswith (py "/") target = true ->
    Forall (fun c => url_char_ok c = true) target ->
    urlparse (redirected_uri parsed target)
    = ok (mkParseResult (scheme parsed) (netloc parsed) target).
Proof.
  intros R uri target parsed Hp Hs Hn Hslash Htarget.
  destruct (urlparse_wf uri parsed Hp) as ([Hnil|Hok] & Hhost & Hb & Hc);
    [done|].
  unfold redirected_uri. rewrite urlunparse_target; [|done|done|].
  - rewrite Hslash, urlparse_of_parts by done. by rewrite Hb, Hc.
  - by destruct target.
Qed.

Lemma redirected_uri_parses_back_witness :
  urlparse (R := runtime_offline)
    (redirected_uri (mkParseResult (py "http") (py "host") (py "/a.html"))
                    (py "/b.html?x=1#top"))
  = ok (mkParseResult (py "http") (py "host") (py "/b.html?x=1#top")).
Proof.
  apply (redirected_uri_parses_back runtime_offline uri_a
           (py "/b.html?x=1#top")
           (mkParseResult (py "http") (py "host") (py "/a.html")));
    [reflexivity | discriminate | discriminate | reflexivity |].
  repeat constructor.
Defined.

(** ** The name of the output file *)

(** Two splits of a list at the first element that satisfies a test are
    the same split. *)
Lemma first_split_unique {A} (f : A -> bool) (b b' a a' : list A) (c c' : A) :
  b ++ c :: a = b' ++ c' :: a' ->
  Forall (fun x => f x = false) b -> Forall (fun x => f x = false) b' ->
  f c = true -> f c' = true ->
  b = b' /\ c = c'.
Proof.
  revert b'. induction b as [|x b IH]; intros [|y b'] H Hb Hb' Hc Hc';
    simpl in H.
  - by injection H as ->.
  - injection H as -> _. apply Forall_cons in Hb' as [Hy _]. congruence.
  - injection H as -> _. apply Forall_cons in Hb as [Hx _]. congruence.
  - injection H as -> H.
    apply Forall_cons in Hb as [_ Hb]. apply Forall_cons in Hb' as [_ Hb'].
    destruct (IH b' H Hb Hb' Hc Hc') as [-> ->]. done.
Qed.

Lemma rfind_from_spec (c : N) (s : pystr) (i : Z) :
  (0 <= i)%Z ->
  (rfind_from c s i = -1 /\ Forall (fun x => x <> c) s)%Z
  \/ exists a b, s = a ++ c :: b /\ Forall (fun x => x <> c) b
                 /\ rfind_from c s i = (i + Z.of_nat (length a))%Z.
Proof.
  revert i. induction s as [|x s IH]; intros i Hi; simpl.
  - left. by split.
  - destruct (IH (i + 1)%Z ltac:(lia)) as [[Hr Hall]|(a & b & -> & Hb & Hr)].
    + rewrite Hr. simpl. destruct (N.eqb_spec x c) as [->|Hne].
      * right. exists [], s. simpl. repeat split; [done|lia].
      * left. split; [done|]. by constructor.
    + right. exists (x :: a), b. rewrite Hr.
      destruct (Z.leb_spec 0 (i + 1 + Z.of_nat (length a))); [|lia].
      repeat split; [done|]. simpl length. lia.
Qed.

Lemma rfind_spec (c : N) (s : pystr) :
  (rfind c s = -1 /\ Forall (fun x => x <> c) s)%Z
  \/ exists a b, s = a ++ c :: b /\ Forall (fun x => x <> c) b
                 /\ rfind c s = Z.of_nat (length a).
Proof.
  unfold rfind. destruct (rfind_from_spec c s 0 ltac:(lia)) as [H|H]; auto.
Qed.

Lemma splitext_join (p : pystr) : (splitext p).1 ++ (splitext p).2 = p.
Proof.
  unfold splitext. destruct (_ && _); simpl.
  - apply take_drop.
  - apply app_nil_r.
Qed.

(** Two splits of a list at the last occurrence of a character agree. *)
Lemma last_split_unique (c : N) (a a' b b' : pystr) :
  a ++ c :: b = a' ++ c :: b' ->
  Forall (fun x => x <> c) b -> Forall (fun x => x <> c) b' ->
  a = a' /\ b = b'.
Proof.
  intros H Hb Hb'.
  pose proof (f_equal (@rev N) H) as Hr.
  rewrite !rev_app_distr in Hr. simpl in Hr.
  rewrite <- !app_assoc in Hr. simpl in Hr.
  assert (rev b = rev b' /\ c = c) as [Hrev _].
  { apply (first_split_unique (fun x => (x =? c)%N) (rev b) (rev b')
             (rev a) (rev a') c c Hr).
    - apply List.Forall_rev. eapply Forall_impl; [exact Hb|].
      cbv beta. intros x Hx. by apply N.eqb_neq.
    - apply List.Forall_rev. eapply Forall_impl; [exact Hb'|].
      cbv beta. intros x Hx. by apply N.eqb_neq.
    - apply N.eqb_refl.
    - apply N.eqb_refl. }
  apply (f_equal (@rev N)) in Hrev. rewrite !rev_involutive in Hrev.
  subst b'. split; [|done]. by apply app_inv_tail in H.
Qed.

Lemma startswith_app (a b : pystr) :
  startswith a b = true <-> exists more, b = a ++ more.
Proof.
  revert b. induction a as [|x a IH]; intros [|y b]; simpl.
  - split; [by exists []|done].
  - split; [by exists (y :: b)|done].
  - split; [done|by intros [more H]].
  - rewrite andb_true_iff, N.eqb_eq, IH. split.
    + intros [-> [more ->]]. by exists more.
    + intros [more [= -> ->]]. split; [done|by exists more].
Qed.

Lemma endswith_app (suffix s : pystr) :
  endswith suffix s = true <-> exists stem, s = stem ++ suffix.
Proof.
  unfold endswith. rewrite startswith_app. split.
  - intros [more H]. exists (rev more).
    apply (f_equal (@rev N)) in H.
    by rewrite rev_involutive, rev_app_distr, rev_involutive in H.
  - intros [stem ->]. exists (rev stem). by rewrite rev_app_distr.
Qed.

(** The extension [splitext] gives is empty or is the text from the last
    dot of the name on. *)
Lemma splitext_ext (p : pystr) :
  splitext p = (p, [])
  \/ exists a b, p = a ++ 46%N :: b /\ Forall (fun x => x <> 46%N) b
                 /\ splitext p = (a, 46%N :: b).
Proof.
  unfold splitext. destruct (_ && _) eqn:E; [|by left]. right.
  apply andb_prop in E as [E _].
  destruct (rfind_spec 46 p) as [[Hr Hall]|(a & b & Hp & Hb & Hr)].
  - exfalso. rewrite Hr in E.
    destruct (rfind_spec 92 p) as [[H1 _]|(? & ? & _ & _ & H1)];
      destruct (rfind_spec 47 p) as [[H2 _]|(? & ? & _ & _ & H2)];
      rewrite H1, H2 in E; lia.
  - exists a, b. split; [done|]. split; [done|].
    rewrite Hr, Nat2Z.id. rewrite Hp at 1 2.
    by rewrite take_app_length, drop_app_length.
Qed.

(** X20. The name of the output file is never the name of the input
    file: it is four characters longer. For an input that [main] takes for
    a workbook, the output name ends with the same extension, so that it
    is taken for a workbook too, except when [splitext] finds no extension
    (a name such as [.xlsx], all dots before the last one), where [_out]
    goes after the whole name. *)
Theorem output_filename_spec :
  forall (input_filename : pystr),
  output_filename input_filename <> input_filename
  /\ length (output_filename input_filename)
     = (length input_filename + 4)%nat
  /\ (is_excel input_filename = true ->
      output_filename input_filename = input_filename ++ py "_out"
      \/ is_excel (output_filename input_filename) = true).
Proof.
  intros input_filename. unfold output_filename.
  assert (Hlen : forall root ext : pystr,
             root ++ ext = input_filename ->
             length (root ++ py "_out" ++ ext)
             = (length input_filename + 4)%nat).
  { intros root ext <-. rewrite !length_app. simpl. lia. }
  pose proof (splitext_join input_filename) as Hjoin.
  destruct (splitext_ext input_filename)
    as [Hs|(a & b & Hp & Hb & Hs)]; rewrite Hs in Hjoin |- *; simpl in Hjoin.
  - split; [|split].
    + intros H. apply (f_equal length) in H.
      rewrite (Hlen _ _ Hjoin) in H. lia.
    + by apply Hlen.
    + intros _. left. by rewrite app_nil_r.
  - split; [|split].
    + intros H. apply (f_equal length) in H.
      rewrite (Hlen _ _ Hjoin) in H. lia.
    + by apply Hlen.
    + intros Hx. right. unfold is_excel in *.
      apply orb_prop in Hx. apply orb_true_iff.
      assert (Hkeep : forall suffix : pystr,
                 Forall (fun x => x <> 46%N) suffix ->
                 endswith (46%N :: suffix) input_filename = true ->
                 endswith (46%N :: suffix)
                          (a ++ py "_out" ++ 46%N :: b) = true).
      { intros suffix Hsuf He. apply endswith_app in He as [stem He].
        rewrite Hp in He.
        destruct (last_split_unique 46 a stem b suffix He Hb Hsuf) as [_ ->].
        apply endswith_app. exists (a ++ py "_out").
        by rewrite <- app_assoc. }
      destruct Hx as [Hx|Hx]; [left|right]; apply Hkeep; try done;
        repeat constructor; discriminate.
Qed.

Lemma output_filename_spec_witness :
  output_filename (py "C:\libros\lista.xlsx") = py "C:\libros\lista_out.xlsx"
  /\ output_filename (py "C:\libros\.xlsx") = py "C:\libros\.xlsx_out"
  /\ is_excel (output_filename (py "C:\libros\lista.xlsx")) = true.
Proof.
  split; [reflexivity|]. split; [reflexivity|].
  destruct (proj2 (proj2 (output_filename_spec (py "C:\libros\lista.xlsx")))
              eq_refl) as [H|H]; [discriminate H | exact H].
Defined.

Lemma normalize_words_witness :
  normalize (normalize ([32%N; 10%N] ++ py "Madrid  :" ++ [9%N]))
  = normalize ([32%N; 10%N] ++ py "Madrid  :" ++ [9%N]).
Proof.
  exact (proj1 (proj2 (proj2
           (normalize_words ([32%N; 10%N] ++ py "Madrid  :" ++ [9%N]))))).
Defined.

Lemma columns_are_consecutive_witness :
  Pos.to_nat 2 = (Pos.to_nat (max_column sample_sheet) + 1)%nat.
Proof.
  exact (proj2 (columns_are_consecutive sample_sheet
                  [(2%positive, uri_a, [(py "Autor", py "Cervantes")]);
                   (3%positive, uri_b, [(py "Autor", py "Lope")])]
                  ltac:(vm_compute; repeat constructor; discriminate))
           0%nat (py "[sm] Autor") 2%positive eq_refl).
Defined.
